(** * todo-app-phase1: the task store, its validators and its persistence

    A shallow embedding of [src/services/task_service.py],
    [src/models/task.py] and the commands of [src/cli/main.py].  Python text
    is modelled by [string] (one [ascii] per character; characters above 127
    are carried unchanged and are neither letters nor whitespace), the task
    dictionary by an association list in insertion order, exceptions by an
    explicit result type, and the [TaskService] object by a record that every
    method threads through.  Of the standard library, [strftime] and
    [datetime.fromisoformat] are modelled as CPython 3.11 on glibc computes
    them. *)

From Stdlib Require Import List String Ascii Bool Arith NArith ZArith Lia.
From Stdlib Require Import Sorted Permutation.
From Stdlib Require Import Decimal DecimalString DecimalN.
Import ListNotations.

#[local] Open Scope string_scope.
#[local] Open Scope nat_scope.
#[local] Set Warnings "-register-all".

(** ** Python text helpers *)

Module Py.

Definition code (c : ascii) : nat := nat_of_ascii c.

(** [str.upper] on one character: a-z go to A-Z. *)
Definition upper_char (c : ascii) : ascii :=
  if (97 <=? code c) && (code c <=? 122) then ascii_of_nat (code c - 32) else c.

Fixpoint upper (s : string) : string :=
  match s with
  | EmptyString => EmptyString
  | String c r => String (upper_char c) (upper r)
  end.

(** [str.isspace] on one character: tab, LF, VT, FF, CR, FS, GS, RS, US, space. *)
Definition is_space (c : ascii) : bool :=
  ((9 <=? code c) && (code c <=? 13)) || ((28 <=? code c) && (code c <=? 32)).

Definition is_digit (c : ascii) : bool :=
  (48 <=? code c) && (code c <=? 57).

Fixpoint lstrip (s : string) : string :=
  match s with
  | EmptyString => EmptyString
  | String c r => if is_space c then lstrip r else s
  end.

Fixpoint rstrip (s : string) : string :=
  match s with
  | EmptyString => EmptyString
  | String c r =>
      match rstrip r with
      | EmptyString => if is_space c then EmptyString else String c EmptyString
      | r' => String c r'
      end
  end.

(** [str.strip()] *)
Definition strip (s : string) : string := rstrip (lstrip s).

Fixpoint all_chars (p : ascii -> bool) (s : string) : bool :=
  match s with
  | EmptyString => true
  | String c r => p c && all_chars p r
  end.

Fixpoint zeros (n : nat) : string :=
  match n with
  | O => EmptyString
  | S k => String "0" (zeros k)
  end.

(** [format(n, "0<w>d")] for a natural number: decimal digits, left-padded
    with zeros up to width [w], never truncated. *)
Definition zfill (w : nat) (n : N) : string :=
  let ds := NilEmpty.string_of_uint (N.to_uint n) in
  zeros (w - String.length ds) ++ ds.

(** [str(n)] for a natural number. *)
Definition decimal (n : N) : string := NilEmpty.string_of_uint (N.to_uint n).

End Py.

(** ** Exceptions *)

(** Modelled from the spec: the failure conditions of the absent
    [src/lib/exceptions.py], under the names the service and the tests import
    them by, together with the built-in exceptions that [_load] can meet. *)

Inductive exn : Type :=
| EmptyTitleError
| TitleTooLongError
| DescriptionTooLongError
| InvalidIDFormatError
| TaskNotFoundError (task_id : string)
| NoChangesSpecifiedError
| JSONDecodeError
| KeyError (key : string)
| AttributeError
| TypeError
| ValueError.

(** The outcome of a call: a value, a raised exception, or [Untyped] when a
    persisted record holds a JSON value of a type other than the one the
    [Task] annotations give (Python would store it unchecked; the typed
    record below cannot). *)
Inductive result (A : Type) : Type :=
| Ok (a : A)
| Raise (e : exn)
| Untyped.
Arguments Ok {A} a.
Arguments Raise {A} e.
Arguments Untyped {A}.

(** ** Validation *)

Module Validators.

(** Modelled from the spec: [src/lib/validators.py] is not among the sources;
    the constants are the ones the unit tests import and the spec fixes. *)
Definition MAX_TITLE_LENGTH : nat := 200.

(** Modelled from the spec: see [MAX_TITLE_LENGTH]. *)
Definition MAX_DESCRIPTION_LENGTH : nat := 1000.

(** Modelled from the spec: [validate_title] of the absent
    [src/lib/validators.py].  Trims surrounding whitespace; [EmptyTitle] when
    nothing is left, [TitleTooLong] when more than 200 characters are left,
    otherwise the trimmed text. *)
Definition validate_title (raw : string) : result string :=
  let title := Py.strip raw in
  if String.length title =? 0 then Raise EmptyTitleError
  else if MAX_TITLE_LENGTH <? String.length title then Raise TitleTooLongError
  else Ok title.

(** Modelled from the spec: [validate_description] of the absent
    [src/lib/validators.py].  No trimming; [DescriptionTooLong] above 1000
    characters, otherwise the input unchanged. *)
Definition validate_description (raw : string) : result string :=
  if MAX_DESCRIPTION_LENGTH <? String.length raw then Raise DescriptionTooLongError
  else Ok raw.

(** Modelled from the spec: [validate_task_id] of the absent
    [src/lib/validators.py].  The input must be, ignoring case, the letter T
    followed by one or more ASCII digits and nothing else; the result is the
    uppercased input. *)
Definition validate_task_id (raw : string) : result string :=
  match Py.upper raw with
  | String "T" ds =>
      if negb (String.length ds =? 0) && Py.all_chars Py.is_digit ds
      then Ok (Py.upper raw)
      else Raise InvalidIDFormatError
  | _ => Raise InvalidIDFormatError
  end.

End Validators.

(** ** Identifier allocator *)

Module IDGenerator.

(** Modelled from the spec: the identifier text of the absent
    [src/lib/id_generator.py]: [T] followed by the counter zero-padded to at
    least three digits. *)
Definition format_id (counter : N) : string :=
  String "T" (Py.zfill 3 counter).

(** The number an identifier spells, when it is [T] followed by digits. *)
Definition id_number (s : string) : option N :=
  match s with
  | String "T" (String c r) =>
      match NilEmpty.uint_of_string (String c r) with
      | Some d => Some (N.of_uint d)
      | None => None
      end
  | _ => None
  end.

End IDGenerator.

(** ** Timestamps ([datetime.datetime]) *)

Record datetime : Type := mk_datetime_tz {
  year : N; month : N; day : N;
  hour : N; minute : N; second : N;
  microsecond : N;
  tzinfo : option Z              (* the UTC offset in microseconds; None when naive *)
}.

(** [datetime(year, month, day, hour, minute, second, microsecond)]: naive,
    as [datetime.now()] returns it. *)
Definition mk_datetime (y mo d h mi s us : N) : datetime :=
  mk_datetime_tz y mo d h mi s us None.

Module Datetime.
#[local] Open Scope N_scope.

Definition is_leap (y : N) : bool :=
  ((y mod 4 =? 0) && negb (y mod 100 =? 0)) || (y mod 400 =? 0).

Definition days_in_month (y m : N) : N :=
  match m with
  | 2 => if is_leap y then 29 else 28
  | 4 | 6 | 9 | 11 => 30
  | _ => 31
  end.

(** The ranges every [datetime] object satisfies. *)
Definition valid (d : datetime) : bool :=
  (1 <=? year d) && (year d <=? 9999) &&
  (1 <=? month d) && (month d <=? 12) &&
  (1 <=? day d) && (day d <=? days_in_month (year d) (month d)) &&
  (hour d <? 24) && (minute d <? 60) && (second d <? 60) &&
  (microsecond d <? 1000000).

(** [strftime("%Y-%m-%dT%H:%M:%S")] as CPython gives it through the
    [strftime] of glibc: the year in decimal without padding (year 999 is
    written [999]), every other field on two digits.  From year 1000 on this
    is the [YYYY-MM-DDTHH:MM:SS] of the docstring of [format_created_at].
    Neither the microseconds nor the offset are written. *)
Definition strftime (d : datetime) : string :=
  Py.decimal (year d) ++ "-" ++ Py.zfill 2 (month d) ++ "-" ++ Py.zfill 2 (day d)
  ++ "T" ++ Py.zfill 2 (hour d) ++ ":" ++ Py.zfill 2 (minute d) ++ ":"
  ++ Py.zfill 2 (second d).

(** *** [datetime.fromisoformat]

    The parser of CPython 3.11 ([Modules/_datetimemodule.c]), step by step.
    It walks over the UTF-8 bytes of the text, which end in a NUL byte; a
    position in the text is kept as the text that is left from it on. *)

Definition NUL : ascii := Ascii.zero.

(** The bytes of the UTF-8 encoding: a character above 127 takes two. *)
Fixpoint utf8 (s : string) : string :=
  match s with
  | EmptyString => EmptyString
  | String c r =>
      if (Py.code c <? 128)%nat then String c (utf8 r)
      else String (ascii_of_nat (192 + Py.code c / 64))
                  (String (ascii_of_nat (128 + Py.code c mod 64)) (utf8 r))
  end.

(** [s[i]], the terminating NUL when [i] is past the end. *)
Fixpoint char_at (i : nat) (s : string) : ascii :=
  match s, i with
  | EmptyString, _ => NUL
  | String c _, O => c
  | String _ r, S k => char_at k r
  end.

Fixpoint drop (n : nat) (s : string) : string :=
  match n, s with
  | O, _ => s
  | S k, String _ r => drop k r
  | S _, EmptyString => EmptyString
  end.

Fixpoint skip_digits (s : string) : string :=
  match s with
  | String c r => if Py.is_digit c then skip_digits r else s
  | EmptyString => EmptyString
  end.

(** The first [n] characters and the rest. *)
Fixpoint split_at (n : nat) (s : string) : option (string * string) :=
  match n, s with
  | O, _ => Some (EmptyString, s)
  | S k, String c r =>
      match split_at k r with
      | Some (a, b) => Some (String c a, b)
      | None => None
      end
  | S _, EmptyString => None
  end.

(** [parse_digits]: exactly [n] ASCII digits, then the rest. *)
Definition parse_digits (n : nat) (s : string) : option (N * string) :=
  match split_at n s with
  | Some (ds, r) =>
      match NilEmpty.uint_of_string ds with
      | Some u => Some (N.of_uint u, r)
      | None => None
      end
  | None => None
  end.

(** Where the date ends: the format is told apart by the characters at 4
    and 5, and for week dates by what follows. *)
Definition find_isoformat_datetime_separator (dtstr : string) : option nat :=
  let len := String.length dtstr in
  if (len =? 7)%nat then Some 7%nat
  else if Ascii.eqb (char_at 4 dtstr) "-" then
    if Ascii.eqb (char_at 5 dtstr) "W" then
      if (len <? 8)%nat then None
      else if (8 <? len)%nat && Ascii.eqb (char_at 8 dtstr) "-" then
        if (len =? 9)%nat then None
        else if (10 <? len)%nat && Py.is_digit (char_at 10 dtstr) then Some 8%nat
        else Some 10%nat
      else Some 8%nat
    else Some 10%nat
  else if Ascii.eqb (char_at 4 dtstr) "W" then
    let rest := drop 7 dtstr in
    let idx := (7 + (String.length rest - String.length (skip_digits rest)))%nat in
    if (idx <? 9)%nat then Some idx
    else if Nat.even idx then Some 7%nat else Some 8%nat
  else Some 8%nat.

Definition days_before_year (y : N) : N :=
  let y := y - 1 in y * 365 + y / 4 - y / 100 + y / 400.

(** [_days_before_month], with the leap day. *)
Definition days_before_month (leap : bool) (m : N) : N :=
  match m with
  | 0 | 1 => 0 | 2 => 31 | 3 => 59 | 4 => 90 | 5 => 120 | 6 => 151
  | 7 => 181 | 8 => 212 | 9 => 243 | 10 => 273 | 11 => 304 | _ => 334
  end + (if (2 <? m) && leap then 1 else 0).

Definition ymd_to_ord (y m d : N) : N :=
  days_before_year y + days_before_month (is_leap y) m + d.

Definition ord_to_ymd (ordinal : N) : N * N * N :=
  let n := ordinal - 1 in
  let n400 := n / 146097 in
  let n := n mod 146097 in
  let n100 := n / 36524 in
  let n := n mod 36524 in
  let n4 := n / 1461 in
  let n := n mod 1461 in
  let n1 := n / 365 in
  let n := n mod 365 in
  let y := n400 * 400 + 1 + n100 * 100 + n4 * 4 + n1 in
  if (n1 =? 4) || (n100 =? 4) then (y - 1, 12, 31)
  else
    let leapyear := (n1 =? 3) && (negb (n4 =? 24) || (n100 =? 3)) in
    let m := (n + 50) / 32 in
    let preceding := days_before_month leapyear m in
    if n <? preceding
    then (y, m - 1, n - (preceding - days_in_month y (m - 1)) + 1)
    else (y, m, n - preceding + 1).

Definition iso_week1_monday (y : N) : N :=
  let first_day := ymd_to_ord y 1 1 in
  let first_weekday := (first_day + 6) mod 7 in
  let week1_monday := first_day - first_weekday in
  if 3 <? first_weekday then week1_monday + 7 else week1_monday.

(** Year, ISO week and ISO weekday to year, month and day.  Year 0 never
    gives a date the constructor accepts and is refused here. *)
Definition iso_to_ymd (iso_year iso_week iso_day : N) : option (N * N * N) :=
  let first_weekday := (ymd_to_ord iso_year 1 1 + 6) mod 7 in
  let week_ok :=
    if (iso_week =? 0) || (53 <=? iso_week)
    then (iso_week =? 53) &&
         ((first_weekday =? 3) || ((first_weekday =? 2) && is_leap iso_year))
    else true in
  if iso_year =? 0 then None
  else if negb week_ok then None
  else if (iso_day =? 0) || (8 <=? iso_day) then None
  else Some (ord_to_ymd (iso_week1_monday iso_year + (iso_week - 1) * 7 + iso_day - 1)).

(** An optional ['-'], required when [uses_separator]. *)
Definition skip_dash (uses_separator : bool) (p : string) : option string :=
  if uses_separator then
    match p with
    | String "-" r => Some r
    | _ => None
    end
  else Some p.

(** [parse_isoformat_date] on the whole text, [len] being where the date
    ends. *)
Definition parse_isoformat_date (dtstr : string) (len : nat) : option (N * N * N) :=
  match parse_digits 4 dtstr with
  | None => None
  | Some (y, p) =>
      let uses_separator := Ascii.eqb (char_at 0 p) "-" in
      let p := if uses_separator then drop 1 p else p in
      if Ascii.eqb (char_at 0 p) "W" then
        match parse_digits 2 (drop 1 p) with
        | None => None
        | Some (iso_week, p) =>
            if (String.length dtstr - String.length p <? len)%nat then
              match skip_dash uses_separator p with
              | None => None
              | Some p =>
                  match parse_digits 1 p with
                  | None => None
                  | Some (iso_day, _) => iso_to_ymd y iso_week iso_day
                  end
              end
            else iso_to_ymd y iso_week 1
        end
      else
        match parse_digits 2 p with
        | None => None
        | Some (mo, p) =>
            match skip_dash uses_separator p with
            | None => None
            | Some p =>
                match parse_digits 2 p with
                | None => None
                | Some (d, _) => Some (y, mo, d)
                end
            end
        end
  end.

(** What the loop of [parse_hh_mm_ss_ff] does after a two-digit field. *)
Inductive after_field : Type :=
| Stop (more : bool)             (* [return c != '\0'] *)
| Continue (p : string)          (* on to the next field *)
| Break (p : string)             (* a fraction follows *)
| Malformed.

(** The character after a field; [tail] is how much of the text lies at or
    after the end of the component being parsed.  The result comes with the
    new value of [has_separator], which the first field sets. *)
Definition look_after (first has_separator : bool) (tail : nat) (p : string)
  : after_field * bool :=
  match p with
  | EmptyString => (Stop false, if first then false else has_separator)
  | String c r =>
      let has_separator := if first then Ascii.eqb c ":" else has_separator in
      (if (String.length r <=? tail)%nat then Stop (negb (Ascii.eqb c NUL))
       else if has_separator && Ascii.eqb c ":" then Continue r
       else if Ascii.eqb c "." || Ascii.eqb c "," then Break r
       else if negb has_separator then Continue p
       else Malformed,
       has_separator)
  end.

(** The loop over hour, minute and second: the fields read, and either the
    text where a fraction starts or the value to return. *)
Fixpoint parse_hh_mm_ss (left : nat) (first has_separator : bool) (tail : nat)
    (p : string) : option (list N * (string + bool)) :=
  match left with
  | O => Some ([], inl p)
  | S k =>
      match parse_digits 2 p with
      | None => None
      | Some (v, p) =>
          match look_after first has_separator tail p with
          | (Stop more, _) => Some ([v], inr more)
          | (Break p, _) => Some ([v], inl p)
          | (Malformed, _) => None
          | (Continue p, has_separator) =>
              match parse_hh_mm_ss k false has_separator tail p with
              | Some (vs, r) => Some (v :: vs, r)
              | None => None
              end
          end
      end
  end.

(** The fraction: up to six digits are read and scaled to microseconds,
    further digits are skipped. *)
Definition parse_fraction (tail : nat) (p : string) : option (N * bool) :=
  let len_remains := (String.length p - tail)%nat in
  let to_parse := Nat.min 6 len_remains in
  match parse_digits to_parse p with
  | None => None
  | Some (v, p) =>
      Some (v * 10 ^ N.of_nat (6 - to_parse),
            negb (Ascii.eqb (char_at 0 (skip_digits p)) NUL))
  end.

(** [parse_hh_mm_ss_ff]: hour, minute, second, microsecond, and whether the
    parse stopped before the end of the text. *)
Definition parse_hh_mm_ss_ff (tstr : string) (tail : nat)
  : option (N * N * N * N * bool) :=
  match parse_hh_mm_ss 3 true true tail tstr with
  | None => None
  | Some (vs, r) =>
      let h := nth 0 vs 0 in
      let mi := nth 1 vs 0 in
      let s := nth 2 vs 0 in
      match r with
      | inr more => Some (h, mi, s, 0, more)
      | inl p =>
          match parse_fraction tail p with
          | Some (us, more) => Some (h, mi, s, us, more)
          | None => None
          end
      end
  end.

(** The text from the first [Z], [+] or [-] on. *)
Fixpoint tzinfo_pos (s : string) : string :=
  match s with
  | EmptyString => EmptyString
  | String c r =>
      if Ascii.eqb c "Z" || Ascii.eqb c "+" || Ascii.eqb c "-" then s
      else tzinfo_pos r
  end.

(** The offset of a zone: none without a zone, UTC when the whole seconds
    are zero, otherwise it must lie strictly within a day. *)
Definition tzinfo_of (negative : bool) (h mi s us : N) : option (option Z) :=
  let tzoffset := h * 3600 + mi * 60 + s in
  if tzoffset =? 0 then Some (Some 0%Z)
  else
    let total := Z.of_N (tzoffset * 1000000 + us) in
    if (total <? 86400000000)%Z
    then Some (Some (if negative then (- total)%Z else total))
    else None.

(** [parse_isoformat_time] with [tzinfo_from_isoformat_results]. *)
Definition parse_isoformat_time (dtstr : string)
  : option (N * N * N * N * option Z) :=
  let tz := tzinfo_pos dtstr in
  match parse_hh_mm_ss_ff dtstr (String.length tz) with
  | None => None
  | Some (h, mi, s, us, more) =>
      match tz with
      | EmptyString => if more then None else Some (h, mi, s, us, None)
      | String "Z" r =>
          if Ascii.eqb (char_at 0 r) NUL then Some (h, mi, s, us, Some 0%Z) else None
      | String sign r =>
          match parse_hh_mm_ss_ff r 0 with
          | Some (tzh, tzmi, tzs, tzus, false) =>
              match tzinfo_of (Ascii.eqb sign "-") tzh tzmi tzs tzus with
              | Some z => Some (h, mi, s, us, z)
              | None => None
              end
          | _ => None
          end
      end
  end.

(** How many bytes the separator takes, from its first byte. *)
Definition separator_width (c : ascii) : nat :=
  if (Py.code c <? 128)%nat then 1%nat
  else if (Py.code c / 16 =? 14)%nat then 3%nat
  else if (Py.code c / 16 =? 15)%nat then 4%nat
  else 2%nat.

(** [datetime.fromisoformat]: every refusal is a [ValueError], the range
    checks of the constructor included. *)
Definition fromisoformat (date_string : string) : result datetime :=
  let dtstr := utf8 date_string in
  let len := String.length dtstr in
  if (len <? 7)%nat then Raise ValueError
  else
    match find_isoformat_datetime_separator dtstr with
    | None => Raise ValueError
    | Some separator_location =>
        match parse_isoformat_date dtstr separator_location with
        | None => Raise ValueError
        | Some (y, mo, d) =>
            let time :=
              if (separator_location <? len)%nat
              then parse_isoformat_time
                     (drop (separator_location
                            + separator_width (char_at separator_location dtstr)) dtstr)
              else Some (0, 0, 0, 0, None) in
            match time with
            | None => Raise ValueError
            | Some (h, mi, s, us, tz) =>
                let dt := mk_datetime_tz y mo d h mi s us tz in
                if valid dt then Ok dt else Raise ValueError
            end
        end
    end.

(** The timestamp as [strftime] keeps it: whole seconds, no offset. *)
Definition truncate (d : datetime) : datetime :=
  mk_datetime (year d) (month d) (day d) (hour d) (minute d) (second d) 0.

End Datetime.

(** ** The task entity ([src/models/task.py]) *)

Record Task : Type := mk_Task {
  id : string;
  title : string;
  description : string;
  completed : bool;
  created_at : datetime
}.

(** The dataclass constructor followed by [__post_init__], which uppercases
    the id.  [created_at] is passed explicitly: where the source leaves it to
    [default_factory=datetime.now], the caller supplies the clock reading. *)
Definition new_Task (i t d : string) (c : bool) (at_ : datetime) : Task :=
  mk_Task (Py.upper i) t d c at_.

Definition format_created_at (t : Task) : string :=
  Datetime.strftime (created_at t).

Definition status_display (t : Task) : string :=
  if completed t then "Complete" else "Pending".

Definition checkbox_display (t : Task) : string :=
  if completed t then "[x]" else "[ ]".

Definition set_title (v : string) (t : Task) : Task :=
  mk_Task (id t) v (description t) (completed t) (created_at t).

Definition set_description (v : string) (t : Task) : Task :=
  mk_Task (id t) (title t) v (completed t) (created_at t).

Definition set_completed (v : bool) (t : Task) : Task :=
  mk_Task (id t) (title t) (description t) v (created_at t).

(** ** JSON values and Python's dynamic operations on them

    Numbers are integers; a JSON object is the [dict] that [json.load]
    builds from it, its keys distinct. *)

Inductive json : Type :=
| JNull
| JBool (b : bool)
| JNum (z : Z)
| JStr (s : string)
| JArr (items : list json)
| JObj (fields : list (string * json)).

(** What the storage path holds: nothing, text on which [json.load] raises
    [JSONDecodeError], or text that parses to a value.  [json.dump] followed by
    [json.load] is taken to give the dumped value back. *)
Inductive file : Type :=
| NoFile
| BadJson
| Json (j : json).

Module Dict.
Section Dict.
Context {V : Type}.

(** Python's insertion-ordered [dict] with string keys. *)
Definition t := list (string * V).

Fixpoint get (k : string) (d : t) : option V :=
  match d with
  | [] => None
  | (k', v) :: r => if String.eqb k k' then Some v else get k r
  end.

Definition mem (k : string) (d : t) : bool :=
  match get k d with Some _ => true | None => false end.

(** [d[k] = v]: overwrite in place, or append. *)
Fixpoint set (k : string) (v : V) (d : t) : t :=
  match d with
  | [] => [(k, v)]
  | (k', v') :: r => if String.eqb k k' then (k', v) :: r else (k', v') :: set k v r
  end.

(** [d.pop(k)] on the dictionary. *)
Fixpoint remove (k : string) (d : t) : t :=
  match d with
  | [] => []
  | (k', v') :: r => if String.eqb k k' then r else (k', v') :: remove k r
  end.

Definition keys (d : t) : list string := map fst d.
Definition values (d : t) : list V := map snd d.

End Dict.
Arguments t : clear implicits.
End Dict.

Module PyJson.

(** [obj[key]] with a string key: a [dict] answers or raises [KeyError];
    nothing else can be indexed by a string. *)
Definition getitem (obj : json) (key : string) : result json :=
  match obj with
  | JObj fields =>
      match Dict.get key fields with
      | Some v => Ok v
      | None => Raise (KeyError key)
      end
  | _ => Raise TypeError
  end.

(** [obj.get(key, default)]: only a [dict] has the method. *)
Definition get (obj : json) (key : string) (default : json) : result json :=
  match obj with
  | JObj fields =>
      match Dict.get key fields with
      | Some v => Ok v
      | None => Ok default
      end
  | _ => Raise AttributeError
  end.

Fixpoint chars (s : string) : list json :=
  match s with
  | EmptyString => []
  | String c r => JStr (String c EmptyString) :: chars r
  end.

(** [for x in obj]: a list yields its items, a [dict] its keys, a [str] its
    characters; the other values are not iterable. *)
Definition iter (obj : json) : result (list json) :=
  match obj with
  | JArr items => Ok items
  | JObj fields => Ok (map (fun kv => JStr (fst kv)) fields)
  | JStr s => Ok (chars s)
  | _ => Raise TypeError
  end.

End PyJson.

(** ** The service object and the monad its methods run in *)

Record TaskService : Type := mk_TaskService {
  _tasks : Dict.t Task;          (* self._tasks *)
  _counter : N;                  (* the counter inside self._id_generator *)
  disk : file;                   (* what self._storage_file holds *)
  writes : nat                   (* how many times the file was opened for writing *)
}.

(** A method: it may change the object and then returns or raises.  What was
    changed before a raise stays changed. *)
Definition M (A : Type) : Type := TaskService -> TaskService * result A.

Definition ret {A} (a : A) : M A := fun s => (s, Ok a).

Definition raise {A} (e : exn) : M A := fun s => (s, Raise e).

Definition bind {A B} (m : M A) (k : A -> M B) : M B :=
  fun s =>
    match m s with
    | (s', Ok a) => k a s'
    | (s', Raise e) => (s', Raise e)
    | (s', Untyped) => (s', Untyped)
    end.

Definition lift {A} (r : result A) : M A := fun s => (s, r).

Definition rbind {A B} (r : result A) (k : A -> result B) : result B :=
  match r with
  | Ok a => k a
  | Raise e => Raise e
  | Untyped => Untyped
  end.

Declare Scope py_scope.
Delimit Scope py_scope with py.
Notation "x <- m ;; k" := (bind m (fun x => k))
  (at level 61, m at next level, right associativity) : py_scope.
Notation "m ;; k" := (bind m (fun _ => k))
  (at level 61, right associativity) : py_scope.
Notation "'let?' x := r 'in' k" := (rbind r (fun x => k))
  (at level 61, x name, r at next level, right associativity) : py_scope.
#[local] Open Scope py_scope.

Module Service.

(** *** The allocator, as the service holds it *)

(** Modelled from the spec: [IDGenerator.next] of the absent
    [src/lib/id_generator.py]: increment the counter, return the identifier
    of the new value. *)
Definition id_next : M string :=
  fun s =>
    let c := N.succ (_counter s) in
    (mk_TaskService (_tasks s) c (disk s) (writes s), Ok (IDGenerator.format_id c)).

(** Modelled from the spec: [IDGenerator.current], the read-only accessor. *)
Definition id_current (s : TaskService) : N := _counter s.

(** Modelled from the spec: [IDGenerator.set_counter], which restores the
    counter so that the next identifier continues from [n + 1]. *)
Definition id_set_counter (n : N) : M unit :=
  fun s => (mk_TaskService (_tasks s) n (disk s) (writes s), Ok tt).

(** *** Access to [self._tasks] *)

Definition tasks_set (k : string) (t : Task) : M unit :=
  fun s => (mk_TaskService (Dict.set k t (_tasks s)) (_counter s) (disk s) (writes s), Ok tt).

Definition tasks_pop (k : string) : M unit :=
  fun s => (mk_TaskService (Dict.remove k (_tasks s)) (_counter s) (disk s) (writes s), Ok tt).

(** A [Task] object is held by exactly one slot of the dictionary, so a
    reference to it is that slot's key: reading through the reference reads
    the slot, assigning an attribute through it rewrites the slot. *)
Definition deref (k : string) : M Task :=
  fun s =>
    match Dict.get k (_tasks s) with
    | Some t => (s, Ok t)
    | None => (s, Raise (KeyError k))
    end.

Definition setattr (k : string) (f : Task -> Task) : M unit :=
  t <- deref k ;; tasks_set k (f t).

(** *** Persistence *)

Definition task_json (task : Task) : json :=
  JObj [ ("id", JStr (id task));
         ("title", JStr (title task));
         ("description", JStr (description task));
         ("completed", JBool (completed task));
         ("created_at", JStr (format_created_at task)) ].

Definition snapshot (s : TaskService) : json :=
  JObj [ ("next_id_counter", JNum (Z.of_N (id_current s)));
         ("tasks", JArr (map task_json (Dict.values (_tasks s)))) ].

Definition _save : M unit :=
  fun s => (mk_TaskService (_tasks s) (_counter s) (Json (snapshot s)) (S (writes s)), Ok tt).

(** One pass of the loop body of [_load] up to the constructed [Task]: the
    keyword arguments are evaluated left to right, then the constructor runs
    [__post_init__], whose [upper] needs a string. *)
Definition load_task (task_data : json) : result Task :=
  let? v_id := PyJson.getitem task_data "id" in
  let? v_title := PyJson.getitem task_data "title" in
  let? v_description := PyJson.get task_data "description" (JStr "") in
  let? v_completed := PyJson.get task_data "completed" (JBool false) in
  let? v_created := PyJson.getitem task_data "created_at" in
  let? created := match v_created with
                  | JStr x => Datetime.fromisoformat x
                  | _ => Raise TypeError
                  end in
  let? i := match v_id with JStr x => Ok x | _ => Raise AttributeError end in
  let? t := match v_title with JStr x => Ok x | _ => Untyped end in
  let? d := match v_description with JStr x => Ok x | _ => Untyped end in
  let? c := match v_completed with JBool b => Ok b | _ => Untyped end in
  Ok (new_Task i t d c created).

Fixpoint load_tasks (items : list json) : M unit :=
  match items with
  | [] => ret tt
  | task_data :: rest =>
      task <- lift (load_task task_data) ;;
      tasks_set (id task) task ;;
      load_tasks rest
  end.

(** The body of the [try] block, after [json.load] returned [data].  The
    counter of the allocator is a natural number: a persisted counter that is
    not one is [Untyped]. *)
Definition load_data (data : json) : M unit :=
  v_tasks <- lift (PyJson.get data "tasks" (JArr [])) ;;
  items <- lift (PyJson.iter v_tasks) ;;
  load_tasks items ;;
  v_counter <- lift (PyJson.get data "next_id_counter" (JNum 0)) ;;
  counter <- lift (match v_counter with
                   | JNum z => if (0 <=? z)%Z then Ok (Z.to_N z) else Untyped
                   | _ => Untyped
                   end) ;;
  id_set_counter counter.

Definition load_try : M unit :=
  fun s =>
    match disk s with
    | NoFile => (s, Ok tt)
    | BadJson => (s, Raise JSONDecodeError)
    | Json data => load_data data s
    end.

(** [_load]: [JSONDecodeError] and [KeyError] are swallowed, whatever was
    done before them stays done; any other exception propagates. *)
Definition _load : M unit :=
  fun s =>
    match load_try s with
    | (s', Raise JSONDecodeError) => (s', Ok tt)
    | (s', Raise (KeyError _)) => (s', Ok tt)
    | other => other
    end.

(** [TaskService(storage_file)] on a path holding [f]. *)
Definition init (f : file) : TaskService * result unit :=
  _load (mk_TaskService [] 0 f 0).

(** *** CRUD operations *)

Definition add (now : datetime) (title description : string) : M Task :=
  title <- lift (Validators.validate_title title) ;;
  description <- lift (Validators.validate_description description) ;;
  task_id <- id_next ;;
  let task := new_Task task_id title description false now in
  tasks_set task_id task ;;
  _save ;;
  ret task.

(** The lookup of [get]: the key of the slot holding the task. *)
Definition get_ref (task_id : string) : M string :=
  task_id <- lift (Validators.validate_task_id task_id) ;;
  fun s =>
    if Dict.mem task_id (_tasks s) then (s, Ok task_id)
    else (s, Raise (TaskNotFoundError task_id)).

Definition get (task_id : string) : M Task :=
  r <- get_ref task_id ;; deref r.

(** [sorted(xs, key=lambda t: t.id)]: a stable sort under [<] on [str],
    which compares character by character. *)
Fixpoint insert_by_id (x : Task) (l : list Task) : list Task :=
  match l with
  | [] => [x]
  | y :: r => if String.ltb (id y) (id x) then y :: insert_by_id x r else x :: y :: r
  end.

Definition sorted_by_id (l : list Task) : list Task :=
  fold_right insert_by_id [] l.

Definition list_all (s : TaskService) : list Task :=
  sorted_by_id (Dict.values (_tasks s)).

Definition update (task_id : string) (title description : option string) : M Task :=
  match title, description with
  | None, None => raise NoChangesSpecifiedError
  | _, _ =>
      task <- get_ref task_id ;;
      match title with
      | Some v => v' <- lift (Validators.validate_title v) ;; setattr task (set_title v')
      | None => ret tt
      end ;;
      match description with
      | Some v => v' <- lift (Validators.validate_description v) ;; setattr task (set_description v')
      | None => ret tt
      end ;;
      _save ;;
      deref task
  end.

Definition delete (task_id : string) : M Task :=
  task_id <- lift (Validators.validate_task_id task_id) ;;
  fun s =>
    match Dict.get task_id (_tasks s) with
    | None => (s, Raise (TaskNotFoundError task_id))
    | Some task => (tasks_pop task_id ;; _save ;; ret task) s
    end.

(** *** State operations *)

Definition mark_complete (task_id : string) : M (Task * bool) :=
  task <- get_ref task_id ;;
  t <- deref task ;;
  if completed t then ret (t, false)
  else
    setattr task (set_completed true) ;;
    _save ;;
    t' <- deref task ;;
    ret (t', true).

Definition mark_incomplete (task_id : string) : M (Task * bool) :=
  task <- get_ref task_id ;;
  t <- deref task ;;
  if negb (completed t) then ret (t, false)
  else
    setattr task (set_completed false) ;;
    _save ;;
    t' <- deref task ;;
    ret (t', true).

(** *** Query operations *)

Definition list_pending (s : TaskService) : list Task :=
  filter (fun t => negb (completed t)) (list_all s).

Definition list_completed (s : TaskService) : list Task :=
  filter (fun t => completed t) (list_all s).

Definition count (s : TaskService) : nat := List.length (_tasks s).

End Service.

(** ** Calls, traces and reachable states *)

Inductive call : Type :=
| Add (now : datetime) (title description : string)
| Get (task_id : string)
| Update (task_id : string) (title description : option string)
| Delete (task_id : string)
| MarkComplete (task_id : string)
| MarkIncomplete (task_id : string).

Inductive value : Type :=
| VTask (t : Task)
| VChanged (t : Task) (changed : bool).

Definition fmap {A B} (f : A -> B) (m : M A) : M B :=
  x <- m ;; ret (f x).

Definition exec (c : call) : M value :=
  match c with
  | Add now t d => fmap VTask (Service.add now t d)
  | Get i => fmap VTask (Service.get i)
  | Update i t d => fmap VTask (Service.update i t d)
  | Delete i => fmap VTask (Service.delete i)
  | MarkComplete i => fmap (fun p => VChanged (fst p) (snd p)) (Service.mark_complete i)
  | MarkIncomplete i => fmap (fun p => VChanged (fst p) (snd p)) (Service.mark_incomplete i)
  end.

(** The object after a sequence of calls, raised exceptions included. *)
Fixpoint run (tr : list call) (s : TaskService) : TaskService :=
  match tr with
  | [] => s
  | c :: r => run r (fst (exec c s))
  end.

Definition is_ok {A} (r : result A) : bool :=
  match r with Ok _ => true | _ => false end.

Definition is_add (c : call) : bool :=
  match c with Add _ _ _ => true | _ => false end.

(** How many [add] calls of the trace returned a task. *)
Fixpoint successful_adds (tr : list call) (s : TaskService) : N :=
  match tr with
  | [] => 0%N
  | c :: r =>
      let (s', res) := exec c s in
      ((if is_add c && is_ok res then 1 else 0) + successful_adds r s')%N
  end.

(** The clock readings a call uses satisfy [P]. *)
Definition call_with (P : datetime -> Prop) (c : call) : Prop :=
  match c with
  | Add now _ _ => P now
  | _ => True
  end.

Definition proper_clock (now : datetime) : Prop := Datetime.valid now = true.

Definition any_clock (now : datetime) : Prop := True.

(** The clock reads a year of four digits. *)
Definition modern_clock (now : datetime) : Prop := (1000 <= year now)%N.

(** The clock hands out proper timestamps. *)
Definition call_ok (c : call) : Prop := call_with proper_clock c.

(** The store with nothing on disk. *)
Definition fresh : TaskService := mk_TaskService [] 0 NoFile 0.

(** States of a service object: constructed on some file, then used. *)
Inductive reachable : TaskService -> Prop :=
| reach_init (f : file) (s : TaskService) :
    Service.init f = (s, Ok tt) -> reachable s
| reach_exec (s : TaskService) (c : call) :
    reachable s -> call_ok c -> reachable (fst (exec c s)).

(** ** Properties named by the specification *)

(** The title constraint: something is left after trimming, and at most 200
    characters. *)
Definition title_ok (t : string) : Prop :=
  Py.strip t <> EmptyString /\ String.length t <= 200.

Definition description_ok (d : string) : Prop :=
  String.length d <= 1000.

(** Keys are unique and every task sits under its own id. *)
Definition keyed (s : TaskService) : Prop :=
  NoDup (Dict.keys (_tasks s)) /\
  Forall (fun kv => id (snd kv) = fst kv) (_tasks s).



(** What the round trip relies on: keys as above, ids already in upper case,
    timestamps in range. *)
Definition persistable (s : TaskService) : Prop :=
  keyed s /\
  Forall (fun kv => Py.upper (id (snd kv)) = id (snd kv) /\
                    Datetime.valid (created_at (snd kv)) = true) (_tasks s).

Definition truncate_task (t : Task) : Task :=
  mk_Task (id t) (title t) (description t) (completed t) (Datetime.truncate (created_at t)).

(** Every key was handed out by the allocator at or before the current
    counter value. *)
Definition counter_covers (s : TaskService) : Prop :=
  Forall (fun k => exists n, (n <= _counter s)%N /\ k = IDGenerator.format_id n)
         (Dict.keys (_tasks s)).

(** The identifier shape of the specification: T or t, then one or more
    digits, nothing else. *)
Definition id_shape (raw : string) : Prop :=
  exists ds, ds <> EmptyString /\ Py.all_chars Py.is_digit ds = true /\
             (raw = String "T" ds \/ raw = String "t" ds).

Definition lex_le (a b : Task) : Prop := String.leb (id a) (id b) = true.

(** Ascending by the number the id spells. *)
Definition num_le (a b : Task) : Prop :=
  match IDGenerator.id_number (id a), IDGenerator.id_number (id b) with
  | Some n, Some m => (n <= m)%N
  | _, _ => False
  end.

(** The object with [t] stored under [k]. *)
Definition with_task (k : string) (t : Task) (s : TaskService) : TaskService :=
  mk_TaskService (Dict.set k t (_tasks s)) (_counter s) (disk s) (writes s).

(** The object once [_save] has run. *)
Definition saved (s : TaskService) : TaskService :=
  mk_TaskService (_tasks s) (_counter s) (Json (Service.snapshot s)) (S (writes s)).

(** The object after [task.completed = v] on the task under [k], saved. *)
Definition marked (k : string) (t : Task) (v : bool) (s : TaskService) : TaskService :=
  saved (with_task k (set_completed v t) s).

(** The object after a successful [add] that stored [task]. *)
Definition added (task : Task) (s : TaskService) : TaskService :=
  saved (mk_TaskService (Dict.set (IDGenerator.format_id (N.succ (_counter s))) task (_tasks s))
                        (N.succ (_counter s)) (disk s) (writes s)).

(** The object after a successful [delete] of the task under [k]. *)
Definition removed (k : string) (s : TaskService) : TaskService :=
  saved (mk_TaskService (Dict.remove k (_tasks s)) (_counter s) (disk s) (writes s)).

(** The two assignments of [update], each preceded by its validation. *)
Definition apply_title (v : option string) (t : Task) : result Task :=
  match v with
  | Some x => rbind (Validators.validate_title x) (fun x' => Ok (set_title x' t))
  | None => Ok t
  end.

Definition apply_description (v : option string) (t : Task) : result Task :=
  match v with
  | Some x => rbind (Validators.validate_description x) (fun x' => Ok (set_description x' t))
  | None => Ok t
  end.

(** One elementary change of the object; [dk] and [w] stand for whatever the
    file and the write count become, [clock_ok] for what is known of the
    clock. *)
Inductive step (clock_ok : datetime -> Prop) (s : TaskService) : TaskService -> Prop :=
| step_io (dk : file) (w : nat) :
    step clock_ok s (mk_TaskService (_tasks s) (_counter s) dk w)
| step_add (now : datetime) (t d : string) (dk : file) (w : nat) :
    title_ok t -> description_ok d -> clock_ok now ->
    step clock_ok s (mk_TaskService
              (Dict.set (IDGenerator.format_id (N.succ (_counter s)))
                        (new_Task (IDGenerator.format_id (N.succ (_counter s))) t d false now)
                        (_tasks s))
              (N.succ (_counter s)) dk w)
| step_modify (k : string) (t0 t' : Task) (dk : file) (w : nat) :
    Dict.get k (_tasks s) = Some t0 ->
    id t' = id t0 -> created_at t' = created_at t0 ->
    (title t' = title t0 \/ title_ok (title t')) ->
    (description t' = description t0 \/ description_ok (description t')) ->
    step clock_ok s (mk_TaskService (Dict.set k t' (_tasks s)) (_counter s) dk w)
| step_remove (k : string) (dk : file) (w : nat) :
    step clock_ok s (mk_TaskService (Dict.remove k (_tasks s)) (_counter s) dk w).

Inductive steps (clock_ok : datetime -> Prop) (s : TaskService) : TaskService -> Prop :=
| steps_refl : steps clock_ok s s
| steps_cons (s1 s2 : TaskService) :
    step clock_ok s s1 -> steps clock_ok s1 s2 -> steps clock_ok s s2.

(** The first required field a record lacks, in the order [_load] asks for
    them. *)
Definition missing_key (fields : list (string * json)) : option string :=
  if negb (Dict.mem "id" fields) then Some "id"
  else if negb (Dict.mem "title" fields) then Some "title"
  else if negb (Dict.mem "created_at" fields) then Some "created_at"
  else None.

(** The records [_load] iterates over. *)
Definition file_records (f : file) : list json :=
  match f with
  | Json (JObj top) =>
      match PyJson.iter (match Dict.get "tasks" top with Some v => v | None => JArr [] end) with
      | Ok items => items
      | _ => []
      end
  | _ => []
  end.

(** The fields a persisted record must carry. *)
Definition required_key (k : string) : Prop :=
  k = "id" \/ k = "title" \/ k = "created_at".

(** ** The command line ([src/cli/main.py])

    Every command starts with [service = get_service()], outside its [try]:
    the module-level [_service] is constructed on first use and kept.  What a
    command prints with [typer.echo] is collected call by call, what
    [print_error] prints goes to the error stream, and [raise typer.Exit(1)]
    ends it with code 1.  Parsing of the argument vector is Typer's and is not
    modelled: a command receives its arguments already parsed. *)

Module Cli.

(** The module-level [_service] together with the storage file: as long as
    [_service] is [None] there is only what the default storage path holds;
    afterwards the global refers to the service object, which carries the
    file with it. *)
Inductive process : Type :=
| NotLoaded (f : file)
| Loaded (s : TaskService).

(** [get_service()]: the global instance, constructed by [TaskService()] on
    first use.  When the constructor raises, the assignment does not happen
    and [_service] stays [None]; [_load] only reads the file. *)
Definition get_service (p : process) : process * result TaskService :=
  match p with
  | Loaded s => (p, Ok s)
  | NotLoaded f =>
      match Service.init f with
      | (s, Ok _) => (Loaded s, Ok s)
      | (_, Raise e) => (p, Raise e)
      | (_, Untyped) => (p, Untyped)
      end
  end.

(** How a command ends: it returns or raises [typer.Exit] (an exit code), or
    an exception of the service leaves it uncaught. *)
Inductive ending : Type :=
| Exited (code : nat)
| Escaped (e : exn)
| EscapedUntyped.

Record outcome : Type := mk_outcome {
  stdout : list string;
  stderr : list string;
  ended : ending
}.

Definition dquote : string := String (ascii_of_nat 34) EmptyString.

(** [str(n)] for a length. *)
Definition str_nat (n : nat) : string := NilEmpty.string_of_uint (Nat.to_uint n).

(** The command printed [lines] and returned. *)
Definition said (lines : list string) : outcome := mk_outcome lines [] (Exited 0).

(** [print_error(message)] followed by [raise typer.Exit(1)]. *)
Definition failed (message : string) : outcome :=
  mk_outcome [] ["Error: " ++ message] (Exited 1).

Definition escaped (e : exn) : outcome := mk_outcome [] [] (Escaped e).

Definition created_line (task : Task) : string :=
  "Task " ++ id task ++ " created: " ++ dquote ++ title task ++ dquote.

Definition updated_line (task : Task) : string :=
  "Task " ++ id task ++ " updated: " ++ dquote ++ title task ++ dquote.

Definition deleted_line (task : Task) : string :=
  "Task " ++ id task ++ " deleted: " ++ dquote ++ title task ++ dquote.

Definition marked_line (word : string) (task : Task) : string :=
  "Task " ++ id task ++ " marked " ++ word ++ ": " ++ dquote ++ title task ++ dquote.

Definition already_line (word : string) (task : Task) : string :=
  "Task " ++ id task ++ " is already " ++ word.

(** [task.description if task.description else '-'] *)
Definition description_or_dash (task : Task) : string :=
  match description task with
  | EmptyString => "-"
  | d => d
  end.

Definition task_line (task : Task) : string :=
  checkbox_display task ++ " " ++ id task ++ ": " ++ title task.

(** The lines the loop of [list_tasks] prints for one task. *)
Definition task_lines (verbose : bool) (task : Task) : list string :=
  task_line task ::
  (if verbose
   then [ "    Description: " ++ description_or_dash task;
          "    Created: " ++ format_created_at task ]
   else []).

Definition view_lines (task : Task) : list string :=
  [ "Task " ++ id task;
    "Title: " ++ title task;
    "Description: " ++ description_or_dash task;
    "Status: " ++ status_display task;
    "Created: " ++ format_created_at task ].

Section Commands.

(** Modelled from the spec: [str(e)] of a [TaskNotFoundError], whose class is
    in the absent [src/lib/exceptions.py]; taken as a parameter. *)
Variable not_found_text : string -> string.

(** Each command below is given the [service] that its first line obtained
    from [get_service()] and is the rest of its body; [invoke] puts the call
    of [get_service] in front. *)

Definition add (now : datetime) (title description : string)
  (service : TaskService) : TaskService * outcome :=
  match Service.add now title description service with
  | (s', Ok task) => (s', said [created_line task])
  | (s', Raise EmptyTitleError) => (s', failed "Task title cannot be empty")
  | (s', Raise TitleTooLongError) => (s', failed "Title cannot exceed 200 characters")
  | (s', Raise DescriptionTooLongError) =>
      (s', failed "Description cannot exceed 1000 characters")
  | (s', Raise e) => (s', escaped e)
  | (s', Untyped) => (s', mk_outcome [] [] EscapedUntyped)
  end.

(** The tasks and the count label that [list_tasks] picks for a filter. *)
Definition selected (filter : option string) (service : TaskService)
  : list Task * string :=
  match filter with
  | Some "pending" =>
      let tasks := Service.list_pending service in
      (tasks, str_nat (List.length tasks) ++ " pending")
  | Some "completed" =>
      let tasks := Service.list_completed service in
      (tasks, str_nat (List.length tasks) ++ " completed")
  | _ =>
      let tasks := Service.list_all service in
      (tasks, str_nat (List.length tasks) ++ " total")
  end.

Definition list_tasks (filter : option string) (verbose : bool)
  (service : TaskService) : TaskService * outcome :=
  let (tasks, count_label) := selected filter service in
  match tasks with
  | [] =>
      match filter with
      | None => (service, said ["No tasks found. Use 'todo add <title>' to create one."])
      | Some f => (service, said ["No " ++ f ++ " tasks found."])
      end
  | _ =>
      (service,
       said (("Tasks (" ++ count_label ++ "):") :: flat_map (task_lines verbose) tasks))
  end.

Definition view (task_id : string) (service : TaskService) : TaskService * outcome :=
  match Service.get task_id service with
  | (s', Ok task) => (s', said (view_lines task))
  | (s', Raise InvalidIDFormatError) =>
      (s', failed "Invalid task ID format. Expected format: T###")
  | (s', Raise (TaskNotFoundError i)) => (s', failed (not_found_text i))
  | (s', Raise e) => (s', escaped e)
  | (s', Untyped) => (s', mk_outcome [] [] EscapedUntyped)
  end.

Definition update (task_id : string) (title description : option string)
  (service : TaskService) : TaskService * outcome :=
  match Service.update task_id title description service with
  | (s', Ok task) => (s', said [updated_line task])
  | (s', Raise InvalidIDFormatError) =>
      (s', failed "Invalid task ID format. Expected format: T###")
  | (s', Raise (TaskNotFoundError i)) => (s', failed (not_found_text i))
  | (s', Raise NoChangesSpecifiedError) =>
      (s', failed "No changes specified. Use --title or --description")
  | (s', Raise EmptyTitleError) => (s', failed "Task title cannot be empty")
  | (s', Raise TitleTooLongError) => (s', failed "Title cannot exceed 200 characters")
  | (s', Raise DescriptionTooLongError) =>
      (s', failed "Description cannot exceed 1000 characters")
  | (s', Raise e) => (s', escaped e)
  | (s', Untyped) => (s', mk_outcome [] [] EscapedUntyped)
  end.

Definition delete (task_id : string) (service : TaskService) : TaskService * outcome :=
  match Service.delete task_id service with
  | (s', Ok task) => (s', said [deleted_line task])
  | (s', Raise InvalidIDFormatError) =>
      (s', failed "Invalid task ID format. Expected format: T###")
  | (s', Raise (TaskNotFoundError i)) => (s', failed (not_found_text i))
  | (s', Raise e) => (s', escaped e)
  | (s', Untyped) => (s', mk_outcome [] [] EscapedUntyped)
  end.

Definition complete (task_id : string) (service : TaskService) : TaskService * outcome :=
  match Service.mark_complete task_id service with
  | (s', Ok (task, changed)) =>
      (s', said [if changed then marked_line "complete" task
                 else already_line "complete" task])
  | (s', Raise InvalidIDFormatError) =>
      (s', failed "Invalid task ID format. Expected format: T###")
  | (s', Raise (TaskNotFoundError i)) => (s', failed (not_found_text i))
  | (s', Raise e) => (s', escaped e)
  | (s', Untyped) => (s', mk_outcome [] [] EscapedUntyped)
  end.

Definition incomplete (task_id : string) (service : TaskService) : TaskService * outcome :=
  match Service.mark_incomplete task_id service with
  | (s', Ok (task, changed)) =>
      (s', said [if changed then marked_line "incomplete" task
                 else already_line "incomplete" task])
  | (s', Raise InvalidIDFormatError) =>
      (s', failed "Invalid task ID format. Expected format: T###")
  | (s', Raise (TaskNotFoundError i)) => (s', failed (not_found_text i))
  | (s', Raise e) => (s', escaped e)
  | (s', Untyped) => (s', mk_outcome [] [] EscapedUntyped)
  end.

(** The commands of the Typer application, each with its parsed arguments. *)
Inductive command : Type :=
| CmdAdd (now : datetime) (title description : string)
| CmdList (filter : option string) (verbose : bool)
| CmdView (task_id : string)
| CmdUpdate (task_id : string) (title description : option string)
| CmdDelete (task_id : string)
| CmdComplete (task_id : string)
| CmdIncomplete (task_id : string).

(** The body of a command, after [service = get_service()]. *)
Definition body (c : command) : TaskService -> TaskService * outcome :=
  match c with
  | CmdAdd now t d => add now t d
  | CmdList f v => list_tasks f v
  | CmdView i => view i
  | CmdUpdate i t d => update i t d
  | CmdDelete i => delete i
  | CmdComplete i => complete i
  | CmdIncomplete i => incomplete i
  end.

(** A command as Typer runs it: [get_service()] first, whose exception
    nothing catches, then the body on the object that [_service] holds. *)
Definition invoke (c : command) (p : process) : process * outcome :=
  match get_service p with
  | (_, Ok service) => let (s', o) := body c service in (Loaded s', o)
  | (p', Raise e) => (p', escaped e)
  | (p', Untyped) => (p', mk_outcome [] [] EscapedUntyped)
  end.

End Commands.

(** Modelled from the spec: the text of [str(TaskNotFoundError(i))] of the
    absent [src/lib/exceptions.py], as the contract tests expect it. *)
Definition tested_not_found_text (i : string) : string :=
  "Task " ++ i ++ " not found".

End Cli.



(** A command run with the not-found text of the contract tests. *)
Definition cli (c : Cli.command) (p : Cli.process) : Cli.process * Cli.outcome :=
  Cli.invoke Cli.tested_not_found_text c p.

(** Every stored timestamp has a year of four digits, which is what
    [strftime] needs to write the text that [fromisoformat] reads back. *)
Definition four_digit_years (s : TaskService) : Prop :=
  Forall (fun kv => (1000 <= year (created_at (snd kv)))%N) (_tasks s).

(** The object once the loop of [_load] has stored the record [td]. *)
Definition stored (s : TaskService) (td : json) : TaskService :=
  match Service.load_task td with
  | Ok task => with_task (id task) task s
  | _ => s
  end.

(** The object once the loop has stored the records [items], one after the
    other. *)
Definition stored_all (items : list json) (s : TaskService) : TaskService :=
  fold_left stored items s.

Definition quote (x : string) : string := (Cli.dquote ++ x ++ Cli.dquote)%string.


(** ** Decidable checks over finite ranges *)

(** The text does not start with whitespace. *)
Definition no_lead (u : string) : Prop :=
  match u with
  | EmptyString => True
  | String c _ => Py.is_space c = false
  end.

(** Below [bound], the text order of allocated ids is the order of their
    numbers. *)
Definition agree_upto (bound : nat) : bool :=
  let ids := map (fun n => (N.of_nat n, IDGenerator.format_id (N.of_nat n))) (seq 0 bound) in
  forallb (fun a => forallb (fun b =>
     Bool.eqb (String.leb (snd a) (snd b)) (N.leb (fst a) (fst b))) ids) ids.

(** Every number below [bound] takes exactly [w] characters when zero-filled
    to width [w]. *)
Definition width_upto (w bound : nat) : bool :=
  forallb (fun n => String.length (Py.zfill w (N.of_nat n)) =? w) (seq 0 bound).

(** From [lo] on, [count] numbers in a row are written on exactly [w]
    digits. *)
Definition decimal_width (w lo count : nat) : bool :=
  forallb (fun n => String.length (Py.decimal (N.of_nat n)) =? w) (seq lo count).

(** ** Concrete scenarios used by the examples below *)

Module Scenario.
#[local] Open Scope N_scope.

Definition clock : datetime := mk_datetime 2025 12 29 10 30 0 123456.

Definition one_task : TaskService :=
  fst (Service.add clock "Buy groceries" "Milk, eggs" fresh).

(** ["x" * n] *)
Definition xs (n : nat) : string := String.concat "" (repeat "x" n).

Definition long_text : string := xs 1001.

(** Two records, the second without ["id"]. *)
Definition second_record_broken : file :=
  Json (JObj [ ("next_id_counter", JNum 2);
               ("tasks", JArr [ JObj [ ("id", JStr "T001"); ("title", JStr "a");
                                       ("description", JStr ""); ("completed", JBool false);
                                       ("created_at", JStr "2025-01-01T00:00:00") ];
                                JObj [ ("title", JStr "b") ] ]) ]).

(** One good record, no ["next_id_counter"]. *)
Definition no_counter : file :=
  Json (JObj [ ("tasks", JArr [ JObj [ ("id", JStr "T001"); ("title", JStr "a");
                                       ("description", JStr ""); ("completed", JBool false);
                                       ("created_at", JStr "2025-01-01T00:00:00") ] ]) ]).


(** A record with only the three required fields. *)
Definition minimal_record : json :=
  JObj [ ("id", JStr "t007"); ("title", JStr "Pay bills");
         ("created_at", JStr "2025-12-29T10:35:00") ].

(** 1000 tasks added to a fresh store, then all but the last two deleted. *)
Definition thousand : TaskService :=
  let adds := repeat (Add clock "x" "") 1000 in
  let dels := map (fun n => Delete (IDGenerator.format_id (N.of_nat n))) (seq 1 998) in
  run (adds ++ dels)%list fresh.

Definition three_tasks : TaskService :=
  run [ Add clock "Buy groceries" "Milk, eggs, bread";
        Add clock "Call mom" "";
        Add clock "Pay bills" "Electric and water";
        MarkComplete "T002" ] fresh.

End Scenario.

(** ** Further sample files *)

Module Samples.

(** A file whose only record has an id that is not T followed by digits. *)
Definition odd_id : file :=
  Json (JObj [ ("next_id_counter", JNum 0);
               ("tasks", JArr [ JObj [ ("id", JStr "note-1"); ("title", JStr "a");
                                       ("created_at", JStr "2025-01-01T00:00:00") ] ]) ]).

(** A file whose only record is stamped in the year 999. *)
Definition old_year : file :=
  Json (JObj [ ("next_id_counter", JNum 1);
               ("tasks", JArr [ JObj [ ("id", JStr "T001"); ("title", JStr "a");
                                       ("created_at", JStr "0999-01-01T00:00:00") ] ]) ]).

(** A file whose only record carries microseconds and a UTC offset. *)
Definition with_offset : file :=
  Json (JObj [ ("next_id_counter", JNum 1);
               ("tasks", JArr [ JObj [ ("id", JStr "T001"); ("title", JStr "a");
                                       ("created_at",
                                        JStr "2025-01-01T10:30:00.250000+05:30") ] ]) ]).

(** A file whose top level is a list. *)
Definition top_level_list : file := Json (JArr []).

End Samples.

(** * Proofs *)

(** ** Dictionaries *)

Module DictFacts.
Section DictFacts.
Context {V : Type}.
Implicit Types (d : Dict.t V) (k : string) (v : V).

Lemma get_set_same k v d : Dict.get k (Dict.set k v d) = Some v.
Proof.
  induction d as [|[k' v'] r IH]; simpl.
  - now rewrite String.eqb_refl.
  - destruct (String.eqb k k') eqn:E; simpl; rewrite E; auto.
Qed.

Lemma get_set_other k k' v d :
  k' <> k -> Dict.get k' (Dict.set k v d) = Dict.get k' d.
Proof.
  intros Hne. induction d as [|[k0 v0] r IH]; simpl.
  - apply String.eqb_neq in Hne. now rewrite Hne.
  - destruct (String.eqb k k0) eqn:E; simpl.
    + apply String.eqb_eq in E. subst k0.
      apply String.eqb_neq in Hne. now rewrite Hne.
    + now rewrite IH.
Qed.

Lemma get_remove_other k k' d :
  k' <> k -> Dict.get k' (Dict.remove k d) = Dict.get k' d.
Proof.
  intros Hne. induction d as [|[k0 v0] r IH]; simpl; auto.
  destruct (String.eqb k k0) eqn:E; simpl.
  - apply String.eqb_eq in E. subst k0.
    apply String.eqb_neq in Hne. now rewrite Hne.
  - now rewrite IH.
Qed.

Lemma get_none_iff k d : Dict.get k d = None <-> ~ In k (Dict.keys d).
Proof.
  induction d as [|[k0 v0] r IH]; simpl.
  - tauto.
  - destruct (String.eqb k k0) eqn:E.
    + apply String.eqb_eq in E. subst. split; [discriminate | tauto].
    + apply String.eqb_neq in E. rewrite IH. split; intros H.
      * intros [H1 | H1]; [congruence | tauto].
      * tauto.
Qed.

Lemma get_some_in k v d : Dict.get k d = Some v -> In (k, v) d.
Proof.
  induction d as [|[k0 v0] r IH]; simpl; [discriminate|].
  destruct (String.eqb k k0) eqn:E.
  - apply String.eqb_eq in E. intros [= ->]. subst. now left.
  - intros H. right. auto.
Qed.

Lemma in_get k v d : NoDup (Dict.keys d) -> In (k, v) d -> Dict.get k d = Some v.
Proof.
  induction d as [|[k0 v0] r IH]; simpl; [tauto|].
  intros Hnd [H | H].
  - inversion H; subst. now rewrite String.eqb_refl.
  - inversion Hnd as [|? ? Hnotin Hnd']; subst.
    destruct (String.eqb k k0) eqn:E.
    + apply String.eqb_eq in E. subst k0. exfalso. apply Hnotin.
      change (In (fst (k, v)) (map fst r)). now apply in_map.
    + auto.
Qed.

Lemma keys_set k k' v d :
  In k' (Dict.keys (Dict.set k v d)) <-> k' = k \/ In k' (Dict.keys d).
Proof.
  induction d as [|[k0 v0] r IH]; simpl.
  - intuition.
  - destruct (String.eqb k k0) eqn:E; simpl.
    + apply String.eqb_eq in E. subst. intuition.
    + rewrite IH. intuition.
Qed.

Lemma keys_remove k k' d :
  In k' (Dict.keys (Dict.remove k d)) -> In k' (Dict.keys d).
Proof.
  induction d as [|[k0 v0] r IH]; simpl; auto.
  destruct (String.eqb k k0); simpl; intuition.
Qed.

Lemma nodup_set k v d : NoDup (Dict.keys d) -> NoDup (Dict.keys (Dict.set k v d)).
Proof.
  induction d as [|[k0 v0] r IH]; simpl; intros Hnd.
  - constructor; [simpl; tauto | constructor].
  - inversion Hnd as [|? ? Hnotin Hnd']; subst.
    destruct (String.eqb k k0) eqn:E; simpl.
    + now constructor.
    + constructor; auto. apply String.eqb_neq in E.
      intros Hin. apply keys_set in Hin. destruct Hin; [congruence | tauto].
Qed.

Lemma nodup_remove k d : NoDup (Dict.keys d) -> NoDup (Dict.keys (Dict.remove k d)).
Proof.
  induction d as [|[k0 v0] r IH]; simpl; intros Hnd; auto.
  inversion Hnd as [|? ? Hnotin Hnd']; subst.
  destruct (String.eqb k k0) eqn:E; simpl; auto.
  constructor; auto. intros Hin. apply Hnotin. eapply keys_remove; eauto.
Qed.

Lemma get_remove_same k d :
  NoDup (Dict.keys d) -> Dict.get k (Dict.remove k d) = None.
Proof.
  induction d as [|[k0 v0] r IH]; simpl; intros Hnd; auto.
  inversion Hnd as [|? ? Hnotin Hnd']; subst.
  destruct (String.eqb k k0) eqn:E; simpl.
  - apply String.eqb_eq in E. subst. now apply get_none_iff.
  - rewrite E. auto.
Qed.

Lemma length_remove k v d :
  Dict.get k d = Some v -> S (List.length (Dict.remove k d)) = List.length d.
Proof.
  induction d as [|[k0 v0] r IH]; simpl; [discriminate|].
  destruct (String.eqb k k0) eqn:E; simpl; auto.
Qed.

Lemma set_fresh k v d : Dict.get k d = None -> Dict.set k v d = (d ++ [(k, v)])%list.
Proof.
  induction d as [|[k0 v0] r IH]; simpl; auto.
  destruct (String.eqb k k0) eqn:E; [discriminate|].
  intros H. now rewrite IH.
Qed.

Lemma forall_set (P : string * V -> Prop) k v d :
  Forall P d -> (forall k0, P (k0, v)) -> Forall P (Dict.set k v d).
Proof.
  intros Hd Hv. induction Hd as [|[k0 v0] r Hx Hr IH]; simpl.
  - constructor; auto.
  - destruct (String.eqb k k0); constructor; auto.
Qed.

Lemma forall_remove (P : string * V -> Prop) k d :
  Forall P d -> Forall P (Dict.remove k d).
Proof.
  intros Hd. induction Hd as [|[k0 v0] r Hx Hr IH]; simpl; auto.
  destruct (String.eqb k k0); auto.
Qed.

Lemma mem_get k d v : Dict.get k d = Some v -> Dict.mem k d = true.
Proof. unfold Dict.mem. now intros ->. Qed.

End DictFacts.
End DictFacts.

(** ** Text *)

Module PyFacts.

Ltac by_cases_on_char c :=
  destruct c as [[] [] [] [] [] [] [] []]; vm_compute; try reflexivity; try discriminate; auto.

Lemma upper_char_idem c : Py.upper_char (Py.upper_char c) = Py.upper_char c.
Proof. by_cases_on_char c. Qed.

Lemma upper_idem s : Py.upper (Py.upper s) = Py.upper s.
Proof. induction s; simpl; [|rewrite upper_char_idem, IHs]; reflexivity. Qed.

Lemma upper_char_digit c : Py.is_digit c = true -> Py.upper_char c = c.
Proof. by_cases_on_char c. Qed.

Lemma digit_upper_char c : Py.is_digit (Py.upper_char c) = true -> Py.is_digit c = true.
Proof. by_cases_on_char c. Qed.

Lemma upper_char_T c : Py.upper_char c = "T"%char -> c = "T"%char \/ c = "t"%char.
Proof. by_cases_on_char c. Qed.

Lemma upper_digits s : Py.all_chars Py.is_digit s = true -> Py.upper s = s.
Proof.
  induction s as [|c r IH]; simpl; auto.
  intros H. apply andb_prop in H as [Hc Hr].
  now rewrite upper_char_digit, IH.
Qed.

Lemma digits_upper s :
  Py.all_chars Py.is_digit (Py.upper s) = true -> Py.all_chars Py.is_digit s = true.
Proof.
  induction s as [|c r IH]; simpl; auto.
  intros H. apply andb_prop in H as [Hc Hr].
  now rewrite (digit_upper_char _ Hc), IH.
Qed.

Lemma length_zero s : (String.length s =? 0) = true <-> s = EmptyString.
Proof. destruct s; simpl; split; congruence. Qed.

End PyFacts.

(** ** Validators *)

Module ValidatorFacts.
Import Validators.

Lemma validate_task_id_cases raw :
  validate_task_id raw = Ok (Py.upper raw) \/
  validate_task_id raw = Raise InvalidIDFormatError.
Proof.
  unfold validate_task_id. destruct (Py.upper raw) as [|c ds]; auto.
  destruct c as [[] [] [] [] [] [] [] []]; auto.
  destruct (negb (String.length ds =? 0) && Py.all_chars Py.is_digit ds); auto.
Qed.

Lemma validate_task_id_ok raw k :
  validate_task_id raw = Ok k -> k = Py.upper raw.
Proof.
  destruct (validate_task_id_cases raw) as [H | H]; rewrite H; congruence.
Qed.

Lemma validate_task_id_shape raw :
  id_shape raw <-> validate_task_id raw = Ok (Py.upper raw).
Proof.
  split.
  - intros (ds & Hne & Hd & Hraw).
    assert (Hup : Py.upper raw = String "T" ds).
    { destruct Hraw; subst raw; simpl; now rewrite PyFacts.upper_digits. }
    unfold validate_task_id. rewrite Hup, Hd.
    destruct ds; [congruence | reflexivity].
  - unfold validate_task_id.
    destruct raw as [|c r]; simpl; [discriminate|].
    destruct (Py.upper_char c) as [[] [] [] [] [] [] [] []] eqn:Ec; try discriminate.
    destruct (negb (String.length (Py.upper r) =? 0)) eqn:El; try discriminate.
    destruct (Py.all_chars Py.is_digit (Py.upper r)) eqn:Ed; try discriminate.
    intros _. exists r. repeat split.
    + intros ->. discriminate.
    + now apply PyFacts.digits_upper.
    + apply PyFacts.upper_char_T in Ec. destruct Ec; subst; auto.
Qed.

Lemma validate_task_id_upper raw :
  validate_task_id (Py.upper raw) = validate_task_id raw.
Proof. unfold validate_task_id. now rewrite PyFacts.upper_idem. Qed.

Lemma validate_title_ok raw t :
  validate_title raw = Ok t ->
  t = Py.strip raw /\ t <> EmptyString /\ String.length t <= 200.
Proof.
  unfold validate_title, MAX_TITLE_LENGTH.
  destruct (String.length (Py.strip raw) =? 0) eqn:E0; [discriminate|].
  destruct (200 <? String.length (Py.strip raw)) eqn:E1; [discriminate|].
  intros [= <-]. repeat split.
  - intros H. rewrite H in E0. discriminate.
  - apply Nat.ltb_ge in E1. exact E1.
Qed.

Lemma validate_title_cases raw :
  (exists t, validate_title raw = Ok t) \/
  validate_title raw = Raise EmptyTitleError \/
  validate_title raw = Raise TitleTooLongError.
Proof.
  unfold validate_title.
  destruct (String.length (Py.strip raw) =? 0); auto.
  destruct (MAX_TITLE_LENGTH <? String.length (Py.strip raw)); eauto.
Qed.

Lemma validate_description_ok raw d :
  validate_description raw = Ok d -> d = raw /\ String.length d <= 1000.
Proof.
  unfold validate_description, MAX_DESCRIPTION_LENGTH.
  destruct (1000 <? String.length raw) eqn:E; [discriminate|].
  intros [= <-]. split; auto. now apply Nat.ltb_ge in E.
Qed.

Lemma validate_description_cases raw :
  validate_description raw = Ok raw \/
  validate_description raw = Raise DescriptionTooLongError.
Proof.
  unfold validate_description.
  destruct (MAX_DESCRIPTION_LENGTH <? String.length raw); auto.
Qed.

End ValidatorFacts.

(** ** The service: lookups *)

Module ServiceFacts.
Import Service.

Lemma get_ref_found raw k t s :
  Validators.validate_task_id raw = Ok k ->
  Dict.get k (_tasks s) = Some t ->
  get_ref raw s = (s, Ok k).
Proof.
  intros Hv Hg. unfold get_ref, bind, lift. rewrite Hv.
  now rewrite (DictFacts.mem_get _ _ _ Hg).
Qed.

Lemma get_ref_missing raw k s :
  Validators.validate_task_id raw = Ok k ->
  Dict.get k (_tasks s) = None ->
  get_ref raw s = (s, Raise (TaskNotFoundError k)).
Proof.
  intros Hv Hg. unfold get_ref, bind, lift. rewrite Hv.
  unfold Dict.mem. now rewrite Hg.
Qed.

Lemma get_ref_invalid raw s :
  Validators.validate_task_id raw = Raise InvalidIDFormatError ->
  get_ref raw s = (s, Raise InvalidIDFormatError).
Proof. intros Hv. unfold get_ref, bind, lift. now rewrite Hv. Qed.

(** The three ways a lookup ends; the object is never touched. *)
Lemma get_ref_cases raw s :
  (exists t, Validators.validate_task_id raw = Ok (Py.upper raw) /\
             Dict.get (Py.upper raw) (_tasks s) = Some t /\
             get_ref raw s = (s, Ok (Py.upper raw))) \/
  (Validators.validate_task_id raw = Ok (Py.upper raw) /\
   Dict.get (Py.upper raw) (_tasks s) = None /\
   get_ref raw s = (s, Raise (TaskNotFoundError (Py.upper raw)))) \/
  (Validators.validate_task_id raw = Raise InvalidIDFormatError /\
   get_ref raw s = (s, Raise InvalidIDFormatError)).
Proof.
  destruct (ValidatorFacts.validate_task_id_cases raw) as [Hv | Hv].
  - destruct (Dict.get (Py.upper raw) (_tasks s)) as [t|] eqn:Hg.
    + left. exists t. repeat split; auto. eapply get_ref_found; eauto.
    + right. left. repeat split; auto. now apply get_ref_missing.
  - right. right. split; auto. now apply get_ref_invalid.
Qed.

Lemma deref_found k t s : Dict.get k (_tasks s) = Some t -> deref k s = (s, Ok t).
Proof. intros H. unfold deref. now rewrite H. Qed.

Lemma get_found raw k t s :
  Validators.validate_task_id raw = Ok k ->
  Dict.get k (_tasks s) = Some t ->
  get raw s = (s, Ok t).
Proof.
  intros Hv Hg. unfold get, bind. rewrite (get_ref_found _ _ _ _ Hv Hg).
  now apply deref_found.
Qed.

Lemma setattr_found k t f s :
  Dict.get k (_tasks s) = Some t ->
  setattr k f s =
  (mk_TaskService (Dict.set k (f t) (_tasks s)) (_counter s) (disk s) (writes s), Ok tt).
Proof. intros H. unfold setattr, bind. now rewrite (deref_found _ _ _ H). Qed.

Lemma mark_complete_eq raw k t s :
  Validators.validate_task_id raw = Ok k ->
  Dict.get k (_tasks s) = Some t ->
  mark_complete raw s =
  if completed t then (s, Ok (t, false))
  else (marked k t true s, Ok (set_completed true t, true)).
Proof.
  intros Hv Hg. unfold mark_complete.
  unfold bind at 1. rewrite (get_ref_found _ _ _ _ Hv Hg).
  unfold bind at 1. rewrite (deref_found _ _ _ Hg).
  destruct (completed t); [reflexivity|].
  unfold bind at 1. rewrite (setattr_found _ _ _ _ Hg).
  unfold bind, _save, deref, ret, marked, saved, with_task; simpl.
  now rewrite DictFacts.get_set_same.
Qed.

Lemma mark_incomplete_eq raw k t s :
  Validators.validate_task_id raw = Ok k ->
  Dict.get k (_tasks s) = Some t ->
  mark_incomplete raw s =
  if completed t then (marked k t false s, Ok (set_completed false t, true))
  else (s, Ok (t, false)).
Proof.
  intros Hv Hg. unfold mark_incomplete.
  unfold bind at 1. rewrite (get_ref_found _ _ _ _ Hv Hg).
  unfold bind at 1. rewrite (deref_found _ _ _ Hg).
  destruct (completed t); simpl; [|reflexivity].
  unfold bind at 1. rewrite (setattr_found _ _ _ _ Hg).
  unfold bind, _save, deref, ret, marked, saved, with_task; simpl.
  now rewrite DictFacts.get_set_same.
Qed.

End ServiceFacts.

(** ** Completion toggles *)



(** ** Identifier validation and case-insensitive lookup *)

Module CaseFacts.
Import Service.

Lemma get_ref_upper raw : get_ref (Py.upper raw) = get_ref raw.
Proof. unfold get_ref. now rewrite ValidatorFacts.validate_task_id_upper. Qed.

Lemma get_upper raw : get (Py.upper raw) = get raw.
Proof. unfold get. now rewrite get_ref_upper. Qed.

Lemma update_upper raw t d : update (Py.upper raw) t d = update raw t d.
Proof. unfold update. now rewrite get_ref_upper. Qed.

Lemma delete_upper raw : delete (Py.upper raw) = delete raw.
Proof. unfold delete. now rewrite ValidatorFacts.validate_task_id_upper. Qed.

Lemma mark_complete_upper raw : mark_complete (Py.upper raw) = mark_complete raw.
Proof. unfold mark_complete. now rewrite get_ref_upper. Qed.

Lemma mark_incomplete_upper raw : mark_incomplete (Py.upper raw) = mark_incomplete raw.
Proof. unfold mark_incomplete. now rewrite get_ref_upper. Qed.

Lemma get_ok raw s s' t :
  get raw s = (s', Ok t) ->
  Validators.validate_task_id raw = Ok (Py.upper raw) /\ s' = s /\
  Dict.get (Py.upper raw) (_tasks s) = Some t.
Proof.
  unfold get, bind.
  destruct (ServiceFacts.get_ref_cases raw s)
    as [(t0 & Hv & Hg & Hr) | [(Hv & Hg & Hr) | (Hv & Hr)]]; rewrite Hr.
  - rewrite (ServiceFacts.deref_found _ _ _ Hg). intros [= <- <-]. auto.
  - discriminate.
  - discriminate.
Qed.

End CaseFacts.

(** ** Failure paths *)

Module FailureFacts.
Import Service.

(** A failed [add] leaves the object as it was. *)
Lemma add_raise now t d s s' e :
  add now t d s = (s', Raise e) ->
  s' = s /\ (e = EmptyTitleError \/ e = TitleTooLongError \/ e = DescriptionTooLongError).
Proof.
  unfold add, bind, lift.
  destruct (ValidatorFacts.validate_title_cases t) as [[t' Ht] | [Ht | Ht]]; rewrite Ht.
  - destruct (ValidatorFacts.validate_description_cases d) as [Hd | Hd]; rewrite Hd.
    + simpl. discriminate.
    + intros [= <- <-]. auto.
  - intros [= <- <-]. auto.
  - intros [= <- <-]. auto.
Qed.

(** A failed [delete] leaves the object as it was. *)
Lemma delete_raise i s s' e :
  delete i s = (s', Raise e) ->
  s' = s /\ (e = InvalidIDFormatError \/ e = TaskNotFoundError (Py.upper i)).
Proof.
  unfold delete, bind, lift.
  destruct (ValidatorFacts.validate_task_id_cases i) as [Hv | Hv]; rewrite Hv.
  - destruct (Dict.get (Py.upper i) (_tasks s)); simpl.
    + discriminate.
    + intros [= <- <-]. auto.
  - intros [= <- <-]. auto.
Qed.

(** A failed [mark_complete] or [mark_incomplete] leaves the object as it was. *)
Lemma mark_complete_raise i s s' e :
  mark_complete i s = (s', Raise e) ->
  s' = s /\ (e = InvalidIDFormatError \/ e = TaskNotFoundError (Py.upper i)).
Proof.
  destruct (ServiceFacts.get_ref_cases i s)
    as [(t0 & Hv & Hg & Hr) | [(Hv & Hg & Hr) | (Hv & Hr)]].
  - rewrite (ServiceFacts.mark_complete_eq _ _ _ _ Hv Hg).
    destruct (completed t0); discriminate.
  - unfold mark_complete, bind. rewrite Hr. intros [= <- <-]. auto.
  - unfold mark_complete, bind. rewrite Hr. intros [= <- <-]. auto.
Qed.

Lemma mark_incomplete_raise i s s' e :
  mark_incomplete i s = (s', Raise e) ->
  s' = s /\ (e = InvalidIDFormatError \/ e = TaskNotFoundError (Py.upper i)).
Proof.
  destruct (ServiceFacts.get_ref_cases i s)
    as [(t0 & Hv & Hg & Hr) | [(Hv & Hg & Hr) | (Hv & Hr)]].
  - rewrite (ServiceFacts.mark_incomplete_eq _ _ _ _ Hv Hg).
    destruct (completed t0); discriminate.
  - unfold mark_incomplete, bind. rewrite Hr. intros [= <- <-]. auto.
  - unfold mark_incomplete, bind. rewrite Hr. intros [= <- <-]. auto.
Qed.

(** A failed [update] never writes and never moves the counter; the task
    collection is only guaranteed untouched when the description was not the
    field that failed after a title was given. *)
Lemma update_raise i t d s s' e :
  update i t d s = (s', Raise e) ->
  writes s' = writes s /\ disk s' = disk s /\ _counter s' = _counter s /\
  (e <> DescriptionTooLongError \/ t = None -> s' = s).
Proof.
  unfold update.
  destruct t as [t|], d as [d|];
    try (unfold raise; intros [= <- <-]; repeat split; auto; fail);
    unfold bind at 1;
    (destruct (ServiceFacts.get_ref_cases i s)
      as [(t0 & Hv & Hg & Hr) | [(Hv & Hg & Hr) | (Hv & Hr)]]; rewrite Hr;
     [| intros [= <- <-]; repeat split; auto | intros [= <- <-]; repeat split; auto]).
  - (* title and description *)
    unfold bind at 1. unfold bind at 1. unfold lift at 1.
    destruct (ValidatorFacts.validate_title_cases t) as [[t' Ht] | [Ht | Ht]]; rewrite Ht;
      [| intros [= <- <-]; repeat split; auto | intros [= <- <-]; repeat split; auto].
    rewrite (ServiceFacts.setattr_found _ _ _ _ Hg).
    unfold bind at 1. unfold bind at 1. unfold lift at 1.
    destruct (ValidatorFacts.validate_description_cases d) as [Hd | Hd]; rewrite Hd.
    + unfold setattr, bind, deref, tasks_set, _save, ret; simpl.
      rewrite DictFacts.get_set_same. simpl.
      rewrite DictFacts.get_set_same. discriminate.
    + intros [= <- <-]. simpl. repeat split; auto.
      intros [Hne | Hnone]; congruence.
  - (* title only *)
    unfold bind at 1. unfold bind at 1. unfold lift at 1.
    destruct (ValidatorFacts.validate_title_cases t) as [[t' Ht] | [Ht | Ht]]; rewrite Ht;
      [| intros [= <- <-]; repeat split; auto | intros [= <- <-]; repeat split; auto].
    rewrite (ServiceFacts.setattr_found _ _ _ _ Hg).
    unfold bind, ret, _save, deref; simpl.
    rewrite DictFacts.get_set_same. discriminate.
  - (* description only *)
    unfold bind at 1. unfold ret at 1. unfold bind at 1. unfold bind at 1. unfold lift at 1.
    destruct (ValidatorFacts.validate_description_cases d) as [Hd | Hd]; rewrite Hd.
    + rewrite (ServiceFacts.setattr_found _ _ _ _ Hg).
      unfold bind, _save, deref; simpl.
      rewrite DictFacts.get_set_same. discriminate.
    + intros [= <- <-]. repeat split; auto.
Qed.

End FailureFacts.

(** C1 fails on [update]: the title is assigned before the description is
    validated.  On a store holding T001 "Buy groceries", an update with a good
    title and a description of 1001 characters raises [DescriptionTooLong],
    writes nothing, and yet leaves "New title" in the stored task. *)
Theorem update_partial_on_failure :
  let s := Scenario.one_task in
  let r := Service.update "T001" (Some "New title") (Some Scenario.long_text) s in
  Validators.validate_title "New title" = Ok "New title" /\
  Validators.validate_description Scenario.long_text = Raise DescriptionTooLongError /\
  snd r = Raise DescriptionTooLongError /\
  option_map title (Dict.get "T001" (_tasks s)) = Some "Buy groceries" /\
  option_map title (Dict.get "T001" (_tasks (fst r))) = Some "New title" /\
  writes (fst r) = writes s /\
  disk (fst r) = disk s.
Proof. vm_compute. repeat split. Qed.

(** C2 fails on a record that comes after a good one: [_load] has already put
    the good record into the dictionary when the [KeyError] is swallowed, so
    the store is neither empty nor fully loaded, and the counter stays 0.
    A top-level value that is not an object is not swallowed at all. *)
Theorem load_partial_on_corrupt :
  let r := Service.init Scenario.second_record_broken in
  snd r = Ok tt /\
  Dict.keys (_tasks (fst r)) = ["T001"] /\
  _counter (fst r) = 0%N /\
  Service.init NoFile = (fresh, Ok tt) /\
  Service.init BadJson = (mk_TaskService [] 0 BadJson 0, Ok tt) /\
  snd (Service.init (Json (JArr []))) = Raise AttributeError.
Proof. vm_compute. repeat split. Qed.

(** ** Ordering of ids and [list_all] *)

Module OrderFacts.

Lemma ascii_compare_refl c : Ascii.compare c c = Eq.
Proof. unfold Ascii.compare. apply N.compare_refl. Qed.

Lemma ascii_compare_lt_trans a b c :
  Ascii.compare a b = Lt -> Ascii.compare b c = Lt -> Ascii.compare a c = Lt.
Proof.
  unfold Ascii.compare. rewrite !N.compare_lt_iff. apply N.lt_trans.
Qed.

Lemma compare_refl s : String.compare s s = Eq.
Proof. induction s; simpl; [|rewrite ascii_compare_refl]; auto. Qed.

Lemma compare_lt_trans a : forall b c,
  String.compare a b = Lt -> String.compare b c = Lt -> String.compare a c = Lt.
Proof.
  induction a as [|x a IH]; intros [|y b] [|z c]; simpl; try congruence.
  destruct (Ascii.compare x y) eqn:Exy; try discriminate;
    destruct (Ascii.compare y z) eqn:Eyz; try discriminate; intros Hab Hbc.
  - apply Ascii.compare_eq_iff in Exy, Eyz. subst.
    rewrite ascii_compare_refl. eauto.
  - apply Ascii.compare_eq_iff in Exy. subst. now rewrite Eyz.
  - apply Ascii.compare_eq_iff in Eyz. subst. now rewrite Exy.
  - now rewrite (ascii_compare_lt_trans _ _ _ Exy Eyz).
Qed.

Lemma leb_trans a b c :
  String.leb a b = true -> String.leb b c = true -> String.leb a c = true.
Proof.
  unfold String.leb.
  destruct (String.compare a b) eqn:Eab; try discriminate;
    destruct (String.compare b c) eqn:Ebc; try discriminate; intros _ _.
  - apply String.compare_eq_iff in Eab, Ebc. subst. now rewrite compare_refl.
  - apply String.compare_eq_iff in Eab. subst. now rewrite Ebc.
  - apply String.compare_eq_iff in Ebc. subst. now rewrite Eab.
  - now rewrite (compare_lt_trans _ _ _ Eab Ebc).
Qed.

Lemma ltb_leb a b : String.ltb a b = true -> String.leb a b = true.
Proof. unfold String.ltb, String.leb. destruct (String.compare a b); congruence. Qed.

Lemma not_ltb_leb a b : String.ltb a b = false -> String.leb b a = true.
Proof.
  unfold String.ltb, String.leb. rewrite (String.compare_antisym a b).
  destruct (String.compare b a); simpl; congruence.
Qed.

Lemma lex_le_trans a b c : lex_le a b -> lex_le b c -> lex_le a c.
Proof. unfold lex_le. apply leb_trans. Qed.

Lemma insert_perm x l : Permutation (Service.insert_by_id x l) (x :: l).
Proof.
  induction l as [|y r IH]; simpl; auto.
  destruct (String.ltb (id y) (id x)); auto.
  rewrite IH. apply perm_swap.
Qed.

Lemma sorted_perm l : Permutation (Service.sorted_by_id l) l.
Proof.
  induction l as [|x r IH]; simpl; auto.
  rewrite insert_perm. now constructor.
Qed.

Lemma insert_sorted x l :
  StronglySorted lex_le l -> StronglySorted lex_le (Service.insert_by_id x l).
Proof.
  induction 1 as [|y r Hr IH Hy]; simpl.
  - repeat constructor.
  - destruct (String.ltb (id y) (id x)) eqn:E.
    + constructor; auto.
      apply ltb_leb in E.
      eapply Permutation_Forall; [symmetry; apply insert_perm|].
      constructor; auto.
    + apply not_ltb_leb in E.
      constructor; [now constructor|].
      constructor; auto.
      eapply Forall_impl; [|exact Hy].
      intros a Ha. eapply lex_le_trans; eauto.
Qed.

Lemma sorted_sorted l : StronglySorted lex_le (Service.sorted_by_id l).
Proof.
  induction l as [|x r IH]; simpl; [constructor | now apply insert_sorted].
Qed.

Lemma filter_sorted (p : Task -> bool) l :
  StronglySorted lex_le l -> StronglySorted lex_le (filter p l).
Proof.
  induction 1 as [|y r Hr IH Hy]; simpl; [constructor|].
  destruct (p y); auto. constructor; auto.
  apply Forall_forall. intros a Ha. apply filter_In in Ha as [Ha _].
  rewrite Forall_forall in Hy. auto.
Qed.

Lemma agree_1000 : agree_upto 1000 = true.
Proof. vm_compute. reflexivity. Qed.

Lemma agree_upto_spec bound n m :
  agree_upto bound = true -> N.to_nat n < bound -> N.to_nat m < bound ->
  String.leb (IDGenerator.format_id n) (IDGenerator.format_id m) = N.leb n m.
Proof.
  unfold agree_upto. intros H Hn Hm.
  set (f := fun k : nat => (N.of_nat k, IDGenerator.format_id (N.of_nat k))) in H.
  assert (In1 : forall k, N.to_nat k < bound ->
            In (k, IDGenerator.format_id k) (map f (seq 0 bound))).
  { intros k Hk. apply in_map_iff. exists (N.to_nat k). split.
    - unfold f. now rewrite N2Nat.id.
    - apply in_seq. lia. }
  rewrite forallb_forall in H.
  specialize (H _ (In1 n Hn)). rewrite forallb_forall in H.
  specialize (H _ (In1 m Hm)). cbn [fst snd] in H.
  now apply Bool.eqb_prop in H.
Qed.

Lemma lex_numeric_agree n m :
  (n <= 999)%N -> (m <= 999)%N ->
  (String.leb (IDGenerator.format_id n) (IDGenerator.format_id m) = true <-> (n <= m)%N).
Proof.
  intros Hn Hm.
  rewrite (agree_upto_spec 1000 n m agree_1000) by lia.
  apply N.leb_le.
Qed.

End OrderFacts.

(** ** Reachability *)

Module ReachFacts.

Lemma reachable_fresh : reachable fresh.
Proof. apply (reach_init NoFile). reflexivity. Qed.

Lemma reachable_run tr : forall s,
  reachable s -> Forall call_ok tr -> reachable (run tr s).
Proof.
  induction tr as [|c r IH]; intros s Hs Hok; simpl; auto.
  inversion Hok; subst. apply IH; auto. now apply reach_exec.
Qed.

Lemma reachable_thousand : reachable Scenario.thousand.
Proof.
  apply reachable_run; [apply reachable_fresh|].
  apply Forall_app. split; apply Forall_forall; intros c Hc.
  - apply repeat_spec in Hc. subst c. reflexivity.
  - apply in_map_iff in Hc as (n & <- & _). exact I.
Qed.

End ReachFacts.

(** C3, as stated, fails: [sorted] compares the id strings, not the numbers
    they spell.  After 1000 adds on a fresh store (and the removal of the
    first 998 tasks) [list_all] returns T1000 before T999. *)
Lemma list_all_not_numeric :
  reachable Scenario.thousand /\
  map id (Service.list_all Scenario.thousand) = ["T1000"; "T999"] /\
  IDGenerator.id_number "T1000" = Some 1000%N /\
  IDGenerator.id_number "T999" = Some 999%N /\
  ~ StronglySorted num_le (Service.list_all Scenario.thousand).
Proof.
  assert (E : map id (Service.list_all Scenario.thousand) = ["T1000"; "T999"])
    by (vm_compute; reflexivity).
  split; [apply ReachFacts.reachable_thousand|].
  split; [exact E|]. split; [reflexivity|]. split; [reflexivity|].
  intros H.
  destruct (Service.list_all Scenario.thousand) as [|a [|b [|c l]]]; try discriminate.
  injection E as Ea Eb.
  inversion H as [|? ? _ Hall]; subst.
  inversion Hall as [|? ? Hab _]; subst.
  unfold num_le in Hab. rewrite Ea, Eb in Hab. vm_compute in Hab.
  now apply Hab.
Qed.

(** C3, amended: for every store, whatever order its dictionary is in,
    [list_all] returns exactly the stored tasks, ascending by id in the
    character-by-character order of the id text; [list_pending] and
    [list_completed] are the tasks of that list with completed = false and
    completed = true, in the same order.  For allocated ids up to T999 the
    text order is the order of the numbers. *)
Theorem list_all_sorted_lex (s : TaskService) :
  Permutation (Service.list_all s) (Dict.values (_tasks s)) /\
  StronglySorted lex_le (Service.list_all s) /\
  StronglySorted lex_le (Service.list_pending s) /\
  StronglySorted lex_le (Service.list_completed s) /\
  (forall t, In t (Service.list_pending s) <->
             In t (Dict.values (_tasks s)) /\ completed t = false) /\
  (forall t, In t (Service.list_completed s) <->
             In t (Dict.values (_tasks s)) /\ completed t = true) /\
  (forall n m, (n <= 999)%N -> (m <= 999)%N ->
     (String.leb (IDGenerator.format_id n) (IDGenerator.format_id m) = true
      <-> (n <= m)%N)).
Proof.
  assert (Hp : Permutation (Service.list_all s) (Dict.values (_tasks s)))
    by apply OrderFacts.sorted_perm.
  assert (Hs : StronglySorted lex_le (Service.list_all s))
    by apply OrderFacts.sorted_sorted.
  split; [exact Hp|]. split; [exact Hs|].
  split; [now apply OrderFacts.filter_sorted|].
  split; [now apply OrderFacts.filter_sorted|].
  split; [|split].
  - intros t. unfold Service.list_pending. rewrite filter_In.
    rewrite Bool.negb_true_iff. split; intros [Hin Hc]; split; auto.
    + eapply Permutation_in; eauto.
    + eapply Permutation_in; [symmetry|]; eauto.
  - intros t. unfold Service.list_completed. rewrite filter_In.
    split; intros [Hin Hc]; split; auto.
    + eapply Permutation_in; eauto.
    + eapply Permutation_in; [symmetry|]; eauto.
  - apply OrderFacts.lex_numeric_agree.
Qed.

Lemma list_all_sorted_lex_witness :
  (1 <= 999)%N /\ (2 <= 999)%N /\
  String.leb (IDGenerator.format_id 1) (IDGenerator.format_id 2) = true.
Proof.
  split; [lia|]. split; [lia|].
  apply (proj2 (proj2 (proj2 (proj2 (proj2 (proj2
           (list_all_sorted_lex Scenario.three_tasks)))))) 1%N 2%N); lia.
Defined.

(** ** The service: exact outcomes *)

Module OutcomeFacts.
Import Service.

Lemma add_eq now t d s :
  add now t d s =
  match Validators.validate_title t with
  | Ok t' =>
      match Validators.validate_description d with
      | Ok d' =>
          let task := new_Task (IDGenerator.format_id (N.succ (_counter s))) t' d' false now in
          (added task s, Ok task)
      | Raise e => (s, Raise e)
      | Untyped => (s, Untyped)
      end
  | Raise e => (s, Raise e)
  | Untyped => (s, Untyped)
  end.
Proof.
  unfold add, bind, lift.
  destruct (Validators.validate_title t); auto.
Qed.

Lemma delete_eq raw k t s :
  Validators.validate_task_id raw = Ok k ->
  Dict.get k (_tasks s) = Some t ->
  delete raw s = (removed k s, Ok t).
Proof.
  intros Hv Hg. unfold delete, bind, lift. rewrite Hv, Hg. reflexivity.
Qed.

Lemma delete_missing raw k s :
  Validators.validate_task_id raw = Ok k ->
  Dict.get k (_tasks s) = None ->
  delete raw s = (s, Raise (TaskNotFoundError k)).
Proof.
  intros Hv Hg. unfold delete, bind, lift. now rewrite Hv, Hg.
Qed.

Lemma delete_invalid raw s :
  Validators.validate_task_id raw = Raise InvalidIDFormatError ->
  delete raw s = (s, Raise InvalidIDFormatError).
Proof. intros Hv. unfold delete, bind, lift. now rewrite Hv. Qed.

Lemma set_set {V} k (a b : V) (d : Dict.t V) :
  Dict.set k b (Dict.set k a d) = Dict.set k b d.
Proof.
  induction d as [|[k0 v0] r IH]; simpl.
  - now rewrite String.eqb_refl.
  - destruct (String.eqb k k0) eqn:E; simpl; rewrite E; auto. now rewrite IH.
Qed.

Lemma set_same {V} k (v : V) (d : Dict.t V) :
  Dict.get k d = Some v -> Dict.set k v d = d.
Proof.
  induction d as [|[k0 v0] r IH]; simpl; [discriminate|].
  destruct (String.eqb k k0) eqn:E.
  - now intros [= ->].
  - intros H. now rewrite IH.
Qed.

Lemma with_task_same k t s : Dict.get k (_tasks s) = Some t -> with_task k t s = s.
Proof.
  intros H. unfold with_task. rewrite (set_same _ _ _ H). now destruct s.
Qed.

(** [update] on a task that is there: the title is validated and assigned,
    then the description; a failure of the second leaves the first done. *)
Lemma update_eq raw k t0 t d s :
  Validators.validate_task_id raw = Ok k ->
  Dict.get k (_tasks s) = Some t0 ->
  update raw t d s =
  match t, d with
  | None, None => (s, Raise NoChangesSpecifiedError)
  | _, _ =>
      match apply_title t t0 with
      | Ok t1 =>
          match apply_description d t1 with
          | Ok t2 => (saved (with_task k t2 s), Ok t2)
          | Raise e => (with_task k t1 s, Raise e)
          | Untyped => (with_task k t1 s, Untyped)
          end
      | Raise e => (s, Raise e)
      | Untyped => (s, Untyped)
      end
  end.
Proof.
  intros Hv Hg. unfold update.
  destruct t as [t|], d as [d|]; [| | |reflexivity];
    unfold bind at 1; rewrite (ServiceFacts.get_ref_found _ _ _ _ Hv Hg);
    unfold apply_title, apply_description, rbind.
  - unfold bind at 1. unfold bind at 1. unfold lift at 1.
    destruct (Validators.validate_title t) as [t'| |]; auto.
    rewrite (ServiceFacts.setattr_found _ _ _ _ Hg).
    unfold bind at 1. unfold bind at 1. unfold lift at 1.
    destruct (Validators.validate_description d) as [d'| |]; auto.
    unfold setattr, bind, deref, tasks_set, _save, ret, saved, with_task; simpl.
    rewrite DictFacts.get_set_same. simpl.
    rewrite DictFacts.get_set_same. simpl. now rewrite set_set.
  - unfold bind at 1. unfold bind at 1. unfold lift at 1.
    destruct (Validators.validate_title t) as [t'| |]; auto.
    rewrite (ServiceFacts.setattr_found _ _ _ _ Hg).
    unfold bind, ret, _save, deref, saved, with_task; simpl.
    now rewrite DictFacts.get_set_same.
  - unfold bind at 1. unfold ret at 1. unfold bind at 1. unfold bind at 1. unfold lift at 1.
    destruct (Validators.validate_description d) as [d'| |].
    + rewrite (ServiceFacts.setattr_found _ _ _ _ Hg).
      unfold bind, _save, deref, saved, with_task; simpl.
      now rewrite DictFacts.get_set_same.
    + now rewrite (with_task_same _ _ _ Hg).
    + now rewrite (with_task_same _ _ _ Hg).
Qed.

Lemma update_unfound raw t d s :
  (t <> None \/ d <> None) ->
  Dict.get (Py.upper raw) (_tasks s) = None \/
  Validators.validate_task_id raw = Raise InvalidIDFormatError ->
  exists e, update raw t d s = (s, Raise e).
Proof.
  intros Hsome Hbad. unfold update.
  assert (Hr : exists e, get_ref raw s = (s, Raise e)).
  { destruct (ServiceFacts.get_ref_cases raw s)
      as [(t0 & Hv & Hg & Hr) | [(Hv & Hg & Hr) | (Hv & Hr)]]; eauto.
    destruct Hbad; congruence. }
  destruct Hr as [e Hr].
  destruct t as [t|], d as [d|]; try (destruct Hsome; congruence);
    unfold bind at 1; rewrite Hr; eauto.
Qed.

End OutcomeFacts.

(** C7: [validate_task_id] accepts exactly T or t followed by one or more
    ASCII digits and then returns the uppercased text; everything else is
    [InvalidIDFormat].  The listed samples behave as stated.  [get],
    [update], [delete], [mark_complete] and [mark_incomplete] called with any
    spelling of an id do what they do on its uppercase spelling, and that is
    to act on the entry under the uppercase key: when a task is stored there,
    [get] returns it, [delete] removes that entry, the toggles and [update]
    rewrite that entry, each saving as it does; when nothing is stored there
    each raises [TaskNotFound] with the uppercase id and changes nothing.  A
    [get] returns a task only in the first case. *)
Theorem validate_task_id_spec (raw : string) :
  (id_shape raw -> Validators.validate_task_id raw = Ok (Py.upper raw)) /\
  (~ id_shape raw -> Validators.validate_task_id raw = Raise InvalidIDFormatError) /\
  (Validators.validate_task_id "T1" = Ok "T1" /\
   Validators.validate_task_id "T12345" = Ok "T12345" /\
   Validators.validate_task_id "t001" = Ok "T001" /\
   Validators.validate_task_id "T" = Raise InvalidIDFormatError /\
   Validators.validate_task_id "Tabc" = Raise InvalidIDFormatError /\
   Validators.validate_task_id "X001" = Raise InvalidIDFormatError /\
   Validators.validate_task_id "001" = Raise InvalidIDFormatError /\
   Validators.validate_task_id "" = Raise InvalidIDFormatError) /\
  (forall s,
     Service.get raw s = Service.get (Py.upper raw) s /\
     (forall t d, Service.update raw t d s = Service.update (Py.upper raw) t d s) /\
     Service.delete raw s = Service.delete (Py.upper raw) s /\
     Service.mark_complete raw s = Service.mark_complete (Py.upper raw) s /\
     Service.mark_incomplete raw s = Service.mark_incomplete (Py.upper raw) s) /\
  (forall s s' t,
     Service.get raw s = (s', Ok t) ->
     id_shape raw /\ s' = s /\ Dict.get (Py.upper raw) (_tasks s) = Some t) /\
  (forall s k,
     Validators.validate_task_id raw = Ok k ->
     k = Py.upper raw /\
     (forall t0,
        Dict.get k (_tasks s) = Some t0 ->
        Service.get raw s = (s, Ok t0) /\
        Service.delete raw s = (removed k s, Ok t0) /\
        _tasks (removed k s) = Dict.remove k (_tasks s) /\
        Service.mark_complete raw s =
          (if completed t0 then (s, Ok (t0, false))
           else (marked k t0 true s, Ok (set_completed true t0, true))) /\
        Service.mark_incomplete raw s =
          (if completed t0 then (marked k t0 false s, Ok (set_completed false t0, true))
           else (s, Ok (t0, false))) /\
        (forall v, _tasks (marked k t0 v s) = Dict.set k (set_completed v t0) (_tasks s)) /\
        (forall t d t1 t2,
           t <> None \/ d <> None ->
           apply_title t t0 = Ok t1 -> apply_description d t1 = Ok t2 ->
           Service.update raw t d s = (saved (with_task k t2 s), Ok t2) /\
           _tasks (saved (with_task k t2 s)) = Dict.set k t2 (_tasks s))) /\
     (Dict.get k (_tasks s) = None ->
      Service.get raw s = (s, Raise (TaskNotFoundError k)) /\
      Service.delete raw s = (s, Raise (TaskNotFoundError k)) /\
      Service.mark_complete raw s = (s, Raise (TaskNotFoundError k)) /\
      Service.mark_incomplete raw s = (s, Raise (TaskNotFoundError k)) /\
      (forall t d, t <> None \/ d <> None ->
         Service.update raw t d s = (s, Raise (TaskNotFoundError k))))).
Proof.
  split; [apply ValidatorFacts.validate_task_id_shape|].
  split.
  { intros Hn. destruct (ValidatorFacts.validate_task_id_cases raw) as [H | H]; auto.
    exfalso. apply Hn. now apply ValidatorFacts.validate_task_id_shape. }
  split; [repeat split; reflexivity|].
  split.
  { intros s. repeat split; intros.
    + now rewrite CaseFacts.get_upper.
    + now rewrite CaseFacts.update_upper.
    + now rewrite CaseFacts.delete_upper.
    + now rewrite CaseFacts.mark_complete_upper.
    + now rewrite CaseFacts.mark_incomplete_upper. }
  split.
  { intros s s' t H. apply CaseFacts.get_ok in H as (Hv & -> & Hg).
    repeat split; auto. now apply ValidatorFacts.validate_task_id_shape. }
  intros s k Hv. split; [now apply ValidatorFacts.validate_task_id_ok|].
  split.
  - intros t0 Hg.
    split; [exact (ServiceFacts.get_found raw k t0 s Hv Hg)|].
    split; [now apply OutcomeFacts.delete_eq|].
    split; [reflexivity|].
    split; [now apply ServiceFacts.mark_complete_eq|].
    split; [now apply ServiceFacts.mark_incomplete_eq|].
    split; [reflexivity|].
    intros t d t1 t2 Hsome H1 H2. split; [|reflexivity].
    rewrite (OutcomeFacts.update_eq raw k t0 t d s Hv Hg), H1, H2.
    destruct t, d; try reflexivity. destruct Hsome as [H | H]; now destruct H.
  - intros Hg.
    pose proof (ServiceFacts.get_ref_missing raw k s Hv Hg) as Hr.
    split; [unfold Service.get, bind; now rewrite Hr|].
    split; [now apply OutcomeFacts.delete_missing|].
    split; [unfold Service.mark_complete, bind; now rewrite Hr|].
    split; [unfold Service.mark_incomplete, bind; now rewrite Hr|].
    intros t d Hsome. unfold Service.update.
    destruct t, d; try (unfold bind at 1; now rewrite Hr).
    destruct Hsome as [H | H]; now destruct H.
Qed.

Lemma validate_task_id_spec_witness :
  id_shape "t002" /\
  Validators.validate_task_id "t002" = Ok "T002" /\
  (exists t, Dict.get "T002" (_tasks Scenario.three_tasks) = Some t /\
             Service.get "t002" Scenario.three_tasks = (Scenario.three_tasks, Ok t) /\
             Service.delete "t002" Scenario.three_tasks
             = (removed "T002" Scenario.three_tasks, Ok t)) /\
  Dict.keys (_tasks (removed "T002" Scenario.three_tasks)) = ["T001"; "T003"].
Proof.
  assert (Hs : id_shape "t002").
  { exists "002". repeat split; [discriminate | now right]. }
  split; [exact Hs|].
  split; [exact (proj1 (validate_task_id_spec "t002") Hs)|].
  split; [|reflexivity].
  eexists. split; [vm_compute; reflexivity|].
  pose proof (proj1 (proj2 (proj2 (proj2 (proj2 (proj2 (proj2
                (validate_task_id_spec "t002"))))) Scenario.three_tasks "T002" eq_refl))
                _ eq_refl) as H.
  split; [exact (proj1 H) | exact (proj1 (proj2 H))].
Defined.


(** ** Allocated identifiers *)

Module IdFacts.
Import IDGenerator.

Lemma to_uint_nonnil n : N.to_uint n <> Nil.
Proof.
  rewrite <- (DecimalN.Unsigned.of_to n) at 1.
  rewrite DecimalN.Unsigned.to_of. apply DecimalFacts.unorm_nonnil.
Qed.

Lemma string_of_uint_nonempty d : d <> Nil -> NilEmpty.string_of_uint d <> EmptyString.
Proof. destruct d; simpl; congruence. Qed.

Lemma digits_all d : Py.all_chars Py.is_digit (NilEmpty.string_of_uint d) = true.
Proof. induction d; simpl; auto. Qed.

Lemma all_chars_app p a b :
  Py.all_chars p (a ++ b) = Py.all_chars p a && Py.all_chars p b.
Proof. induction a; simpl; auto. now rewrite IHa, andb_assoc. Qed.

Lemma zeros_all k : Py.all_chars Py.is_digit (Py.zeros k) = true.
Proof. induction k; simpl; auto. Qed.

Lemma zfill_digits w n : Py.all_chars Py.is_digit (Py.zfill w n) = true.
Proof. unfold Py.zfill. now rewrite all_chars_app, zeros_all, digits_all. Qed.

Lemma zfill_nonempty w n : Py.zfill w n <> EmptyString.
Proof.
  unfold Py.zfill. intros H.
  destruct (Py.zeros _); simpl in H; [|discriminate].
  revert H. apply string_of_uint_nonempty, to_uint_nonnil.
Qed.

(** Leading zeros do not change the number read back. *)
Lemma parse_zeros k s d :
  NilEmpty.uint_of_string s = Some d ->
  exists d', NilEmpty.uint_of_string (Py.zeros k ++ s) = Some d' /\
             N.of_uint d' = N.of_uint d.
Proof.
  intros H. induction k as [|k (d' & Hd' & Hv)]; simpl.
  - eauto.
  - rewrite Hd'. simpl. eauto.
Qed.

Lemma parse_zfill w n :
  exists d, NilEmpty.uint_of_string (Py.zfill w n) = Some d /\ N.of_uint d = n.
Proof.
  unfold Py.zfill.
  destruct (parse_zeros (w - String.length (NilEmpty.string_of_uint (N.to_uint n)))
              _ _ (NilEmpty.usu (N.to_uint n))) as (d & Hd & Hv).
  exists d. split; auto. rewrite Hv. apply DecimalN.Unsigned.of_to.
Qed.

(** The identifier spells the counter value: nothing is cut off. *)
Lemma id_number_format n : id_number (format_id n) = Some n.
Proof.
  unfold format_id, id_number.
  destruct (parse_zfill 3 n) as (d & Hd & Hv).
  destruct (Py.zfill 3 n) eqn:E; [now apply zfill_nonempty in E|].
  now rewrite Hd, Hv.
Qed.

Lemma format_id_inj n m : format_id n = format_id m -> n = m.
Proof.
  intros H. apply (f_equal id_number) in H.
  rewrite !id_number_format in H. congruence.
Qed.

Lemma format_id_upper n : Py.upper (format_id n) = format_id n.
Proof.
  unfold format_id. simpl. f_equal. apply PyFacts.upper_digits, zfill_digits.
Qed.

Lemma format_id_shape n : Validators.validate_task_id (format_id n) = Ok (format_id n).
Proof.
  rewrite <- (format_id_upper n) at 2.
  apply ValidatorFacts.validate_task_id_shape.
  exists (Py.zfill 3 n). split; [apply zfill_nonempty|].
  split; [apply zfill_digits | now left].
Qed.

Lemma length_app a b : String.length (a ++ b) = String.length a + String.length b.
Proof. induction a; simpl; auto. Qed.

Lemma length_zeros k : String.length (Py.zeros k) = k.
Proof. induction k; simpl; auto. Qed.

(** At least three digits after the T. *)
Lemma format_id_length n : 4 <= String.length (format_id n).
Proof.
  unfold format_id. cbn [String.length]. unfold Py.zfill.
  rewrite length_app, length_zeros. lia.
Qed.

End IdFacts.

(** ** Trimming *)

Module StripFacts.

Lemma lstrip_no_lead s : no_lead (Py.lstrip s).
Proof.
  induction s as [|c r IH]; simpl; auto.
  destruct (Py.is_space c) eqn:E; simpl; auto.
Qed.

Lemma lstrip_fixed u : no_lead u -> Py.lstrip u = u.
Proof. destruct u; simpl; auto. now intros ->. Qed.

Lemma rstrip_no_lead u : no_lead u -> no_lead (Py.rstrip u).
Proof.
  destruct u as [|c r]; simpl; auto. intros Hc.
  destruct (Py.rstrip r); simpl; auto. now rewrite Hc.
Qed.

Lemma rstrip_idem s : Py.rstrip (Py.rstrip s) = Py.rstrip s.
Proof.
  induction s as [|c r IH]; simpl; auto.
  destruct (Py.rstrip r) as [|c' r'] eqn:E.
  - destruct (Py.is_space c) eqn:Ec; simpl; auto. now rewrite Ec.
  - change (Py.rstrip (String c (String c' r')))
      with (match Py.rstrip (String c' r') with
            | EmptyString => if Py.is_space c then EmptyString else String c EmptyString
            | String x y => String c (String x y)
            end).
    now rewrite IH.
Qed.

Lemma strip_idem s : Py.strip (Py.strip s) = Py.strip s.
Proof.
  unfold Py.strip.
  rewrite (lstrip_fixed (Py.rstrip (Py.lstrip s))).
  - apply rstrip_idem.
  - apply rstrip_no_lead, lstrip_no_lead.
Qed.

(** What [validate_title] returns satisfies the title constraint. *)
Lemma title_ok_validated raw t : Validators.validate_title raw = Ok t -> title_ok t.
Proof.
  intros H. apply ValidatorFacts.validate_title_ok in H as (Ht & Hne & Hlen).
  split; auto. subst t. now rewrite strip_idem.
Qed.

Lemma description_ok_validated raw d :
  Validators.validate_description raw = Ok d -> description_ok d.
Proof. intros H. now apply ValidatorFacts.validate_description_ok in H. Qed.

End StripFacts.

(** ** Every call is a sequence of elementary changes *)

Module StepFacts.
Import Service.

Section Clock.
Variable P : datetime -> Prop.

Lemma steps_one s s' : step P s s' -> steps P s s'.
Proof. intros H. eapply steps_cons; [exact H | apply steps_refl]. Qed.

Lemma steps_preserve (I : TaskService -> Prop) :
  (forall s s', step P s s' -> I s -> I s') ->
  forall s s', steps P s s' -> I s -> I s'.
Proof. intros Hstep s s' H. induction H; eauto. Qed.

Lemma fst_fmap {A B} (f : A -> B) (m : M A) s : fst (fmap f m s) = fst (m s).
Proof. unfold fmap, bind, ret. destruct (m s) as [s' [a|e|]]; reflexivity. Qed.

Lemma apply_title_ok v t0 t1 :
  apply_title v t0 = Ok t1 ->
  id t1 = id t0 /\ created_at t1 = created_at t0 /\
  description t1 = description t0 /\ completed t1 = completed t0 /\
  (title t1 = title t0 \/ title_ok (title t1)).
Proof.
  unfold apply_title. destruct v as [x|].
  - destruct (Validators.validate_title x) as [x'| |] eqn:E; simpl; try discriminate.
    intros [= <-]. simpl. repeat split; auto.
    right. eapply StripFacts.title_ok_validated; eauto.
  - intros [= <-]. repeat split; auto.
Qed.

Lemma apply_description_ok v t0 t1 :
  apply_description v t0 = Ok t1 ->
  id t1 = id t0 /\ created_at t1 = created_at t0 /\
  title t1 = title t0 /\ completed t1 = completed t0 /\
  (description t1 = description t0 \/ description_ok (description t1)).
Proof.
  unfold apply_description. destruct v as [x|].
  - destruct (Validators.validate_description x) as [x'| |] eqn:E; simpl; try discriminate.
    intros [= <-]. simpl. repeat split; auto.
    right. eapply StripFacts.description_ok_validated; eauto.
  - intros [= <-]. repeat split; auto.
Qed.

Lemma get_state raw s : fst (get raw s) = s.
Proof.
  unfold get, bind.
  destruct (ServiceFacts.get_ref_cases raw s)
    as [(t0 & Hv & Hg & Hr) | [(Hv & Hg & Hr) | (Hv & Hr)]]; rewrite Hr; auto.
  now rewrite (ServiceFacts.deref_found _ _ _ Hg).
Qed.

Lemma add_steps now t d s : P now -> steps P s (fst (add now t d s)).
Proof.
  intros Hnow. rewrite OutcomeFacts.add_eq.
  destruct (Validators.validate_title t) as [t'| |] eqn:Et; try apply steps_refl.
  destruct (Validators.validate_description d) as [d'| |] eqn:Ed; try apply steps_refl.
  apply steps_one. unfold added, saved. simpl.
  apply step_add; auto.
  - eapply StripFacts.title_ok_validated; eauto.
  - eapply StripFacts.description_ok_validated; eauto.
Qed.

Lemma update_state_unfound raw t d s e :
  get_ref raw s = (s, Raise e) -> fst (update raw t d s) = s.
Proof.
  intros Hr. unfold update.
  destruct t as [t|], d as [d|]; try reflexivity;
    unfold bind at 1; rewrite Hr; reflexivity.
Qed.

Lemma update_steps raw t d s : steps P s (fst (update raw t d s)).
Proof.
  destruct (ServiceFacts.get_ref_cases raw s)
    as [(t0 & Hv & Hg & Hr) | [(Hv & Hg & Hr) | (Hv & Hr)]].
  - rewrite (OutcomeFacts.update_eq _ _ _ _ _ _ Hv Hg).
    assert (H : steps P s (fst
      match apply_title t t0 with
      | Ok t1 =>
          match apply_description d t1 with
          | Ok t2 => (saved (with_task (Py.upper raw) t2 s), Ok t2)
          | Raise e => (with_task (Py.upper raw) t1 s, Raise e)
          | Untyped => (with_task (Py.upper raw) t1 s, Untyped)
          end
      | Raise e => (s, Raise e)
      | Untyped => (s, Untyped)
      end)).
    { destruct (apply_title t t0) as [t1| |] eqn:E1; try apply steps_refl.
      apply apply_title_ok in E1 as (Hi & Hc & Hd & _ & Ht).
      assert (Hm1 : forall dk w, step P s (mk_TaskService (Dict.set (Py.upper raw) t1 (_tasks s))
                                           (_counter s) dk w)).
      { intros. eapply step_modify; eauto. }
      destruct (apply_description d t1) as [t2| |] eqn:E2;
        try (apply steps_one; apply Hm1).
      apply apply_description_ok in E2 as (Hi2 & Hc2 & Ht2 & _ & Hd2).
      apply steps_one. unfold saved, with_task. simpl.
      eapply step_modify; eauto; try congruence.
      all: try (rewrite Ht2; exact Ht).
      all: try (destruct Hd2 as [Hd2 | Hd2]; auto; left; congruence). }
    destruct t, d; auto. apply steps_refl.
  - rewrite (update_state_unfound _ _ _ _ _ Hr). apply steps_refl.
  - rewrite (update_state_unfound _ _ _ _ _ Hr). apply steps_refl.
Qed.

Lemma delete_steps raw s : steps P s (fst (delete raw s)).
Proof.
  destruct (ValidatorFacts.validate_task_id_cases raw) as [Hv | Hv].
  - destruct (Dict.get (Py.upper raw) (_tasks s)) as [t|] eqn:Hg.
    + rewrite (OutcomeFacts.delete_eq _ _ _ _ Hv Hg).
      apply steps_one. unfold removed, saved. simpl. apply step_remove.
    + rewrite (OutcomeFacts.delete_missing _ _ _ Hv Hg). apply steps_refl.
  - rewrite (OutcomeFacts.delete_invalid _ _ Hv). apply steps_refl.
Qed.

Lemma marked_step k t v s :
  Dict.get k (_tasks s) = Some t -> step P s (marked k t v s).
Proof.
  intros Hg. unfold marked, saved, with_task. simpl.
  eapply step_modify; eauto.
Qed.

Lemma mark_complete_steps raw s : steps P s (fst (mark_complete raw s)).
Proof.
  destruct (ServiceFacts.get_ref_cases raw s)
    as [(t0 & Hv & Hg & Hr) | [(Hv & Hg & Hr) | (Hv & Hr)]].
  - rewrite (ServiceFacts.mark_complete_eq _ _ _ _ Hv Hg).
    destruct (completed t0); [apply steps_refl|].
    apply steps_one. now apply marked_step.
  - unfold mark_complete, bind. rewrite Hr. apply steps_refl.
  - unfold mark_complete, bind. rewrite Hr. apply steps_refl.
Qed.

Lemma mark_incomplete_steps raw s : steps P s (fst (mark_incomplete raw s)).
Proof.
  destruct (ServiceFacts.get_ref_cases raw s)
    as [(t0 & Hv & Hg & Hr) | [(Hv & Hg & Hr) | (Hv & Hr)]].
  - rewrite (ServiceFacts.mark_incomplete_eq _ _ _ _ Hv Hg).
    destruct (completed t0); [|apply steps_refl].
    apply steps_one. now apply marked_step.
  - unfold mark_incomplete, bind. rewrite Hr. apply steps_refl.
  - unfold mark_incomplete, bind. rewrite Hr. apply steps_refl.
Qed.

Lemma exec_steps c s : call_with P c -> steps P s (fst (exec c s)).
Proof.
  destruct c; simpl; intros Hok; rewrite fst_fmap.
  - now apply add_steps.
  - rewrite get_state. apply steps_refl.
  - apply update_steps.
  - apply delete_steps.
  - apply mark_complete_steps.
  - apply mark_incomplete_steps.
Qed.

Lemma run_steps tr : forall s, Forall (call_with P) tr -> steps P s (run tr s).
Proof.
  induction tr as [|c r IH]; intros s Hok; simpl; [apply steps_refl|].
  inversion Hok; subst.
  assert (H : steps P s (fst (exec c s))) by now apply exec_steps.
  clear Hok. revert H. generalize (fst (exec c s)). intros s1 H.
  induction H; [now apply IH|]. eapply steps_cons; eauto.
Qed.

End Clock.

Lemma call_with_any c : call_with any_clock c.
Proof. destruct c; exact I. Qed.


Lemma run_steps_any tr s : steps any_clock s (run tr s).
Proof.
  apply run_steps. apply Forall_forall. intros c _. apply call_with_any.
Qed.

End StepFacts.

(** ** Invariants of the elementary changes *)

Module InvFacts.

Lemma forall_set_key {V} (P : string * V -> Prop) k v (d : Dict.t V) :
  Forall P d -> P (k, v) -> Forall P (Dict.set k v d).
Proof.
  intros Hd Hv. induction Hd as [|[k0 v0] r Hx Hr IH]; simpl.
  - constructor; auto.
  - destruct (String.eqb k k0) eqn:E; constructor; auto.
    apply String.eqb_eq in E. now subst k0.
Qed.

Lemma forall_in_get {V} (P : string * V -> Prop) k v (d : Dict.t V) :
  Forall P d -> Dict.get k d = Some v -> P (k, v).
Proof.
  intros Hd Hg. rewrite Forall_forall in Hd. apply Hd.
  now apply DictFacts.get_some_in.
Qed.

Lemma keyed_step P s s' : step P s s' -> keyed s -> keyed s'.
Proof.
  intros H [Hnd Hk]. destruct H; split; simpl; auto.
  - now apply DictFacts.nodup_set.
  - apply forall_set_key; auto. unfold new_Task. cbn [snd fst id].
    apply IdFacts.format_id_upper.
  - now apply DictFacts.nodup_set.
  - apply forall_set_key; auto. simpl.
    pose proof (forall_in_get _ _ _ _ Hk H) as Hid. simpl in Hid. congruence.
  - now apply DictFacts.nodup_remove.
  - now apply DictFacts.forall_remove.
Qed.



Lemma persistable_step s s' : step proper_clock s s' -> persistable s -> persistable s'.
Proof.
  intros H [Hk Hp]. split; [eapply keyed_step; eauto|].
  destruct H; simpl; auto.
  - apply forall_set_key; auto. unfold new_Task. cbn [snd id created_at].
    split; auto. apply PyFacts.upper_idem.
  - apply forall_set_key; auto. simpl.
    pose proof (forall_in_get _ _ _ _ Hp H) as [Hu Hv]. simpl in Hu, Hv.
    split; congruence.
  - now apply DictFacts.forall_remove.
Qed.

Lemma covers_step P s s' : step P s s' -> counter_covers s -> counter_covers s'.
Proof.
  unfold counter_covers. intros H Hc. rewrite Forall_forall in *.
  destruct H; simpl; auto.
  - intros x Hx. apply DictFacts.keys_set in Hx as [-> | Hx].
    + eexists. split; [|reflexivity]. lia.
    + destruct (Hc x Hx) as (n & Hn & ->). exists n. split; auto. lia.
  - intros x Hx. apply DictFacts.keys_set in Hx as [-> | Hx]; auto.
    apply Hc. apply DictFacts.get_some_in in H.
    change (In (fst (k, t0)) (map fst (_tasks s))). now apply in_map.
  - intros x Hx. apply Hc. eapply DictFacts.keys_remove; eauto.
Qed.

Lemma years_step s s' :
  step modern_clock s s' -> four_digit_years s -> four_digit_years s'.
Proof.
  unfold four_digit_years. intros H Hy. destruct H; simpl; auto.
  - apply forall_set_key; auto.
  - apply forall_set_key; auto. simpl.
    pose proof (forall_in_get _ _ _ _ Hy H) as Hv. simpl in Hv. congruence.
  - now apply DictFacts.forall_remove.
Qed.

Lemma counter_step P s s' : step P s s' -> (_counter s <= _counter s')%N.
Proof. destruct 1; simpl; lia. Qed.

Lemma counter_steps P s s' : steps P s s' -> (_counter s <= _counter s')%N.
Proof.
  induction 1 as [|s s1 s2 H1 _ IH]; [lia|].
  apply counter_step in H1. lia.
Qed.


Lemma fresh_covers : counter_covers fresh.
Proof. constructor. Qed.

End InvFacts.

(** ** Timestamps: writing and reading back *)

Module DatetimeFacts.
Import Datetime.

Lemma width_2 : width_upto 2 100 = true.
Proof. vm_compute. reflexivity. Qed.

Lemma width_year : decimal_width 4 1000 (90 * 100) = true.
Proof. vm_compute. reflexivity. Qed.

Lemma width_upto_spec w bound n :
  width_upto w bound = true -> N.to_nat n < bound ->
  String.length (Py.zfill w n) = w.
Proof.
  unfold width_upto. rewrite forallb_forall. intros H Hn.
  specialize (H (N.to_nat n)). rewrite N2Nat.id in H.
  apply Nat.eqb_eq, H, in_seq. lia.
Qed.

Lemma decimal_width_spec w lo count n :
  decimal_width w lo count = true -> lo <= N.to_nat n < lo + count ->
  String.length (Py.decimal n) = w.
Proof.
  unfold decimal_width. rewrite forallb_forall. intros H Hn.
  specialize (H (N.to_nat n)). rewrite N2Nat.id in H.
  apply Nat.eqb_eq, H, in_seq. lia.
Qed.

(** From year 1000 on the year is written as if padded to four digits. *)
Lemma decimal_year y : (1000 <= y <= 9999)%N -> Py.decimal y = Py.zfill 4 y.
Proof.
  intros Hy. unfold Py.zfill. fold (Py.decimal y).
  rewrite (decimal_width_spec 4 1000 (90 * 100) y width_year) by lia.
  reflexivity.
Qed.

Lemma split_at_app a rest : split_at (String.length a) (a ++ rest) = Some (a, rest).
Proof. induction a as [|c a IH]; simpl; [now destruct rest | now rewrite IH]. Qed.

Lemma parse_digits_zfill w n rest :
  String.length (Py.zfill w n) = w ->
  parse_digits w (Py.zfill w n ++ rest) = Some (n, rest).
Proof.
  intros Hw. unfold parse_digits.
  rewrite <- Hw at 1. rewrite split_at_app.
  destruct (IdFacts.parse_zfill w n) as (d & Hd & Hv).
  now rewrite Hd, Hv.
Qed.

(** What is known of a character that is a digit. *)
Lemma digit_char c :
  Py.is_digit c = true ->
  (Py.code c <? 128) = true /\
  Ascii.eqb c "W" = false /\ Ascii.eqb c "-" = false /\
  Ascii.eqb c "Z" = false /\ Ascii.eqb c "+" = false.
Proof.
  destruct c as [[] [] [] [] [] [] [] []]; intros H; try discriminate H;
    repeat split; reflexivity.
Qed.

(** A field written on two digits, character by character. *)
Lemma zfill_2_chars n :
  (n < 100)%N ->
  exists a b, Py.zfill 2 n = String a (String b EmptyString) /\
              Py.is_digit a = true /\ Py.is_digit b = true /\
              forall rest, parse_digits 2 (String a (String b rest)) = Some (n, rest).
Proof.
  intros Hn.
  assert (Hw : String.length (Py.zfill 2 n) = 2)
    by (apply (width_upto_spec 2 100 n width_2); lia).
  pose proof (IdFacts.zfill_digits 2 n) as Hd.
  pose proof (fun rest => parse_digits_zfill 2 n rest Hw) as Hp.
  destruct (Py.zfill 2 n) as [|a [|b [|c r]]]; try discriminate Hw.
  exists a, b. cbn [Py.all_chars] in Hd.
  apply andb_true_iff in Hd as [Ha Hd]. apply andb_true_iff in Hd as [Hb _].
  repeat split; auto.
Qed.

(** A year of four digits, character by character. *)
Lemma decimal_4_chars y :
  (1000 <= y <= 9999)%N ->
  exists a b c d,
    Py.decimal y = String a (String b (String c (String d EmptyString))) /\
    Py.is_digit a = true /\ Py.is_digit b = true /\
    Py.is_digit c = true /\ Py.is_digit d = true /\
    forall rest,
      parse_digits 4 (String a (String b (String c (String d rest)))) = Some (y, rest).
Proof.
  intros Hy. rewrite (decimal_year y Hy).
  assert (Hw : String.length (Py.zfill 4 y) = 4).
  { rewrite <- (decimal_year y Hy).
    apply (decimal_width_spec 4 1000 (90 * 100) y width_year). lia. }
  pose proof (IdFacts.zfill_digits 4 y) as Hd.
  pose proof (fun rest => parse_digits_zfill 4 y rest Hw) as Hp.
  destruct (Py.zfill 4 y) as [|a [|b [|c [|d [|e r]]]]]; try discriminate Hw.
  exists a, b, c, d. cbn [Py.all_chars] in Hd.
  apply andb_true_iff in Hd as [Ha Hd]. apply andb_true_iff in Hd as [Hb Hd].
  apply andb_true_iff in Hd as [Hc Hd]. apply andb_true_iff in Hd as [Hd' _].
  repeat split; auto.
Qed.

Lemma valid_bounds d :
  valid d = true ->
  (1 <= year d <= 9999 /\ month d <= 12 /\ day d <= 31 /\
   hour d < 24 /\ minute d < 60 /\ second d < 60)%N.
Proof.
  unfold valid. rewrite !andb_true_iff, !N.leb_le, !N.ltb_lt.
  intros (((((((((Hy1 & Hy) & Hm1) & Hm) & Hd1) & Hd) & Hh) & Hmi) & Hs) & Hus).
  repeat split; auto.
  eapply N.le_trans; [exact Hd|].
  unfold days_in_month.
  destruct (month d) as [|[[[|[]|]|[[]|[]|]|]|[[|[]|]|[[]|[]|]|]|]];
    try destruct (is_leap (year d)); lia.
Qed.

Lemma valid_truncate d : valid d = true -> valid (truncate d) = true.
Proof.
  unfold valid, truncate. simpl. rewrite !andb_true_iff.
  intros (H & _). split; auto.
Qed.

Lemma utf8_ascii s :
  Py.all_chars (fun c => (Py.code c <? 128)%nat) s = true -> utf8 s = s.
Proof.
  induction s as [|c r IH]; [reflexivity|].
  cbn [Py.all_chars utf8]. intros H. apply andb_true_iff in H as [Hc Hr].
  now rewrite Hc, (IH Hr).
Qed.

(** The text that [strftime] writes for a year of four digits. *)
Lemma strftime_chars d :
  valid d = true -> (1000 <= year d)%N ->
  exists y1 y2 y3 y4 m1 m2 d1 d2 h1 h2 i1 i2 s1 s2,
    strftime d =
      String y1 (String y2 (String y3 (String y4 (String "-"
      (String m1 (String m2 (String "-" (String d1 (String d2 (String "T"
      (String h1 (String h2 (String ":" (String i1 (String i2 (String ":"
      (String s1 (String s2 EmptyString)))))))))))))))))) /\
    (Py.is_digit y1 = true /\ Py.is_digit y2 = true /\
     Py.is_digit y3 = true /\ Py.is_digit y4 = true) /\
    (Py.is_digit m1 = true /\ Py.is_digit m2 = true) /\
    (Py.is_digit d1 = true /\ Py.is_digit d2 = true) /\
    (Py.is_digit h1 = true /\ Py.is_digit h2 = true) /\
    (Py.is_digit i1 = true /\ Py.is_digit i2 = true) /\
    (Py.is_digit s1 = true /\ Py.is_digit s2 = true) /\
    (forall rest, parse_digits 4 (String y1 (String y2 (String y3 (String y4 rest))))
                  = Some (year d, rest)) /\
    (forall rest, parse_digits 2 (String m1 (String m2 rest)) = Some (month d, rest)) /\
    (forall rest, parse_digits 2 (String d1 (String d2 rest)) = Some (day d, rest)) /\
    (forall rest, parse_digits 2 (String h1 (String h2 rest)) = Some (hour d, rest)) /\
    (forall rest, parse_digits 2 (String i1 (String i2 rest)) = Some (minute d, rest)) /\
    (forall rest, parse_digits 2 (String s1 (String s2 rest)) = Some (second d, rest)).
Proof.
  intros Hv Hy. pose proof (valid_bounds d Hv) as ((_ & Hy') & Hm & Hd & Hh & Hmi & Hs).
  destruct (decimal_4_chars (year d)) as (y1 & y2 & y3 & y4 & Ey & ? & ? & ? & ? & Py);
    [lia|].
  destruct (zfill_2_chars (month d)) as (m1 & m2 & Em & ? & ? & Pm); [lia|].
  destruct (zfill_2_chars (day d)) as (d1 & d2 & Ed & ? & ? & Pd); [lia|].
  destruct (zfill_2_chars (hour d)) as (h1 & h2 & Eh & ? & ? & Ph); [lia|].
  destruct (zfill_2_chars (minute d)) as (i1 & i2 & Ei & ? & ? & Pi); [lia|].
  destruct (zfill_2_chars (second d)) as (s1 & s2 & Es & ? & ? & Ps); [lia|].
  exists y1, y2, y3, y4, m1, m2, d1, d2, h1, h2, i1, i2, s1, s2.
  split; [unfold strftime; rewrite Ey, Em, Ed, Eh, Ei, Es; reflexivity|].
  repeat split; auto.
Qed.

(** Reading back what [strftime] wrote gives the timestamp to the second,
    for a year of four digits. *)
Lemma fromisoformat_strftime d :
  valid d = true -> (1000 <= year d)%N ->
  fromisoformat (strftime d) = Ok (truncate d).
Proof.
  intros Hv Hy.
  destruct (strftime_chars d Hv Hy)
    as (y1 & y2 & y3 & y4 & m1 & m2 & d1 & d2 & h1 & h2 & i1 & i2 & s1 & s2 & E &
        (Hy1 & Hy2 & Hy3 & Hy4) & (Hm1 & Hm2) & (Hd1 & Hd2) & (Hh1 & Hh2) &
        (Hi1 & Hi2) & (Hs1 & Hs2) & Py & Pm & Pd & Ph & Pi & Ps).
  rewrite E. clear E.
  destruct (digit_char _ Hy1) as (Ay1 & _).
  destruct (digit_char _ Hy2) as (Ay2 & _).
  destruct (digit_char _ Hy3) as (Ay3 & _).
  destruct (digit_char _ Hy4) as (Ay4 & _).
  destruct (digit_char _ Hm1) as (Am1 & Wm1 & _).
  destruct (digit_char _ Hm2) as (Am2 & _).
  destruct (digit_char _ Hd1) as (Ad1 & _).
  destruct (digit_char _ Hd2) as (Ad2 & _).
  destruct (digit_char _ Hh1) as (Ah1 & _ & Dh1 & Zh1 & Qh1).
  destruct (digit_char _ Hh2) as (Ah2 & _ & Dh2 & Zh2 & Qh2).
  destruct (digit_char _ Hi1) as (Ai1 & _ & Di1 & Zi1 & Qi1).
  destruct (digit_char _ Hi2) as (Ai2 & _ & Di2 & Zi2 & Qi2).
  destruct (digit_char _ Hs1) as (As1 & _ & Ds1 & Zs1 & Qs1).
  destruct (digit_char _ Hs2) as (As2 & _ & Ds2 & Zs2 & Qs2).
  unfold fromisoformat.
  rewrite utf8_ascii
    by (cbn [Py.all_chars];
        rewrite Ay1, Ay2, Ay3, Ay4, Am1, Am2, Ad1, Ad2, Ah1, Ah2, Ai1, Ai2, As1, As2;
        reflexivity).
  cbn [String.length Nat.ltb Nat.leb].
  unfold find_isoformat_datetime_separator.
  cbn [String.length Nat.eqb char_at]. change (Ascii.eqb "-" "-") with true. cbv iota.
  rewrite Wm1.
  unfold parse_isoformat_date. rewrite Py.
  cbn [char_at drop]. change (Ascii.eqb "-" "-") with true. cbv iota.
  rewrite Wm1, Pm. cbn [skip_dash]. rewrite Pd.
  cbn [Nat.ltb Nat.leb char_at].
  change (separator_width "T") with 1. cbn [Nat.add drop].
  unfold parse_isoformat_time.
  cbn [tzinfo_pos]. rewrite Dh1, Zh1, Qh1, Dh2, Zh2, Qh2, Di1, Zi1, Qi1, Di2, Zi2, Qi2,
    Ds1, Zs1, Qs1, Ds2, Zs2, Qs2.
  change (Ascii.eqb ":" "Z" || Ascii.eqb ":" "+" || Ascii.eqb ":" "-") with false.
  cbn [orb String.length].
  unfold parse_hh_mm_ss_ff. cbn [parse_hh_mm_ss]. rewrite Ph.
  cbn [look_after String.length Nat.leb]. change (Ascii.eqb ":" ":") with true.
  cbn [andb]. rewrite Pi.
  cbn [look_after String.length Nat.leb]. change (Ascii.eqb ":" ":") with true.
  cbn [andb]. rewrite Ps.
  cbn [look_after nth].
  change (mk_datetime_tz (year d) (month d) (day d) (hour d) (minute d) (second d) 0 None)
    with (truncate d).
  now rewrite (valid_truncate d Hv).
Qed.

Lemma fromisoformat_valid x d : fromisoformat x = Ok d -> valid d = true.
Proof.
  unfold fromisoformat.
  destruct (String.length (utf8 x) <? 7)%nat; [discriminate|].
  destruct (find_isoformat_datetime_separator (utf8 x)) as [n|]; [|discriminate].
  destruct (parse_isoformat_date (utf8 x) n) as [[[y mo] dd]|]; [|discriminate].
  destruct (if (n <? String.length (utf8 x))%nat then _ else _)
    as [[[[[h mi] s] us] tz]|]; [|discriminate].
  destruct (valid _) eqn:E; [|discriminate]. now intros [= <-].
Qed.

(** [fromisoformat] refuses with [ValueError] and nothing else. *)
Lemma fromisoformat_raise x e : fromisoformat x = Raise e -> e = ValueError.
Proof.
  unfold fromisoformat.
  destruct (String.length (utf8 x) <? 7)%nat; [now intros [= <-]|].
  destruct (find_isoformat_datetime_separator (utf8 x)) as [n|]; [|now intros [= <-]].
  destruct (parse_isoformat_date (utf8 x) n) as [[[y mo] dd]|]; [|now intros [= <-]].
  destruct (if (n <? String.length (utf8 x))%nat then _ else _)
    as [[[[[h mi] s] us] tz]|]; [|now intros [= <-]].
  destruct (valid _); [discriminate | now intros [= <-]].
Qed.

Lemma fromisoformat_typed x : fromisoformat x <> Untyped.
Proof.
  destruct (fromisoformat x) as [d|e|] eqn:E; try discriminate.
  exfalso. revert E. unfold fromisoformat.
  destruct (String.length (utf8 x) <? 7)%nat; [discriminate|].
  destruct (find_isoformat_datetime_separator (utf8 x)) as [n|]; [|discriminate].
  destruct (parse_isoformat_date (utf8 x) n) as [[[y mo] dd]|]; [|discriminate].
  destruct (if (n <? String.length (utf8 x))%nat then _ else _)
    as [[[[[h mi] s] us] tz]|]; [|discriminate].
  destruct (valid _); discriminate.
Qed.

End DatetimeFacts.

(** ** [fromisoformat] and [strftime] on sample texts, as CPython 3.11 answers *)

Module IsoformatSamples.
Import Datetime.

Example own_format :
  fromisoformat "2025-12-29T10:30:00" = Ok (mk_datetime 2025 12 29 10 30 0 0).
Proof. reflexivity. Qed.

Example date_only : fromisoformat "2025-01-01" = Ok (mk_datetime 2025 1 1 0 0 0 0).
Proof. reflexivity. Qed.

Example basic_format :
  fromisoformat "20250101T103000" = Ok (mk_datetime 2025 1 1 10 30 0 0).
Proof. reflexivity. Qed.

Example any_separator :
  fromisoformat "2025-01-01 10:30" = Ok (mk_datetime 2025 1 1 10 30 0 0).
Proof. reflexivity. Qed.

Example fraction :
  fromisoformat "2025-01-01T10:30:00.5" = Ok (mk_datetime 2025 1 1 10 30 0 500000).
Proof. reflexivity. Qed.

Example long_fraction_is_cut :
  fromisoformat "2025-01-01T10:30:00,123456789"
  = Ok (mk_datetime 2025 1 1 10 30 0 123456).
Proof. reflexivity. Qed.

Example zulu :
  fromisoformat "2025-01-01T10:30:00Z"
  = Ok (mk_datetime_tz 2025 1 1 10 30 0 0 (Some 0%Z)).
Proof. reflexivity. Qed.

Example offset :
  fromisoformat "2025-01-01T10:30:00-05:00"
  = Ok (mk_datetime_tz 2025 1 1 10 30 0 0 (Some (-18000000000)%Z)).
Proof. reflexivity. Qed.

Example offset_of_a_day : fromisoformat "2025-01-01T10:30:00+24:00" = Raise ValueError.
Proof. reflexivity. Qed.

Example week_date : fromisoformat "2025-W01-1" = Ok (mk_datetime 2024 12 30 0 0 0 0).
Proof. reflexivity. Qed.

Example week_53 : fromisoformat "2020-W53-7" = Ok (mk_datetime 2021 1 3 0 0 0 0).
Proof. reflexivity. Qed.

Example no_week_53 : fromisoformat "2025-W53-1" = Raise ValueError.
Proof. reflexivity. Qed.

Example padded_year : fromisoformat "0999-01-01T00:00:00" = Ok (mk_datetime 999 1 1 0 0 0 0).
Proof. reflexivity. Qed.

Example unpadded_year : fromisoformat "999-01-01T00:00:00" = Raise ValueError.
Proof. reflexivity. Qed.

Example no_time_after_separator : fromisoformat "2025-01-01T" = Raise ValueError.
Proof. reflexivity. Qed.

Example day_out_of_range : fromisoformat "2025-02-30" = Raise ValueError.
Proof. reflexivity. Qed.

Example hour_out_of_range : fromisoformat "2025-01-01T24:00:00" = Raise ValueError.
Proof. reflexivity. Qed.

Example trailing_text : fromisoformat "2025-01-01T10:30:00 " = Raise ValueError.
Proof. reflexivity. Qed.

Example too_short : fromisoformat "2025-1" = Raise ValueError.
Proof. reflexivity. Qed.

Example strftime_four_digits :
  strftime (mk_datetime 2025 12 29 10 30 0 123456) = "2025-12-29T10:30:00".
Proof. reflexivity. Qed.

Example strftime_three_digits :
  strftime (mk_datetime 999 1 2 3 4 5 0) = "999-01-02T03:04:05".
Proof. reflexivity. Qed.

Example strftime_drops_offset :
  strftime (mk_datetime_tz 2025 1 1 10 30 0 250000 (Some 19800000000%Z))
  = "2025-01-01T10:30:00".
Proof. reflexivity. Qed.

End IsoformatSamples.

(** ** Loading *)

Module LoadFacts.
Import Service.

Lemma load_tasks_cons td rest s :
  load_tasks (td :: rest) s =
  match load_task td with
  | Ok task => load_tasks rest (with_task (id task) task s)
  | Raise e => (s, Raise e)
  | Untyped => (s, Untyped)
  end.
Proof.
  simpl. unfold bind, lift, tasks_set, with_task.
  destruct (load_task td); reflexivity.
Qed.

(** A record written by [_save] reads back as the task it was written from,
    its timestamp cut to the second. *)
Lemma load_task_json t :
  Py.upper (id t) = id t -> Datetime.valid (created_at t) = true ->
  (1000 <= year (created_at t))%N ->
  load_task (task_json t) = Ok (truncate_task t).
Proof.
  intros Hu Hv Hy. unfold load_task, task_json, format_created_at.
  cbn [PyJson.getitem PyJson.get Dict.get String.eqb Ascii.eqb Bool.eqb rbind].
  rewrite (DatetimeFacts.fromisoformat_strftime _ Hv Hy).
  cbn [rbind]. unfold new_Task, truncate_task. now rewrite Hu.
Qed.


Lemma getitem_obj fields k :
  PyJson.getitem (JObj fields) k =
  match Dict.get k fields with Some v => Ok v | None => Raise (KeyError k) end.
Proof. reflexivity. Qed.

Lemma get_obj fields k dflt :
  PyJson.get (JObj fields) k dflt =
  match Dict.get k fields with Some v => Ok v | None => Ok dflt end.
Proof. reflexivity. Qed.

(** The record of [load_task] on a dictionary, field by field. *)
Lemma load_task_obj fields :
  load_task (JObj fields) =
  match Dict.get "id" fields with
  | None => Raise (KeyError "id")
  | Some v_id =>
    match Dict.get "title" fields with
    | None => Raise (KeyError "title")
    | Some v_title =>
      match Dict.get "created_at" fields with
      | None => Raise (KeyError "created_at")
      | Some v_created =>
        let? created := match v_created with
                        | JStr x => Datetime.fromisoformat x
                        | _ => Raise TypeError
                        end in
        let? i := match v_id with JStr x => Ok x | _ => Raise AttributeError end in
        let? t := match v_title with JStr x => Ok x | _ => Untyped end in
        let? d := match Dict.get "description" fields with
                  | Some (JStr x) => Ok x
                  | Some _ => Untyped
                  | None => Ok EmptyString
                  end in
        let? c := match Dict.get "completed" fields with
                  | Some (JBool b) => Ok b
                  | Some _ => Untyped
                  | None => Ok false
                  end in
        Ok (new_Task i t d c created)
      end
    end
  end.
Proof.
  unfold load_task. rewrite !getitem_obj, !get_obj.
  destruct (Dict.get "id" fields); [|reflexivity]. simpl.
  destruct (Dict.get "title" fields); [|reflexivity]. simpl.
  destruct (Dict.get "description" fields), (Dict.get "completed" fields); simpl;
    destruct (Dict.get "created_at" fields); reflexivity.
Qed.

Lemma load_task_not_obj td :
  (forall fields, td <> JObj fields) -> load_task td = Raise TypeError.
Proof. destruct td; intros H; try reflexivity. now destruct (H fields). Qed.

Lemma load_task_keyerror fields k :
  load_task (JObj fields) = Raise (KeyError k) <-> missing_key fields = Some k.
Proof.
  rewrite load_task_obj. unfold missing_key, Dict.mem.
  destruct (Dict.get "id" fields) as [v_id|]; simpl; [|split; congruence].
  destruct (Dict.get "title" fields) as [v_title|]; simpl; [|split; congruence].
  destruct (Dict.get "created_at" fields) as [v_created|]; simpl; [|split; congruence].
  split; [|discriminate].
  destruct v_created; simpl; try discriminate.
  destruct (Datetime.fromisoformat s) eqn:E; simpl; try discriminate.
  - destruct v_id; simpl; try discriminate.
    destruct v_title; simpl; try discriminate.
    destruct (Dict.get "description" fields) as [[]|]; simpl; try discriminate;
      destruct (Dict.get "completed" fields) as [[]|]; simpl; discriminate.
  - apply DatetimeFacts.fromisoformat_raise in E. intros; congruence.
Qed.

Lemma load_task_raise td e :
  load_task td = Raise e ->
  (exists fields k, td = JObj fields /\ e = KeyError k /\ missing_key fields = Some k) \/
  e = TypeError \/ e = AttributeError \/ e = ValueError.
Proof.
  destruct td as [| | | |items|fields];
    try (intros [= <-]; auto; fail).
  intros H.
  destruct e; try (left; exists fields; eexists; repeat split; now apply load_task_keyerror);
    auto; exfalso; revert H; rewrite load_task_obj;
    destruct (Dict.get "id" fields) as [v_id|]; simpl; try discriminate;
    destruct (Dict.get "title" fields) as [v_title|]; simpl; try discriminate;
    destruct (Dict.get "created_at" fields) as [v_created|]; simpl; try discriminate;
    (destruct v_created; simpl; try discriminate);
    (destruct (Datetime.fromisoformat s) eqn:E; simpl;
     [| apply DatetimeFacts.fromisoformat_raise in E; congruence | discriminate]);
    (destruct v_id; simpl; try discriminate);
    (destruct v_title; simpl; try discriminate);
    destruct (Dict.get "description" fields) as [[]|]; simpl; try discriminate;
    destruct (Dict.get "completed" fields) as [[]|]; simpl; discriminate.
Qed.

(** What [load_task] builds has an uppercase id and a timestamp in range. *)
Lemma load_task_built td t :
  load_task td = Ok t ->
  Py.upper (id t) = id t /\ Datetime.valid (created_at t) = true.
Proof.
  destruct td as [| | | |items|fields]; try discriminate.
  rewrite load_task_obj.
  destruct (Dict.get "id" fields) as [v_id|]; simpl; try discriminate.
  destruct (Dict.get "title" fields) as [v_title|]; simpl; try discriminate.
  destruct (Dict.get "created_at" fields) as [v_created|]; simpl; try discriminate.
  destruct v_created; simpl; try discriminate.
  destruct (Datetime.fromisoformat s) eqn:E; simpl; try discriminate.
  destruct v_id; simpl; try discriminate.
  destruct v_title; simpl; try discriminate.
  destruct (Dict.get "description" fields) as [[]|]; simpl; try discriminate;
    destruct (Dict.get "completed" fields) as [[]|]; simpl; try discriminate;
    intros [= <-]; simpl; split;
    try apply PyFacts.upper_idem; eapply DatetimeFacts.fromisoformat_valid; eauto.
Qed.

Lemma with_task_persistable t s :
  Py.upper (id t) = id t -> Datetime.valid (created_at t) = true ->
  persistable s -> persistable (with_task (id t) t s).
Proof.
  intros Hu Hv [[Hnd Hk] Hp]. unfold with_task. repeat split; simpl.
  - now apply DictFacts.nodup_set.
  - now apply InvFacts.forall_set_key.
  - apply InvFacts.forall_set_key; auto.
Qed.

Lemma load_tasks_persistable items : forall s,
  persistable s -> persistable (fst (load_tasks items s)).
Proof.
  induction items as [|td rest IH]; intros s Hs; [exact Hs|].
  rewrite load_tasks_cons.
  destruct (load_task td) as [t| |] eqn:E; auto.
  apply IH. apply load_task_built in E as [Hu Hv].
  now apply with_task_persistable.
Qed.

Lemma load_tasks_frame items : forall s,
  _counter (fst (load_tasks items s)) = _counter s /\
  disk (fst (load_tasks items s)) = disk s /\
  writes (fst (load_tasks items s)) = writes s.
Proof.
  induction items as [|td rest IH]; intros s; [auto|].
  rewrite load_tasks_cons.
  destruct (load_task td) as [t| |]; auto.
  destruct (IH (with_task (id t) t s)) as (H1 & H2 & H3). auto.
Qed.

Lemma load_tasks_keyerror items : forall s s' k,
  load_tasks items s = (s', Raise (KeyError k)) ->
  exists fields, In (JObj fields) items /\ missing_key fields = Some k.
Proof.
  induction items as [|td rest IH]; intros s s' k; [discriminate|].
  rewrite load_tasks_cons.
  destruct (load_task td) as [t|e|] eqn:E.
  - intros H. destruct (IH _ _ _ H) as (fields & Hin & Hm).
    exists fields. split; auto. now right.
  - intros [= <- ->].
    destruct (load_task_raise _ _ E) as [(fields & k' & -> & [= <-] & Hm) | [H | [H | H]]];
      try discriminate.
    exists fields. split; auto. now left.
  - discriminate.
Qed.


Lemma load_tasks_no_decode items : forall s s',
  load_tasks items s <> (s', Raise JSONDecodeError).
Proof.
  induction items as [|td rest IH]; intros s s'; [discriminate|].
  rewrite load_tasks_cons.
  destruct (load_task td) as [t|e|] eqn:E; auto; [|discriminate].
  intros [= <- ->].
  destruct (load_task_raise _ _ E) as [(fields & k' & _ & H & _) | [H | [H | H]]];
    discriminate.
Qed.

End LoadFacts.

(** ** Loading a whole file *)

Module FileFacts.
Import Service.

Lemma persistable_tasks s s' : _tasks s' = _tasks s -> persistable s -> persistable s'.
Proof. unfold persistable, keyed. now intros ->. Qed.

(** [load_data] on anything but an object fails on its first [get]. *)
Lemma load_data_not_obj data s :
  (forall top, data <> JObj top) -> load_data data s = (s, Raise AttributeError).
Proof. destruct data; intros H; try reflexivity. now destruct (H fields). Qed.

(** [load_data] on an object, stage by stage. *)
Lemma load_data_obj top s :
  load_data (JObj top) s =
  match PyJson.iter (match Dict.get "tasks" top with Some v => v | None => JArr [] end) with
  | Ok items =>
      match load_tasks items s with
      | (s1, Ok _) =>
          match (match Dict.get "next_id_counter" top with
                 | Some (JNum z) => if (0 <=? z)%Z then Ok (Z.to_N z) else Untyped
                 | Some _ => Untyped
                 | None => Ok 0%N
                 end) with
          | Ok c => (mk_TaskService (_tasks s1) c (disk s1) (writes s1), Ok tt)
          | Raise e => (s1, Raise e)
          | Untyped => (s1, Untyped)
          end
      | (s1, Raise e) => (s1, Raise e)
      | (s1, Untyped) => (s1, Untyped)
      end
  | Raise e => (s, Raise e)
  | Untyped => (s, Untyped)
  end.
Proof.
  unfold load_data. unfold bind at 1. unfold lift at 1. rewrite LoadFacts.get_obj.
  assert (E : (match Dict.get "tasks" top with Some v => Ok v | None => Ok (JArr []) end)
              = Ok (match Dict.get "tasks" top with Some v => v | None => JArr [] end))
    by (destruct (Dict.get "tasks" top); reflexivity).
  rewrite E. unfold bind at 1. unfold lift at 1.
  destruct (PyJson.iter _) as [items| |]; try reflexivity.
  unfold bind at 1.
  destruct (load_tasks items s) as [s1 [[]| |]]; try reflexivity.
  all: unfold bind, lift, id_set_counter; rewrite LoadFacts.get_obj.
  all: destruct (Dict.get "next_id_counter" top) as [[| |z| | |]|]; try reflexivity.
  all: destruct (0 <=? z)%Z; reflexivity.
Qed.

Lemma load_data_tasks data s :
  exists items, _tasks (fst (load_data data s)) = _tasks (fst (load_tasks items s)).
Proof.
  destruct data as [| | | |items0|top];
    try (exists []; rewrite load_data_not_obj by discriminate; reflexivity).
  rewrite load_data_obj.
  destruct (PyJson.iter _) as [items| |]; try (exists []; reflexivity).
  exists items.
  destruct (load_tasks items s) as [s1 [[]| |]]; try reflexivity.
  destruct (match Dict.get "next_id_counter" top with
            | Some (JNum z) => if (0 <=? z)%Z then Ok (Z.to_N z) else Untyped
            | Some _ => Untyped
            | None => Ok 0%N
            end); reflexivity.
Qed.

Lemma load_try_tasks s :
  exists items, _tasks (fst (load_try s)) = _tasks (fst (load_tasks items s)).
Proof.
  unfold load_try. destruct (disk s); try (exists []; reflexivity).
  apply load_data_tasks.
Qed.

Lemma load_fst s : fst (_load s) = fst (load_try s).
Proof.
  unfold _load. destruct (load_try s) as [s' [a|e|]]; try reflexivity.
  destruct e; reflexivity.
Qed.

Lemma load_persistable s : persistable s -> persistable (fst (_load s)).
Proof.
  intros Hs. rewrite load_fst. destruct (load_try_tasks s) as [items E].
  eapply persistable_tasks; [exact E|]. now apply LoadFacts.load_tasks_persistable.
Qed.

Lemma init_persistable f : persistable (fst (init f)).
Proof.
  unfold init. apply load_persistable. repeat split; constructor.
Qed.

Lemma reachable_persistable s : reachable s -> persistable s.
Proof.
  induction 1 as [f s H | s c Hs IH Hok].
  - pose proof (init_persistable f) as Hp. now rewrite H in Hp.
  - eapply StepFacts.steps_preserve; [apply InvFacts.persistable_step | | exact IH].
    now apply StepFacts.exec_steps.
Qed.

Lemma load_data_keyerror data s s' k :
  load_data data s = (s', Raise (KeyError k)) ->
  exists fields, In (JObj fields) (file_records (Json data)) /\ missing_key fields = Some k.
Proof.
  destruct data as [| | | |items0|top];
    try (rewrite load_data_not_obj by discriminate; discriminate).
  rewrite load_data_obj. unfold file_records.
  destruct (PyJson.iter _) as [items|e|] eqn:Ei; try discriminate.
  - destruct (load_tasks items s) as [s1 [[]|e|]] eqn:El; try discriminate.
    + destruct (Dict.get "next_id_counter" top) as [[| |z| | |]|]; try discriminate.
      destruct (0 <=? z)%Z; discriminate.
    + intros [= <- ->]. eapply LoadFacts.load_tasks_keyerror; eauto.
  - intros [= <- ->].
    destruct (match Dict.get "tasks" top with Some v => v | None => JArr [] end);
      discriminate.
Qed.



Lemma load_data_no_decode data s s' :
  load_data data s <> (s', Raise JSONDecodeError).
Proof.
  destruct data as [| | | |items0|top];
    try (rewrite load_data_not_obj by discriminate; discriminate).
  rewrite load_data_obj.
  destruct (PyJson.iter _) as [items|e|] eqn:Ei; try discriminate.
  - destruct (load_tasks items s) as [s1 [[]|e|]] eqn:El; try discriminate.
    + destruct (Dict.get "next_id_counter" top) as [[| |z| | |]|]; try discriminate.
      destruct (0 <=? z)%Z; discriminate.
    + intros [= <- ->]. eapply LoadFacts.load_tasks_no_decode; eauto.
  - intros [= <- ->].
    destruct (match Dict.get "tasks" top with Some v => v | None => JArr [] end);
      discriminate.
Qed.

End FileFacts.

(** ** Saving and loading again *)

Module RoundTripFacts.
Import Service.

Lemma truncate_task_id t : id (truncate_task t) = id t.
Proof. reflexivity. Qed.

Lemma truncate_whole d :
  microsecond d = 0%N -> tzinfo d = None -> Datetime.truncate d = d.
Proof. destruct d; simpl. now intros -> ->. Qed.

Lemma truncate_task_whole t :
  microsecond (created_at t) = 0%N -> tzinfo (created_at t) = None ->
  truncate_task t = t.
Proof.
  intros H1 H2. unfold truncate_task. rewrite (truncate_whole _ H1 H2). now destruct t.
Qed.

Lemma keys_app {V} (a b : Dict.t V) :
  Dict.keys (a ++ b)%list = (Dict.keys a ++ Dict.keys b)%list.
Proof. apply map_app. Qed.

Lemma load_tasks_saved l2 : forall s,
  Forall (fun kv => id (snd kv) = fst kv /\ Py.upper (id (snd kv)) = id (snd kv) /\
                    Datetime.valid (created_at (snd kv)) = true /\
                    (1000 <= year (created_at (snd kv)))%N) l2 ->
  NoDup (Dict.keys (_tasks s) ++ Dict.keys l2)%list ->
  load_tasks (map task_json (Dict.values l2)) s =
  (mk_TaskService (_tasks s ++ map (fun kv => (fst kv, truncate_task (snd kv))) l2)%list
                  (_counter s) (disk s) (writes s), Ok tt).
Proof.
  induction l2 as [|[k t] r IH]; intros s Hall Hnd.
  - simpl. rewrite app_nil_r. now destruct s.
  - inversion Hall as [|? ? (Hk & Hu & Hv & Hy) Hr]; subst. simpl in Hk, Hu, Hv, Hy.
    change (map task_json (Dict.values ((k, t) :: r)))
      with (task_json t :: map task_json (Dict.values r)).
    rewrite LoadFacts.load_tasks_cons, (LoadFacts.load_task_json t Hu Hv Hy).
    rewrite truncate_task_id, Hk.
    assert (Hfresh : Dict.get k (_tasks s) = None).
    { apply DictFacts.get_none_iff. intros Hin.
      apply NoDup_remove_2 in Hnd. apply Hnd. apply in_or_app. now left. }
    unfold with_task. rewrite (DictFacts.set_fresh _ _ _ Hfresh).
    rewrite IH; auto.
    + simpl. now rewrite <- app_assoc.
    + simpl. rewrite keys_app, <- app_assoc. exact Hnd.
Qed.

Lemma persistable_saved s :
  persistable s -> four_digit_years s ->
  init (disk (saved s)) =
  (mk_TaskService (map (fun kv => (fst kv, truncate_task (snd kv))) (_tasks s))
                  (_counter s) (disk (saved s)) 0, Ok tt).
Proof.
  intros [[Hnd Hk] Hp] Hy.
  unfold init, _load, load_try. cbn [disk saved].
  unfold snapshot at 1. rewrite FileFacts.load_data_obj.
  cbn [Dict.get String.eqb Ascii.eqb Bool.eqb PyJson.iter].
  rewrite load_tasks_saved.
  - cbn [_tasks _counter disk writes app id_current].
    assert (E : (0 <=? Z.of_N (_counter s))%Z = true) by (apply Z.leb_le; lia).
    unfold id_current. rewrite E, N2Z.id. reflexivity.
  - unfold four_digit_years in Hy. rewrite Forall_forall in *. intros kv Hin.
    destruct (Hp kv Hin). repeat split; auto.
  - exact Hnd.
Qed.



(** A timestamp read from the file may carry microseconds and an offset;
    [_save] writes neither. *)
Lemma offset_is_dropped :
  let s := fst (init Samples.with_offset) in
  snd (init Samples.with_offset) = Ok tt /\
  option_map created_at (Dict.get "T001" (_tasks s))
  = Some (mk_datetime_tz 2025 1 1 10 30 0 250000 (Some 19800000000%Z)) /\
  option_map format_created_at (Dict.get "T001" (_tasks s)) = Some "2025-01-01T10:30:00" /\
  option_map created_at (Dict.get "T001" (_tasks (fst (init (disk (saved s))))))
  = Some (mk_datetime 2025 1 1 10 30 0 0).
Proof. repeat split; reflexivity. Qed.

Lemma map_truncate_whole (l : Dict.t Task) :
  Forall (fun kv => microsecond (created_at (snd kv)) = 0%N /\
                    tzinfo (created_at (snd kv)) = None) l ->
  map (fun kv => (fst kv, truncate_task (snd kv))) l = l.
Proof.
  induction 1 as [|[k t] r [H1 H2] Hr IH]; simpl; auto.
  simpl in H1, H2. now rewrite (truncate_task_whole t H1 H2), IH.
Qed.

Lemma get_map_values {V} (f : V -> V) k (d : Dict.t V) :
  Dict.get k (map (fun kv => (fst kv, f (snd kv))) d) = option_map f (Dict.get k d).
Proof.
  induction d as [|[k0 v0] r IH]; simpl; auto.
  destruct (String.eqb k k0); auto.
Qed.

End RoundTripFacts.

(** C4, as stated, fails on the timestamp, in two ways.
    [format_created_at] writes whole seconds, while a task made by [add]
    carries the microseconds of the clock: the task read back differs from
    the one saved.  And a timestamp of the year 999, which a file can bring
    in, is written back without its leading zero, a text that
    [fromisoformat] refuses: the new constructor raises [ValueError]. *)
Lemma roundtrip_not_lossless :
  (reachable Scenario.one_task /\
   disk Scenario.one_task = disk (saved Scenario.one_task) /\
   snd (Service.init (disk Scenario.one_task)) = Ok tt /\
   option_map created_at (Dict.get "T001" (_tasks Scenario.one_task))
     = Some (mk_datetime 2025 12 29 10 30 0 123456) /\
   option_map created_at
     (Dict.get "T001" (_tasks (fst (Service.init (disk Scenario.one_task)))))
     = Some (mk_datetime 2025 12 29 10 30 0 0) /\
   _tasks (fst (Service.init (disk Scenario.one_task))) <> _tasks Scenario.one_task) /\
  (let s := fst (Service.init Samples.old_year) in
   reachable s /\
   option_map created_at (Dict.get "T001" (_tasks s))
     = Some (mk_datetime 999 1 1 0 0 0 0) /\
   option_map format_created_at (Dict.get "T001" (_tasks s)) = Some "999-01-01T00:00:00" /\
   Datetime.fromisoformat "999-01-01T00:00:00" = Raise ValueError /\
   snd (Service.init (disk (saved s))) = Raise ValueError /\
   ~ four_digit_years s).
Proof.
  split.
  { split.
    { apply (reach_exec fresh (Add Scenario.clock "Buy groceries" "Milk, eggs")).
      - apply ReachFacts.reachable_fresh.
      - reflexivity. }
    split; [reflexivity|]. split; [reflexivity|].
    split; [reflexivity|]. split; [reflexivity|].
    vm_compute. discriminate. }
  cbv zeta.
  split; [now apply (reach_init Samples.old_year)|].
  split; [reflexivity|]. split; [reflexivity|]. split; [reflexivity|].
  split; [reflexivity|].
  intros H. unfold four_digit_years in H.
  assert (E : _tasks (fst (Service.init Samples.old_year))
              = [("T001", mk_Task "T001" "a" "" false (mk_datetime 999 1 1 0 0 0 0))])
    by reflexivity.
  rewrite E in H. inversion H as [|? ? Hy _]; subst.
  simpl in Hy. lia.
Qed.

(** C4, amended: for every state of a service object in which every stored
    timestamp has a year of four digits, saving and then constructing a new
    object on the written file succeeds and gives the same counter and the
    same tasks under the same keys in the same order, with identical id,
    title, description and completed, and with created_at cut to the whole
    second and without its offset; when no stored timestamp has a sub-second
    part or an offset the tasks are identical.  A store built without a file
    has only such years, and every call stamped by a clock that reads a year
    of four digits keeps them. *)
Theorem save_load_roundtrip (s : TaskService) (Hs : reachable s)
  (Hy : four_digit_years s) :
  let f := disk (saved s) in
  let s' := fst (Service.init f) in
  Service._save s = (saved s, Ok tt) /\
  snd (Service.init f) = Ok tt /\
  _counter s' = _counter s /\
  _tasks s' = map (fun kv => (fst kv, truncate_task (snd kv))) (_tasks s) /\
  (forall k, Dict.get k (_tasks s') = option_map truncate_task (Dict.get k (_tasks s))) /\
  (forall t, id (truncate_task t) = id t /\ title (truncate_task t) = title t /\
             description (truncate_task t) = description t /\
             completed (truncate_task t) = completed t /\
             created_at (truncate_task t) = Datetime.truncate (created_at t)) /\
  (Forall (fun kv => microsecond (created_at (snd kv)) = 0%N /\
                     tzinfo (created_at (snd kv)) = None) (_tasks s) ->
   _tasks s' = _tasks s) /\
  four_digit_years fresh /\
  (forall c, call_with modern_clock c -> four_digit_years (fst (exec c s))).
Proof.
  intros f s'. subst f s'.
  rewrite (RoundTripFacts.persistable_saved s (FileFacts.reachable_persistable s Hs) Hy).
  cbn [fst snd _tasks _counter].
  split; [reflexivity|]. split; [reflexivity|]. split; [reflexivity|].
  split; [reflexivity|].
  split; [intros k; apply RoundTripFacts.get_map_values|].
  split; [intros t; repeat split|].
  split.
  { intros Hall. apply RoundTripFacts.map_truncate_whole, Hall. }
  split; [constructor|].
  intros c Hc.
  apply (StepFacts.steps_preserve modern_clock _ InvFacts.years_step s); auto.
  now apply StepFacts.exec_steps.
Qed.

Lemma save_load_roundtrip_witness :
  reachable Scenario.three_tasks /\
  four_digit_years Scenario.three_tasks /\
  _counter (fst (Service.init (disk (saved Scenario.three_tasks)))) = 3%N.
Proof.
  assert (H : reachable Scenario.three_tasks).
  { apply ReachFacts.reachable_run; [apply ReachFacts.reachable_fresh|].
    repeat constructor. }
  assert (Hy : four_digit_years Scenario.three_tasks).
  { unfold four_digit_years. repeat constructor; vm_compute; discriminate. }
  split; [exact H|]. split; [exact Hy|].
  exact (proj1 (proj2 (proj2 (save_load_roundtrip Scenario.three_tasks H Hy)))).
Defined.

(** ** The store invariant *)


Module InvariantFacts.




Lemma truncated_fields (l : Dict.t Task) :
  Forall (fun kv => title_ok (title (snd kv)) /\ description_ok (description (snd kv))) l ->
  Forall (fun kv => title_ok (title (snd kv)) /\ description_ok (description (snd kv)))
         (map (fun kv => (fst kv, truncate_task (snd kv))) l).
Proof. induction 1; simpl; constructor; auto. Qed.

End InvariantFacts.



(** ** The counter *)

Module CounterFacts.
Import Service.

Lemma snd_fmap_ok {A B} (f : A -> B) (m : M A) s :
  is_ok (snd (fmap f m s)) = is_ok (snd (m s)).
Proof. unfold fmap, bind, ret. destruct (m s) as [s' [a|e|]]; reflexivity. Qed.

Lemma add_counter now t d s :
  _counter (fst (add now t d s)) =
  (_counter s + (if is_ok (snd (add now t d s)) then 1 else 0))%N.
Proof.
  rewrite OutcomeFacts.add_eq.
  destruct (Validators.validate_title t); simpl; try lia.
  destruct (Validators.validate_description d); simpl; lia.
Qed.

Lemma update_counter raw t d s : _counter (fst (update raw t d s)) = _counter s.
Proof.
  destruct (ServiceFacts.get_ref_cases raw s)
    as [(t0 & Hv & Hg & Hr) | [(Hv & Hg & Hr) | (Hv & Hr)]].
  - rewrite (OutcomeFacts.update_eq _ _ _ _ _ _ Hv Hg).
    destruct t, d; try reflexivity;
      destruct (apply_title _ t0) as [t1| |]; try reflexivity;
      destruct (apply_description _ t1); reflexivity.
  - now rewrite (StepFacts.update_state_unfound _ _ _ _ _ Hr).
  - now rewrite (StepFacts.update_state_unfound _ _ _ _ _ Hr).
Qed.

Lemma delete_counter raw s : _counter (fst (delete raw s)) = _counter s.
Proof.
  destruct (ValidatorFacts.validate_task_id_cases raw) as [Hv | Hv].
  - destruct (Dict.get (Py.upper raw) (_tasks s)) as [t|] eqn:Hg.
    + now rewrite (OutcomeFacts.delete_eq _ _ _ _ Hv Hg).
    + now rewrite (OutcomeFacts.delete_missing _ _ _ Hv Hg).
  - now rewrite (OutcomeFacts.delete_invalid _ _ Hv).
Qed.

Lemma mark_complete_counter raw s : _counter (fst (mark_complete raw s)) = _counter s.
Proof.
  destruct (ServiceFacts.get_ref_cases raw s)
    as [(t0 & Hv & Hg & Hr) | [(Hv & Hg & Hr) | (Hv & Hr)]].
  - rewrite (ServiceFacts.mark_complete_eq _ _ _ _ Hv Hg).
    destruct (completed t0); reflexivity.
  - unfold mark_complete, bind. now rewrite Hr.
  - unfold mark_complete, bind. now rewrite Hr.
Qed.

Lemma mark_incomplete_counter raw s : _counter (fst (mark_incomplete raw s)) = _counter s.
Proof.
  destruct (ServiceFacts.get_ref_cases raw s)
    as [(t0 & Hv & Hg & Hr) | [(Hv & Hg & Hr) | (Hv & Hr)]].
  - rewrite (ServiceFacts.mark_incomplete_eq _ _ _ _ Hv Hg).
    destruct (completed t0); reflexivity.
  - unfold mark_incomplete, bind. now rewrite Hr.
  - unfold mark_incomplete, bind. now rewrite Hr.
Qed.

(** Only a successful [add] moves the counter, and by one. *)
Lemma exec_counter c s :
  _counter (fst (exec c s)) =
  (_counter s + (if is_add c && is_ok (snd (exec c s)) then 1 else 0))%N.
Proof.
  destruct c; unfold exec; rewrite StepFacts.fst_fmap; cbn [is_add andb].
  - rewrite snd_fmap_ok. apply add_counter.
  - rewrite StepFacts.get_state. lia.
  - rewrite update_counter. lia.
  - rewrite delete_counter. lia.
  - rewrite mark_complete_counter. lia.
  - rewrite mark_incomplete_counter. lia.
Qed.

Lemma run_counter tr : forall s,
  _counter (run tr s) = (_counter s + successful_adds tr s)%N.
Proof.
  induction tr as [|c r IH]; intros s; simpl; [lia|].
  rewrite IH. pose proof (exec_counter c s) as H.
  destruct (exec c s) as [s' res]. simpl in *. lia.
Qed.

Lemma add_ok_id now t d s s' task :
  add now t d s = (s', Ok task) ->
  id task = IDGenerator.format_id (N.succ (_counter s)) /\
  Dict.get (id task) (_tasks s') = Some task /\
  _counter s' = N.succ (_counter s).
Proof.
  rewrite OutcomeFacts.add_eq.
  destruct (Validators.validate_title t) as [t'| |]; try discriminate.
  destruct (Validators.validate_description d) as [d'| |]; try discriminate.
  intros [= <- <-]. unfold new_Task, added, saved. cbn [id _tasks _counter].
  rewrite IdFacts.format_id_upper. repeat split.
  apply DictFacts.get_set_same.
Qed.

End CounterFacts.

(** C8: on a store whose counter is 0, after any sequence of calls
    (deletions, updates, failed calls included) the next successful [add]
    returns the id T followed by n written in decimal and zero-padded to
    three digits, where n is one more than the number of adds that succeeded
    before; the digits spell n exactly, so nothing is cut off beyond 999, and
    the task is stored under that id.  T001, T002, T003 and T1000 come out as
    stated. *)
Theorem sequential_ids (s0 : TaskService) (tr : list call)
  (now : datetime) (t d : string) (s' : TaskService) (task : Task)
  (Hfresh : _counter s0 = 0%N)
  (Hadd : Service.add now t d (run tr s0) = (s', Ok task)) :
  let n := (successful_adds tr s0 + 1)%N in
  id task = IDGenerator.format_id n /\
  id task = String "T" (Py.zfill 3 n) /\
  IDGenerator.id_number (id task) = Some n /\
  4 <= String.length (id task) /\
  Dict.get (id task) (_tasks s') = Some task /\
  _counter fresh = 0%N /\
  IDGenerator.format_id 1 = "T001" /\ IDGenerator.format_id 2 = "T002" /\
  IDGenerator.format_id 3 = "T003" /\ IDGenerator.format_id 999 = "T999" /\
  IDGenerator.format_id 1000 = "T1000" /\ IDGenerator.format_id 12345 = "T12345".
Proof.
  intros n. apply CounterFacts.add_ok_id in Hadd as (Hid & Hget & _).
  rewrite CounterFacts.run_counter, Hfresh in Hid.
  assert (En : N.succ (0 + successful_adds tr s0) = n) by (subst n; lia).
  rewrite En in Hid.
  split; [exact Hid|]. split; [exact Hid|].
  split; [rewrite Hid; apply IdFacts.id_number_format|].
  split; [rewrite Hid; apply IdFacts.format_id_length|].
  split; [exact Hget|].
  repeat split.
Qed.

Lemma sequential_ids_witness :
  _counter fresh = 0%N /\
  (exists s' task,
     Service.add Scenario.clock "Third" ""
       (run [ Add Scenario.clock "First" ""; Add Scenario.clock "Second" "";
              Delete "T001"; Add Scenario.clock "   " "" ] fresh) = (s', Ok task) /\
     id task = "T003").
Proof.
  split; [reflexivity|].
  eexists. eexists. split; [vm_compute; reflexivity|].
  refine (proj1 (sequential_ids fresh
            [ Add Scenario.clock "First" ""; Add Scenario.clock "Second" "";
              Delete "T001"; Add Scenario.clock "   " "" ]
            Scenario.clock "Third" "" _ _ eq_refl _)).
  vm_compute. reflexivity.
Defined.

(** ** Deletion *)

Module DeleteFacts.
Import Service.

(** What [get] answers depends on the dictionary alone. *)
Lemma get_result raw s :
  snd (get raw s) =
  match Validators.validate_task_id raw with
  | Ok k =>
      match Dict.get k (_tasks s) with
      | Some t => Ok t
      | None => Raise (TaskNotFoundError k)
      end
  | Raise e => Raise e
  | Untyped => Untyped
  end.
Proof.
  unfold get, bind.
  destruct (ServiceFacts.get_ref_cases raw s)
    as [(t0 & Hv & Hg & Hr) | [(Hv & Hg & Hr) | (Hv & Hr)]]; rewrite Hr, Hv.
  - now rewrite Hg, (ServiceFacts.deref_found _ _ _ Hg).
  - now rewrite Hg.
  - reflexivity.
Qed.

Lemma covers_run tr s : counter_covers s -> counter_covers (run tr s).
Proof.
  apply (StepFacts.steps_preserve any_clock _ (InvFacts.covers_step any_clock)).
  apply StepFacts.run_steps_any.
Qed.

End DeleteFacts.

(** C9, as stated, fails for a store loaded from a file whose counter is
    missing (it then defaults to 0) while tasks are present: after
    delete("T001") the next add is given T001 again. *)
Lemma deleted_id_reassigned :
  let s := fst (Service.init Scenario.no_counter) in
  let s' := fst (Service.delete "T001" s) in
  snd (Service.init Scenario.no_counter) = Ok tt /\
  Dict.mem "T001" (_tasks s) = true /\
  is_ok (snd (Service.delete "T001" s)) = true /\
  Dict.mem "T001" (_tasks s') = false /\
  match snd (Service.add Scenario.clock "again" "" s') with
  | Ok task => id task = "T001"
  | _ => False
  end.
Proof. vm_compute. repeat split. Qed.

(** C9, amended: for every store holding the addressed task, [delete]
    returns it, removes exactly that entry and writes once: the id is no
    longer found, every other id answers [get] exactly as before (same task,
    same fields, no renumbering), count drops by exactly 1 and the counter is
    untouched.  When the counter is at or past the number of every stored id
    (true of every store built from a fresh one by store calls) no later add,
    after any further calls, is given the deleted id. *)
Theorem delete_frame (s : TaskService) (raw k : string) (t : Task)
  (Hid : Validators.validate_task_id raw = Ok k)
  (Hget : Dict.get k (_tasks s) = Some t)
  (Hnd : NoDup (Dict.keys (_tasks s))) :
  let s' := removed k s in
  Service.delete raw s = (s', Ok t) /\
  Dict.get k (_tasks s') = None /\
  snd (Service.get raw s') = Raise (TaskNotFoundError k) /\
  (forall k', k' <> k -> Dict.get k' (_tasks s') = Dict.get k' (_tasks s)) /\
  (forall raw', Py.upper raw' <> k ->
     snd (Service.get raw' s') = snd (Service.get raw' s)) /\
  Service.count s' + 1 = Service.count s /\
  _counter s' = _counter s /\
  writes s' = S (writes s) /\
  (counter_covers s ->
   forall tr now ti d s2 task,
     Service.add now ti d (run tr s') = (s2, Ok task) -> id task <> k) /\
  (forall tr, counter_covers (run tr fresh)).
Proof.
  intros s'. subst s'.
  assert (Hk : Dict.get k (_tasks (removed k s)) = None)
    by (apply DictFacts.get_remove_same; exact Hnd).
  assert (Hother : forall k', k' <> k ->
            Dict.get k' (_tasks (removed k s)) = Dict.get k' (_tasks s))
    by (intros k' Hne; now apply DictFacts.get_remove_other).
  split; [now apply OutcomeFacts.delete_eq|].
  split; [exact Hk|].
  split; [rewrite DeleteFacts.get_result, Hid; now rewrite Hk|].
  split; [exact Hother|].
  split.
  { intros raw' Hne. rewrite !DeleteFacts.get_result.
    destruct (ValidatorFacts.validate_task_id_cases raw') as [Hv | Hv]; rewrite Hv; auto.
    now rewrite Hother. }
  split.
  { unfold Service.count. cbn [removed saved _tasks].
    rewrite <- (DictFacts.length_remove _ _ _ Hget). lia. }
  split; [reflexivity|]. split; [reflexivity|].
  split.
  - intros Hc tr now ti d s2 task Hadd Heq.
    apply CounterFacts.add_ok_id in Hadd as (Hidt & _ & _).
    unfold counter_covers in Hc. rewrite Forall_forall in Hc.
    assert (Hin : In k (Dict.keys (_tasks s))).
    { apply DictFacts.get_some_in in Hget.
      change (In (fst (k, t)) (map fst (_tasks s))). now apply in_map. }
    destruct (Hc k Hin) as (n & Hn & Hkn).
    rewrite Heq, Hkn in Hidt. apply IdFacts.format_id_inj in Hidt.
    pose proof (InvFacts.counter_steps _ _ _ (StepFacts.run_steps_any tr (removed k s))) as Hmono.
    change (_counter (removed k s)) with (_counter s) in Hmono.
    rewrite Hkn in Hmono. lia.
  - intros tr. apply DeleteFacts.covers_run, InvFacts.fresh_covers.
Qed.

Lemma delete_frame_witness :
  Validators.validate_task_id "t002" = Ok "T002" /\
  NoDup (Dict.keys (_tasks Scenario.three_tasks)) /\
  Service.count Scenario.three_tasks = 3 /\
  Service.count (removed "T002" Scenario.three_tasks) + 1 = 3 /\
  (exists a b,
     snd (Service.get "T001" (removed "T002" Scenario.three_tasks)) = Ok a /\
     snd (Service.get "T003" (removed "T002" Scenario.three_tasks)) = Ok b).
Proof.
  assert (Hnd : NoDup (Dict.keys (_tasks Scenario.three_tasks))).
  { vm_compute. repeat constructor; simpl; intuition discriminate. }
  split; [reflexivity|]. split; [exact Hnd|]. split; [reflexivity|].
  split.
  - refine (proj1 (proj2 (proj2 (proj2 (proj2 (proj2
             (delete_frame Scenario.three_tasks "t002" "T002" _ eq_refl _ Hnd))))))).
    vm_compute. reflexivity.
  - eexists. eexists. split; vm_compute; reflexivity.
Defined.

(** ** Optional and required fields of a persisted record *)

Module RecordFacts.
Import Service.

Lemma load_task_defaults fields i t c d desc comp :
  Dict.get "id" fields = Some (JStr i) ->
  Dict.get "title" fields = Some (JStr t) ->
  Dict.get "created_at" fields = Some (JStr c) ->
  Datetime.fromisoformat c = Ok d ->
  (Dict.get "description" fields = None /\ desc = EmptyString \/
   Dict.get "description" fields = Some (JStr desc)) ->
  (Dict.get "completed" fields = None /\ comp = false \/
   Dict.get "completed" fields = Some (JBool comp)) ->
  load_task (JObj fields) = Ok (new_Task i t desc comp d).
Proof.
  intros Hi Ht Hc Hd Hdesc Hcomp.
  rewrite LoadFacts.load_task_obj, Hi, Ht, Hc, Hd. simpl.
  destruct Hdesc as [[-> ->] | ->], Hcomp as [[-> ->] | ->]; reflexivity.
Qed.

Lemma missing_key_required fields k :
  missing_key fields = Some k -> required_key k /\ Dict.get k fields = None.
Proof.
  unfold missing_key, Dict.mem, required_key.
  destruct (Dict.get "id" fields) eqn:E1; simpl; [|intros [= <-]; auto].
  destruct (Dict.get "title" fields) eqn:E2; simpl; [|intros [= <-]; auto].
  destruct (Dict.get "created_at" fields) eqn:E3; simpl; [discriminate|intros [= <-]; auto].
Qed.

Lemma required_missing fields :
  (exists k, required_key k /\ Dict.get k fields = None) ->
  exists k, missing_key fields = Some k.
Proof.
  intros (k & Hk & Hg). unfold missing_key, Dict.mem.
  destruct (Dict.get "id" fields) eqn:E1; simpl; eauto.
  destruct (Dict.get "title" fields) eqn:E2; simpl; eauto.
  destruct (Dict.get "created_at" fields) eqn:E3; simpl; eauto.
  destruct Hk as [-> | [-> | ->]]; congruence.
Qed.

Lemma stored_all_frame items : forall s,
  _counter (stored_all items s) = _counter s /\ disk (stored_all items s) = disk s /\
  writes (stored_all items s) = writes s.
Proof.
  induction items as [|td r IH]; intros s; [auto|].
  cbn [stored_all fold_left]. fold (stored_all r (stored s td)).
  destruct (IH (stored s td)) as (H1 & H2 & H3). rewrite H1, H2, H3.
  unfold stored. destruct (load_task td); auto.
Qed.

(** Records that all load are all stored, in order. *)
Lemma load_tasks_all items : forall s,
  Forall (fun td => is_ok (load_task td) = true) items ->
  load_tasks items s = (stored_all items s, Ok tt).
Proof.
  induction items as [|td r IH]; intros s Hall; [reflexivity|].
  inversion Hall as [|? ? Htd Hr]; subst.
  rewrite LoadFacts.load_tasks_cons. cbn [stored_all fold_left]. unfold stored at 2.
  destruct (load_task td) as [task| |]; try discriminate.
  now apply IH.
Qed.

(** The loop stops at the first record that lacks a required key; the
    records before it stay stored. *)
Lemma load_tasks_hits fields post k pre : forall s,
  Forall (fun td => is_ok (load_task td) = true) pre ->
  missing_key fields = Some k ->
  load_tasks (pre ++ JObj fields :: post)%list s = (stored_all pre s, Raise (KeyError k)).
Proof.
  induction pre as [|td pre IH]; intros s Hpre Hm.
  - change ([] ++ JObj fields :: post)%list with (JObj fields :: post).
    rewrite LoadFacts.load_tasks_cons.
    apply LoadFacts.load_task_keyerror in Hm. now rewrite Hm.
  - inversion Hpre as [|? ? Htd Hrest]; subst.
    rewrite <- app_comm_cons, LoadFacts.load_tasks_cons.
    cbn [stored_all fold_left]. unfold stored at 2.
    destruct (load_task td) as [task| |]; try discriminate.
    now apply IH.
Qed.

Lemma load_try_raise s s' e :
  load_try s = (s', Raise e) ->
  (e = JSONDecodeError <-> disk s = BadJson) /\
  (forall k, e = KeyError k ->
     exists fields, In (JObj fields) (file_records (disk s)) /\ missing_key fields = Some k).
Proof.
  unfold load_try. destruct (disk s) as [| |data] eqn:Ed.
  - discriminate.
  - intros [= <- <-]. split; [tauto|]. discriminate.
  - intros H. split.
    + split; [|discriminate]. intros ->. now apply FileFacts.load_data_no_decode in H.
    + intros k ->. eapply FileFacts.load_data_keyerror; eauto.
Qed.

Lemma load_swallows s s' e :
  load_try s = (s', Raise e) ->
  (_load s = (s', Ok tt) <-> (e = JSONDecodeError \/ exists k, e = KeyError k)) /\
  (_load s = (s', Raise e) <-> ~ (e = JSONDecodeError \/ exists k, e = KeyError k)).
Proof.
  intros H. unfold _load. rewrite H.
  destruct e; split; split;
    try (intros _; auto; fail);
    try discriminate;
    try (intros [E | [k E]]; discriminate);
    try (intros _ [E | [k E]]; discriminate);
    try (intros _; right; eexists; reflexivity);
    try (intros Hn; exfalso; apply Hn; auto; right; eexists; reflexivity).
Qed.

Lemma counter_default top s s' :
  Dict.get "next_id_counter" top = None ->
  load_data (JObj top) s = (s', Ok tt) -> _counter s' = 0%N.
Proof.
  intros Hn. rewrite FileFacts.load_data_obj, Hn.
  destruct (PyJson.iter _) as [items| |]; try discriminate.
  destruct (load_tasks items s) as [s1 [[]| |]]; try discriminate.
  now intros [= <-].
Qed.

Lemma missing_record_falls_back s top pre fields post k :
  disk s = Json (JObj top) ->
  file_records (disk s) = (pre ++ JObj fields :: post)%list ->
  Forall (fun td => is_ok (load_task td) = true) pre ->
  missing_key fields = Some k ->
  load_try s = (stored_all pre s, Raise (KeyError k)) /\
  _load s = (stored_all pre s, Ok tt) /\
  _counter (stored_all pre s) = _counter s.
Proof.
  intros Hd Hrec Hpre Hm. rewrite Hd in Hrec. unfold file_records in Hrec.
  pose proof (load_tasks_hits fields post k pre s Hpre Hm) as H1.
  assert (Ht : load_try s = (stored_all pre s, Raise (KeyError k))).
  { unfold load_try. rewrite Hd, FileFacts.load_data_obj.
    destruct (PyJson.iter _) as [items| |].
    - subst items. now rewrite H1.
    - now destruct pre.
    - now destruct pre. }
  split; [exact Ht|]. split; [|apply stored_all_frame].
  unfold _load. now rewrite Ht.
Qed.

(** A file whose records all load: every record is stored, then the counter
    is restored. *)
Lemma whole_file_loads top items c :
  PyJson.iter (match Dict.get "tasks" top with Some v => v | None => JArr [] end)
  = Ok items ->
  Forall (fun td => is_ok (load_task td) = true) items ->
  (Dict.get "next_id_counter" top = None /\ c = 0%N \/
   Dict.get "next_id_counter" top = Some (JNum (Z.of_N c))) ->
  init (Json (JObj top)) =
  (mk_TaskService (_tasks (stored_all items (mk_TaskService [] 0 (Json (JObj top)) 0)))
                  c (Json (JObj top)) 0, Ok tt).
Proof.
  intros Hi Hall Hc. unfold init, _load, load_try. cbn [disk].
  rewrite FileFacts.load_data_obj, Hi, (load_tasks_all items _ Hall).
  destruct (stored_all_frame items (mk_TaskService [] 0 (Json (JObj top)) 0))
    as (_ & Hd & Hw). rewrite Hd, Hw. cbn [disk writes].
  destruct Hc as [[-> ->] | ->]; [reflexivity|].
  assert (E : (0 <=? Z.of_N c)%Z = true) by (apply Z.leb_le; lia).
  now rewrite E, N2Z.id.
Qed.

End RecordFacts.

(** C10: a record that has "id", "title" and "created_at" is not treated
    as corrupt whether or not it has "description" and "completed": it is
    stored under its uppercased id, a missing description being the empty
    string and a missing completed being false, and the loop goes on; a file
    of such records loads whole, and without "next_id_counter" its counter
    is 0.  [load_task] raises [KeyError] exactly when one of the three
    required keys is absent, and the handler of [_load] is entered only for
    that or for text that is not JSON.  What the handler then leaves is not
    the empty state the claim (and the comment in the handler) speak of: the
    records met before the one that lacks a key stay stored and the counter
    is never restored.  On the file of two records, the second without an
    id, the constructor returns with T001 stored and counter 0; only text
    that is not JSON gives the empty store. *)
Theorem load_defaults_and_required :
  (forall fields i t c d desc comp rest s,
     Dict.get "id" fields = Some (JStr i) ->
     Dict.get "title" fields = Some (JStr t) ->
     Dict.get "created_at" fields = Some (JStr c) ->
     Datetime.fromisoformat c = Ok d ->
     (Dict.get "description" fields = None /\ desc = EmptyString \/
      Dict.get "description" fields = Some (JStr desc)) ->
     (Dict.get "completed" fields = None /\ comp = false \/
      Dict.get "completed" fields = Some (JBool comp)) ->
     Service.load_task (JObj fields) = Ok (new_Task i t desc comp d) /\
     Service.load_tasks (JObj fields :: rest) s
     = Service.load_tasks rest
         (mk_TaskService (Dict.set (Py.upper i) (mk_Task (Py.upper i) t desc comp d) (_tasks s))
                         (_counter s) (disk s) (writes s))) /\
  (forall top items c,
     PyJson.iter (match Dict.get "tasks" top with Some v => v | None => JArr [] end)
     = Ok items ->
     Forall (fun td => is_ok (Service.load_task td) = true) items ->
     (Dict.get "next_id_counter" top = None /\ c = 0%N \/
      Dict.get "next_id_counter" top = Some (JNum (Z.of_N c))) ->
     Service.init (Json (JObj top)) =
     (mk_TaskService (_tasks (stored_all items (mk_TaskService [] 0 (Json (JObj top)) 0)))
                     c (Json (JObj top)) 0, Ok tt)) /\
  (forall fields k,
     Service.load_task (JObj fields) = Raise (KeyError k) <-> missing_key fields = Some k) /\
  (forall fields k,
     missing_key fields = Some k -> required_key k /\ Dict.get k fields = None) /\
  (forall fields,
     (exists k, required_key k /\ Dict.get k fields = None) ->
     exists k, missing_key fields = Some k) /\
  (forall s s' e,
     Service.load_try s = (s', Raise e) ->
     (e = JSONDecodeError <-> disk s = BadJson) /\
     (forall k, e = KeyError k ->
        exists fields, In (JObj fields) (file_records (disk s)) /\
                       missing_key fields = Some k) /\
     (Service._load s = (s', Ok tt) <-> (e = JSONDecodeError \/ exists k, e = KeyError k)) /\
     (Service._load s = (s', Raise e) <-> ~ (e = JSONDecodeError \/ exists k, e = KeyError k))) /\
  (forall s top pre fields post k,
     disk s = Json (JObj top) ->
     file_records (disk s) = (pre ++ JObj fields :: post)%list ->
     Forall (fun td => is_ok (Service.load_task td) = true) pre ->
     missing_key fields = Some k ->
     Service.load_try s = (stored_all pre s, Raise (KeyError k)) /\
     Service._load s = (stored_all pre s, Ok tt) /\
     _counter (stored_all pre s) = _counter s) /\
  (forall top s s',
     Dict.get "next_id_counter" top = None ->
     Service.load_data (JObj top) s = (s', Ok tt) -> _counter s' = 0%N) /\
  Service.init Scenario.second_record_broken
  = (mk_TaskService
       [("T001", mk_Task "T001" "a" "" false (mk_datetime 2025 1 1 0 0 0 0))]
       0 Scenario.second_record_broken 0, Ok tt) /\
  Service.init BadJson = (mk_TaskService [] 0 BadJson 0, Ok tt).
Proof.
  split.
  { intros fields i t c d desc comp rest s Hi Ht Hc Hd Hdesc Hcomp.
    pose proof (RecordFacts.load_task_defaults fields i t c d desc comp
                  Hi Ht Hc Hd Hdesc Hcomp) as E.
    split; [exact E|]. now rewrite LoadFacts.load_tasks_cons, E. }
  split; [apply RecordFacts.whole_file_loads|].
  split; [apply LoadFacts.load_task_keyerror|].
  split; [apply RecordFacts.missing_key_required|].
  split; [apply RecordFacts.required_missing|].
  split.
  { intros s s' e H.
    destruct (RecordFacts.load_try_raise s s' e H) as [H1 H2].
    destruct (RecordFacts.load_swallows s s' e H) as [H3 H4]. auto. }
  split; [apply RecordFacts.missing_record_falls_back|].
  split; [apply RecordFacts.counter_default|].
  split; reflexivity.
Qed.

Lemma load_defaults_and_required_witness :
  Datetime.fromisoformat "2025-12-29T10:35:00" = Ok (mk_datetime 2025 12 29 10 35 0 0) /\
  Dict.get "description" [ ("id", JStr "t007"); ("title", JStr "Pay bills");
                           ("created_at", JStr "2025-12-29T10:35:00") ] = None /\
  Service.load_task Scenario.minimal_record
  = Ok (mk_Task "T007" "Pay bills" "" false (mk_datetime 2025 12 29 10 35 0 0)) /\
  _tasks (fst (Service.load_tasks [Scenario.minimal_record] fresh))
  = [("T007", mk_Task "T007" "Pay bills" "" false (mk_datetime 2025 12 29 10 35 0 0))].
Proof.
  split; [reflexivity|]. split; [reflexivity|].
  pose proof (proj1 load_defaults_and_required
                [ ("id", JStr "t007"); ("title", JStr "Pay bills");
                  ("created_at", JStr "2025-12-29T10:35:00") ]
                "t007" "Pay bills" "2025-12-29T10:35:00"
                (mk_datetime 2025 12 29 10 35 0 0) "" false [] fresh
                eq_refl eq_refl eq_refl eq_refl (or_introl (conj eq_refl eq_refl))
                (or_introl (conj eq_refl eq_refl))) as [H1 H2].
  split; [exact H1|].
  change Scenario.minimal_record
    with (JObj [ ("id", JStr "t007"); ("title", JStr "Pay bills");
                 ("created_at", JStr "2025-12-29T10:35:00") ]).
  rewrite H2. reflexivity.
Defined.

(** ** The repository's unit tests, replayed on the model *)

Module UnitTests.

Example test_title_trimmed :
  Validators.validate_title "  Buy groceries  " = Ok "Buy groceries".
Proof. reflexivity. Qed.

Example test_whitespace_title_raises_error :
  Validators.validate_title "   " = Raise EmptyTitleError.
Proof. reflexivity. Qed.

Example test_title_exactly_max_length :
  Validators.validate_title (Scenario.xs 200) = Ok (Scenario.xs 200).
Proof. vm_compute. reflexivity. Qed.

Example test_title_exceeds_max_length :
  Validators.validate_title (Scenario.xs 201) = Raise TitleTooLongError.
Proof. vm_compute. reflexivity. Qed.

Example test_description_exactly_max_length :
  Validators.validate_description (Scenario.xs 1000) = Ok (Scenario.xs 1000).
Proof. vm_compute. reflexivity. Qed.

Example test_description_exceeds_max_length :
  Validators.validate_description (Scenario.xs 1001) = Raise DescriptionTooLongError.
Proof. vm_compute. reflexivity. Qed.

Example test_add_multiple_tasks_sequential_ids :
  map id (Service.list_all Scenario.three_tasks) = ["T001"; "T002"; "T003"].
Proof. reflexivity. Qed.

Example test_list_pending_and_completed :
  map id (Service.list_pending Scenario.three_tasks) = ["T001"; "T003"] /\
  map id (Service.list_completed Scenario.three_tasks) = ["T002"].
Proof. split; reflexivity. Qed.

Example test_get_nonexistent_task_raises_error :
  snd (Service.get "T999" fresh) = Raise (TaskNotFoundError "T999").
Proof. reflexivity. Qed.

Example test_get_invalid_id_format_raises_error :
  snd (Service.get "abc" fresh) = Raise InvalidIDFormatError.
Proof. reflexivity. Qed.

Example test_update_no_changes_raises_error :
  snd (Service.update "T001" None None Scenario.three_tasks) = Raise NoChangesSpecifiedError.
Proof. reflexivity. Qed.

Example test_update_title :
  match snd (Service.update "T001" (Some "Buy organic groceries") None Scenario.three_tasks) with
  | Ok task => title task = "Buy organic groceries" /\ description task = "Milk, eggs, bread"
  | _ => False
  end.
Proof. vm_compute. split; reflexivity. Qed.

Example test_delete_existing_task :
  let r := Service.delete "T002" Scenario.three_tasks in
  Service.count (fst r) = 2 /\
  snd (Service.get "T002" (fst r)) = Raise (TaskNotFoundError "T002").
Proof. vm_compute. split; reflexivity. Qed.

Example test_mark_incomplete_complete_task :
  match snd (Service.mark_incomplete "T002" Scenario.three_tasks) with
  | Ok (task, changed) => completed task = false /\ changed = true
  | _ => False
  end.
Proof. vm_compute. split; reflexivity. Qed.

End UnitTests.

(** * Further properties of the service *)

Module MoreDictFacts.
Section MoreDictFacts.
Context {V : Type}.
Implicit Types (d : Dict.t V) (k : string) (v : V).

Lemma keys_set_present k v v0 d :
  Dict.get k d = Some v0 -> Dict.keys (Dict.set k v d) = Dict.keys d.
Proof.
  induction d as [|[k0 x] r IH]; simpl; [discriminate|].
  destruct (String.eqb k k0) eqn:E; simpl; [reflexivity|].
  intros H. now rewrite IH.
Qed.

Lemma length_set_present k v v0 d :
  Dict.get k d = Some v0 -> List.length (Dict.set k v d) = List.length d.
Proof.
  intros H. rewrite <- (length_map fst (Dict.set k v d)), <- (length_map fst d).
  change (map fst (Dict.set k v d)) with (Dict.keys (Dict.set k v d)).
  now rewrite (keys_set_present _ _ _ _ H).
Qed.

Lemma remove_fresh_last k v d :
  Dict.get k d = None -> Dict.remove k (d ++ [(k, v)])%list = d.
Proof.
  induction d as [|[k0 x] r IH]; simpl.
  - now rewrite String.eqb_refl.
  - destruct (String.eqb k k0) eqn:E; [discriminate|].
    intros H. now rewrite IH.
Qed.

Lemma in_values_key v d : In v (Dict.values d) -> exists k, In (k, v) d.
Proof.
  unfold Dict.values. rewrite in_map_iff. intros ([k x] & Hx & Hin).
  simpl in Hx. subst x. eauto.
Qed.

Lemma in_values k v d : In (k, v) d -> In v (Dict.values d).
Proof. intros H. change v with (snd (k, v)). now apply in_map. Qed.

End MoreDictFacts.
End MoreDictFacts.

Module CallFacts.
Import Service.


Lemma fmap_raise {A B} (f : A -> B) (m : M A) s s' e :
  fmap f m s = (s', Raise e) -> m s = (s', Raise e).
Proof.
  unfold fmap, bind, ret. destruct (m s) as [s1 [a|e0|]]; try discriminate.
  now intros [= <- <-].
Qed.

Lemma get_eq raw s : get raw s = (s, snd (get raw s)).
Proof.
  rewrite <- (StepFacts.get_state raw s) at 2. now destruct (get raw s).
Qed.

Lemma add_ok now rt rd s s' task :
  add now rt rd s = (s', Ok task) ->
  Validators.validate_title rt = Ok (Py.strip rt) /\
  Validators.validate_description rd = Ok rd /\
  task = new_Task (IDGenerator.format_id (N.succ (_counter s))) (Py.strip rt) rd false now /\
  s' = added task s.
Proof.
  rewrite OutcomeFacts.add_eq.
  destruct (Validators.validate_title rt) as [t'| |] eqn:Et; try discriminate.
  destruct (Validators.validate_description rd) as [d'| |] eqn:Ed; try discriminate.
  apply ValidatorFacts.validate_title_ok in Et as (-> & _ & _).
  apply ValidatorFacts.validate_description_ok in Ed as (-> & _).
  intros [= <- <-]. auto.
Qed.

(** A successful [update] found its task and applied both assignments. *)
Lemma update_ok raw t d s s' task :
  update raw t d s = (s', Ok task) ->
  exists t0 t1,
    Validators.validate_task_id raw = Ok (Py.upper raw) /\
    Dict.get (Py.upper raw) (_tasks s) = Some t0 /\
    (t <> None \/ d <> None) /\
    apply_title t t0 = Ok t1 /\ apply_description d t1 = Ok task /\
    s' = saved (with_task (Py.upper raw) task s).
Proof.
  intros H.
  destruct (ServiceFacts.get_ref_cases raw s)
    as [(t0 & Hv & Hg & Hr) | [(Hv & Hg & Hr) | (Hv & Hr)]].
  - rewrite (OutcomeFacts.update_eq _ _ _ _ _ _ Hv Hg) in H.
    assert (Hsome : t <> None \/ d <> None).
    { destruct t, d; [left | left | right | discriminate H]; discriminate. }
    assert (H' : match apply_title t t0 with
                 | Ok t1 =>
                     match apply_description d t1 with
                     | Ok t2 => (saved (with_task (Py.upper raw) t2 s), Ok t2)
                     | Raise e => (with_task (Py.upper raw) t1 s, Raise e)
                     | Untyped => (with_task (Py.upper raw) t1 s, Untyped)
                     end
                 | Raise e => (s, Raise e)
                 | Untyped => (s, Untyped)
                 end = (s', Ok task)).
    { destruct t, d; auto. destruct Hsome; congruence. }
    clear H. destruct (apply_title t t0) as [t1| |] eqn:E1; try discriminate.
    destruct (apply_description d t1) as [t2| |] eqn:E2; try discriminate.
    injection H' as <- <-.
    exists t0, t1. repeat split; auto.
  - pose proof (StepFacts.update_state_unfound raw t d s _ Hr) as Hst.
    exfalso. unfold update in H.
    destruct t as [t|], d as [d|]; try discriminate H;
      unfold bind at 1 in H; rewrite Hr in H; discriminate H.
  - exfalso. unfold update in H.
    destruct t as [t|], d as [d|]; try discriminate H;
      unfold bind at 1 in H; rewrite Hr in H; discriminate H.
Qed.

Lemma delete_ok raw s s' task :
  delete raw s = (s', Ok task) ->
  Validators.validate_task_id raw = Ok (Py.upper raw) /\
  Dict.get (Py.upper raw) (_tasks s) = Some task /\
  s' = removed (Py.upper raw) s.
Proof.
  destruct (ValidatorFacts.validate_task_id_cases raw) as [Hv | Hv].
  - destruct (Dict.get (Py.upper raw) (_tasks s)) as [t|] eqn:Hg.
    + rewrite (OutcomeFacts.delete_eq _ _ _ _ Hv Hg). intros [= <- <-]. auto.
    + rewrite (OutcomeFacts.delete_missing _ _ _ Hv Hg). discriminate.
  - rewrite (OutcomeFacts.delete_invalid _ _ Hv). discriminate.
Qed.



End CallFacts.

(** ** What a successful [add] does *)

Module AddFacts.

Lemma add_facts (now : datetime) (raw_title raw_description : string)
  (s s' : TaskService) (task : Task)
  (Hadd : Service.add now raw_title raw_description s = (s', Ok task)) :
  let k := IDGenerator.format_id (N.succ (_counter s)) in
  task = mk_Task k (Py.strip raw_title) raw_description false now /\
  title_ok (title task) /\ description_ok (description task) /\
  Dict.get k (_tasks s') = Some task /\
  snd (Service.get k s') = Ok task /\
  (forall k', k' <> k -> Dict.get k' (_tasks s') = Dict.get k' (_tasks s)) /\
  _counter s' = N.succ (_counter s) /\
  disk s' = Json (Service.snapshot s') /\
  writes s' = S (writes s) /\
  (Dict.get k (_tasks s) = None ->
   _tasks s' = (_tasks s ++ [(k, task)])%list /\
   Service.count s' = S (Service.count s)) /\
  (Dict.get k (_tasks s) <> None -> Service.count s' = Service.count s).
Proof.
  intros k.
  destruct (CallFacts.add_ok _ _ _ _ _ _ Hadd) as (Ht & Hd & Htask & Hs').
  assert (Etask : task = mk_Task k (Py.strip raw_title) raw_description false now).
  { rewrite Htask. unfold new_Task. now rewrite IdFacts.format_id_upper. }
  assert (Hg : Dict.get k (_tasks s') = Some task).
  { rewrite Hs'. unfold added, saved. cbn [_tasks]. apply DictFacts.get_set_same. }
  split; [exact Etask|].
  split; [rewrite Etask; eapply StripFacts.title_ok_validated; eauto|].
  split; [rewrite Etask; eapply StripFacts.description_ok_validated; eauto|].
  split; [exact Hg|].
  split.
  { rewrite DeleteFacts.get_result. unfold k in *.
    now rewrite IdFacts.format_id_shape, Hg. }
  split.
  { intros k' Hne. rewrite Hs'. unfold added, saved. cbn [_tasks].
    now apply DictFacts.get_set_other. }
  split; [now rewrite Hs'|]. split; [now rewrite Hs'|]. split; [now rewrite Hs'|].
  split.
  - intros Hnone. rewrite Hs'. unfold added, saved, Service.count. cbn [_tasks].
    fold k. rewrite (DictFacts.set_fresh _ _ _ Hnone). split; auto.
    rewrite length_app. simpl. lia.
  - intros Hsome. rewrite Hs'. unfold added, saved, Service.count. cbn [_tasks].
    fold k. destruct (Dict.get k (_tasks s)) as [v0|] eqn:E; [|congruence].
    apply (MoreDictFacts.length_set_present _ _ _ _ E).
Qed.

End AddFacts.

(** X1: when [add] returns a task, the task has the next id of the
    allocator, the trimmed title, the description as given, completed =
    false and the clock reading; it is stored under its id and [get] on that
    id returns it; no other key is touched; the counter moves by one and the
    new snapshot is written once.  The count grows by one when the id was
    free; when the id was already taken (a counter behind the stored ids) the
    old task under it is replaced and the count stays. *)
Theorem add_success (now : datetime) (raw_title raw_description : string)
  (s s' : TaskService) (task : Task)
  (Hadd : Service.add now raw_title raw_description s = (s', Ok task)) :
  let k := IDGenerator.format_id (N.succ (_counter s)) in
  task = mk_Task k (Py.strip raw_title) raw_description false now /\
  title_ok (title task) /\ description_ok (description task) /\
  Dict.get k (_tasks s') = Some task /\
  snd (Service.get k s') = Ok task /\
  (forall k', k' <> k -> Dict.get k' (_tasks s') = Dict.get k' (_tasks s)) /\
  _counter s' = N.succ (_counter s) /\
  disk s' = Json (Service.snapshot s') /\
  writes s' = S (writes s) /\
  (Dict.get k (_tasks s) = None ->
   _tasks s' = (_tasks s ++ [(k, task)])%list /\
   Service.count s' = S (Service.count s)) /\
  (Dict.get k (_tasks s) <> None -> Service.count s' = Service.count s).
Proof. exact (AddFacts.add_facts now raw_title raw_description s s' task Hadd). Qed.

Lemma add_success_witness :
  exists s' task,
    Service.add Scenario.clock "  Water plants " "" Scenario.three_tasks = (s', Ok task) /\
    task = mk_Task "T004" "Water plants" "" false Scenario.clock /\
    Service.count s' = 4.
Proof.
  eexists. eexists. split; [vm_compute; reflexivity|].
  split.
  - refine (proj1 (add_success Scenario.clock "  Water plants " "" Scenario.three_tasks _ _ _)).
    vm_compute. reflexivity.
  - reflexivity.
Defined.

(** ** What a failed call leaves behind *)

Module RaiseFacts.
Import Service.

Lemma apply_description_raise d t1 e :
  apply_description d t1 = Raise e ->
  e = DescriptionTooLongError /\ d <> None.
Proof.
  unfold apply_description. destruct d as [x|]; [|discriminate].
  destruct (ValidatorFacts.validate_description_cases x) as [H | H]; rewrite H; simpl.
  - discriminate.
  - intros [= <-]. split; [reflexivity | discriminate].
Qed.

Lemma apply_title_none t0 t1 : apply_title None t0 = Ok t1 -> t1 = t0.
Proof. simpl. congruence. Qed.

Lemma update_raise_exact raw t d s s' e :
  update raw t d s = (s', Raise e) ->
  writes s' = writes s /\ disk s' = disk s /\ _counter s' = _counter s /\
  (s' = s \/ (e = DescriptionTooLongError /\ t <> None /\ d <> None)).
Proof.
  intros H.
  destruct (ServiceFacts.get_ref_cases raw s)
    as [(t0 & Hv & Hg & Hr) | [(Hv & Hg & Hr) | (Hv & Hr)]].
  - rewrite (OutcomeFacts.update_eq _ _ _ _ _ _ Hv Hg) in H.
    assert (H' : (t = None /\ d = None /\ s' = s) \/
                 match apply_title t t0 with
                 | Ok t1 =>
                     match apply_description d t1 with
                     | Ok t2 => (saved (with_task (Py.upper raw) t2 s), Ok t2)
                     | Raise e => (with_task (Py.upper raw) t1 s, Raise e)
                     | Untyped => (with_task (Py.upper raw) t1 s, Untyped)
                     end
                 | Raise e => (s, Raise e)
                 | Untyped => (s, Untyped)
                 end = (s', Raise e)).
    { destruct t, d; auto. left. injection H as <- _. auto. }
    clear H. destruct H' as [(_ & _ & ->) | H]; [auto 10|].
    destruct (apply_title t t0) as [t1| |] eqn:E1; try discriminate H.
    + destruct (apply_description d t1) as [t2| |] eqn:E2; try discriminate H.
      injection H as <- <-.
      apply apply_description_raise in E2 as [-> Hd].
      repeat split; auto.
      destruct t as [x|].
      * right. repeat split; auto. discriminate.
      * left. apply apply_title_none in E1. subst t1.
        now apply OutcomeFacts.with_task_same.
    + injection H as <- _. auto 10.
  - pose proof (StepFacts.update_state_unfound raw t d s _ Hr) as Hst.
    rewrite H in Hst. simpl in Hst. subst s'. auto 10.
  - pose proof (StepFacts.update_state_unfound raw t d s _ Hr) as Hst.
    rewrite H in Hst. simpl in Hst. subst s'. auto 10.
Qed.

End RaiseFacts.

(** X2: a call that raises never writes the file and never moves the
    counter.  It leaves the whole object exactly as it was, with one
    exception: an [update] that was given a title and a description and
    fails with [DescriptionTooLong]. *)
Theorem failed_call_leaves_object (c : call) (s s' : TaskService) (e : exn)
  (Hraise : exec c s = (s', Raise e)) :
  writes s' = writes s /\ disk s' = disk s /\ _counter s' = _counter s /\
  (match c with
   | Update _ (Some _) (Some _) => e <> DescriptionTooLongError
   | _ => True
   end -> s' = s).
Proof.
  destruct c as [now t d|i|i t d|i|i|i]; simpl in Hraise;
    apply CallFacts.fmap_raise in Hraise.
  - apply FailureFacts.add_raise in Hraise as [-> _]. auto.
  - rewrite CallFacts.get_eq in Hraise. injection Hraise as <- _. auto.
  - apply RaiseFacts.update_raise_exact in Hraise as (Hw & Hd & Hc & Hsame).
    repeat split; auto.
    destruct Hsame as [-> | (-> & Ht & Hd')]; [auto|].
    destruct t as [t|]; [|congruence]. destruct d as [d|]; [|congruence].
    intros H. now destruct H.
  - apply FailureFacts.delete_raise in Hraise as [-> _]. auto.
  - apply FailureFacts.mark_complete_raise in Hraise as [-> _]. auto.
  - apply FailureFacts.mark_incomplete_raise in Hraise as [-> _]. auto.
Qed.

Lemma failed_call_leaves_object_witness :
  exec (Delete "T999") Scenario.three_tasks
  = (Scenario.three_tasks, Raise (TaskNotFoundError "T999")) /\
  fst (exec (Delete "T999") Scenario.three_tasks) = Scenario.three_tasks.
Proof.
  split; [vm_compute; reflexivity|].
  refine (proj2 (proj2 (proj2 (failed_call_leaves_object (Delete "T999")
            Scenario.three_tasks _ (TaskNotFoundError "T999") _))) I).
  vm_compute. reflexivity.
Defined.

(** ** Successful calls and the file *)

Module DurableFacts.
Import Service.

Lemma snapshot_saved s : snapshot (saved s) = snapshot s.
Proof. reflexivity. Qed.


End DurableFacts.



(** ** What a successful [update] does *)

Module UpdateFacts.

Lemma apply_title_value v t0 t1 :
  apply_title v t0 = Ok t1 ->
  t1 = mk_Task (id t0) (match v with Some x => Py.strip x | None => title t0 end)
               (description t0) (completed t0) (created_at t0) /\
  (forall x, v = Some x -> title_ok (Py.strip x)).
Proof.
  unfold apply_title. destruct v as [x|].
  - destruct (Validators.validate_title x) as [x'| |] eqn:E; simpl; try discriminate.
    intros [= <-].
    pose proof (StripFacts.title_ok_validated _ _ E) as Hok.
    apply ValidatorFacts.validate_title_ok in E as (-> & _ & _).
    split; [reflexivity|]. now intros y [= <-].
  - intros [= <-]. split; [now destruct t0 | discriminate].
Qed.

Lemma apply_description_value v t0 t1 :
  apply_description v t0 = Ok t1 ->
  t1 = mk_Task (id t0) (title t0)
               (match v with Some x => x | None => description t0 end)
               (completed t0) (created_at t0) /\
  (forall x, v = Some x -> description_ok x).
Proof.
  unfold apply_description. destruct v as [x|].
  - destruct (Validators.validate_description x) as [x'| |] eqn:E; simpl; try discriminate.
    intros [= <-].
    pose proof (StripFacts.description_ok_validated _ _ E) as Hok.
    apply ValidatorFacts.validate_description_ok in E as (-> & _).
    split; [reflexivity|]. now intros y [= <-].
  - intros [= <-]. split; [now destruct t0 | discriminate].
Qed.

End UpdateFacts.

(** X4: when [update] returns, the addressed task exists under the uppercased
    id, at least one field was given, and the returned task is the stored one:
    id, completed and created_at as before, the title trimmed and replaced
    only if one was given, the description replaced only if one was given,
    each within its limit.  Every other key and the order of the keys are
    untouched, the counter stays and the new snapshot is written once. *)
Theorem update_success (raw : string) (t d : option string)
  (s s' : TaskService) (task : Task)
  (Hup : Service.update raw t d s = (s', Ok task)) :
  exists t0,
    Dict.get (Py.upper raw) (_tasks s) = Some t0 /\
    (t <> None \/ d <> None) /\
    task = mk_Task (id t0)
                   (match t with Some x => Py.strip x | None => title t0 end)
                   (match d with Some x => x | None => description t0 end)
                   (completed t0) (created_at t0) /\
    (forall x, t = Some x -> title_ok (Py.strip x)) /\
    (forall x, d = Some x -> description_ok x) /\
    Dict.get (Py.upper raw) (_tasks s') = Some task /\
    (forall k', k' <> Py.upper raw -> Dict.get k' (_tasks s') = Dict.get k' (_tasks s)) /\
    Dict.keys (_tasks s') = Dict.keys (_tasks s) /\
    _counter s' = _counter s /\
    disk s' = Json (Service.snapshot s') /\
    writes s' = S (writes s).
Proof.
  apply CallFacts.update_ok in Hup as (t0 & t1 & Hv & Hg & Hsome & E1 & E2 & Hs').
  apply UpdateFacts.apply_title_value in E1 as (-> & Ht).
  apply UpdateFacts.apply_description_value in E2 as (Etask & Hd).
  cbn [id title description completed created_at] in Etask.
  exists t0. subst s'. unfold saved, with_task. cbn [_tasks _counter disk writes].
  split; [exact Hg|]. split; [exact Hsome|]. split; [exact Etask|].
  split; [exact Ht|]. split; [exact Hd|].
  split; [apply DictFacts.get_set_same|].
  split; [intros k' Hne; now apply DictFacts.get_set_other|].
  split; [apply (MoreDictFacts.keys_set_present _ _ _ _ Hg)|].
  repeat split.
Qed.

Lemma update_success_witness :
  exists s' task,
    Service.update "t001" (Some "  Buy milk ") None Scenario.three_tasks = (s', Ok task) /\
    title task = "Buy milk" /\ description task = "Milk, eggs, bread" /\
    Dict.keys (_tasks s') = ["T001"; "T002"; "T003"].
Proof.
  eexists. eexists. split; [vm_compute; reflexivity|].
  destruct (update_success "t001" (Some "  Buy milk ") None Scenario.three_tasks _ _ eq_refl)
    as (t0 & Hg & _ & Htask & _ & _ & _ & _ & Hkeys & _).
  injection Hg as <-.
  split; [reflexivity|]. split; [reflexivity|]. exact Hkeys.
Defined.

(** ** The three listings *)

Module ListFacts.

Lemma filter_partition {A} (p : A -> bool) (l : list A) :
  Permutation (filter (fun x => negb (p x)) l ++ filter p l)%list l.
Proof.
  induction l as [|x r IH]; simpl; auto.
  destruct (p x); simpl.
  - apply Permutation_sym. apply Permutation_cons_app. now apply Permutation_sym.
  - now constructor.
Qed.

Lemma length_list_all s : List.length (Service.list_all s) = Service.count s.
Proof.
  unfold Service.list_all, Service.count.
  rewrite (Permutation_length (OrderFacts.sorted_perm _)).
  unfold Dict.values. apply length_map.
Qed.

End ListFacts.

(** X5: [list_pending] and [list_completed] split [list_all]: together they
    hold exactly its tasks, no task is in both, and their lengths add up to
    [count], which is the length of [list_all]. *)
Theorem listings_partition (s : TaskService) :
  Permutation (Service.list_pending s ++ Service.list_completed s)%list (Service.list_all s) /\
  (forall t, In t (Service.list_pending s) -> ~ In t (Service.list_completed s)) /\
  List.length (Service.list_all s) = Service.count s /\
  List.length (Service.list_pending s) + List.length (Service.list_completed s)
  = Service.count s.
Proof.
  assert (Hp : Permutation (Service.list_pending s ++ Service.list_completed s)%list
                           (Service.list_all s))
    by apply (ListFacts.filter_partition completed).
  split; [exact Hp|]. split.
  - unfold Service.list_pending, Service.list_completed. intros t H1 H2.
    apply filter_In in H1 as [_ H1]. apply filter_In in H2 as [_ H2].
    rewrite H2 in H1. discriminate.
  - split; [apply ListFacts.length_list_all|].
    rewrite <- ListFacts.length_list_all, <- (Permutation_length Hp).
    now rewrite length_app.
Qed.

Lemma listings_partition_witness :
  In (mk_Task "T002" "Call mom" "" true Scenario.clock)
     (Service.list_completed Scenario.three_tasks) /\
  ~ In (mk_Task "T002" "Call mom" "" true Scenario.clock)
       (Service.list_pending Scenario.three_tasks).
Proof.
  assert (H : In (mk_Task "T002" "Call mom" "" true Scenario.clock)
                 (Service.list_completed Scenario.three_tasks))
    by (vm_compute; auto).
  split; [exact H|]. intros Hp.
  exact (proj1 (proj2 (listings_partition Scenario.three_tasks)) _ Hp H).
Defined.

(** ** Lookups and listings agree *)

(** X6: in a store whose keys are the ids of its tasks, [get] returns a task
    exactly when [list_all] lists it, its id is the uppercased argument, and
    the argument has the T-digits shape. *)
Theorem get_finds_listed (s : TaskService) (raw : string) (t : Task)
  (Hk : keyed s) :
  snd (Service.get raw s) = Ok t <->
  In t (Service.list_all s) /\ id t = Py.upper raw /\ id_shape raw.
Proof.
  destruct Hk as [Hnd Hkey]. rewrite DeleteFacts.get_result. split.
  - destruct (ValidatorFacts.validate_task_id_cases raw) as [Hv | Hv]; rewrite Hv;
      [|discriminate].
    destruct (Dict.get (Py.upper raw) (_tasks s)) as [t0|] eqn:Hg; [|discriminate].
    intros [= <-].
    pose proof (InvFacts.forall_in_get _ _ _ _ Hkey Hg) as Hid. simpl in Hid.
    repeat split; auto.
    + eapply Permutation_in; [symmetry; apply OrderFacts.sorted_perm|].
      eapply MoreDictFacts.in_values. eapply DictFacts.get_some_in. exact Hg.
    + now apply ValidatorFacts.validate_task_id_shape.
  - intros (Hin & Hid & Hshape).
    apply ValidatorFacts.validate_task_id_shape in Hshape. rewrite Hshape.
    apply (Permutation_in _ (OrderFacts.sorted_perm _)) in Hin.
    apply MoreDictFacts.in_values_key in Hin as [k Hin].
    rewrite Forall_forall in Hkey. pose proof (Hkey _ Hin) as Hkt. simpl in Hkt.
    subst k. rewrite Hid in Hin.
    now rewrite (DictFacts.in_get _ _ _ Hnd Hin).
Qed.

Lemma get_finds_listed_witness :
  keyed Scenario.three_tasks /\
  In (mk_Task "T002" "Call mom" "" true Scenario.clock) (Service.list_all Scenario.three_tasks) /\
  snd (Service.get "t002" Scenario.three_tasks)
  = Ok (mk_Task "T002" "Call mom" "" true Scenario.clock).
Proof.
  assert (Hk : keyed Scenario.three_tasks).
  { split; vm_compute.
    - repeat constructor; simpl; intuition discriminate.
    - repeat constructor. }
  assert (Hin : In (mk_Task "T002" "Call mom" "" true Scenario.clock)
                   (Service.list_all Scenario.three_tasks))
    by (vm_compute; auto).
  split; [exact Hk|]. split; [exact Hin|].
  apply (proj2 (get_finds_listed Scenario.three_tasks "t002" _ Hk)).
  split; [exact Hin|]. split; [reflexivity|].
  exists "002". repeat split; [discriminate | now right].
Defined.

(** ** Keys that no call can address *)

Module FrameFacts.
Import Service.

Lemma validated_key raw : 
  Validators.validate_task_id raw = Ok (Py.upper raw) ->
  Validators.validate_task_id (Py.upper raw) = Ok (Py.upper raw).
Proof.
  intros H. rewrite ValidatorFacts.validate_task_id_upper. exact H.
Qed.

(** A call changes the dictionary only under a key that is a valid id. *)
Lemma exec_frame c s k :
  Validators.validate_task_id k <> Ok k ->
  Dict.get k (_tasks (fst (exec c s))) = Dict.get k (_tasks s).
Proof.
  intros Hodd.
  assert (Hne : forall raw, Validators.validate_task_id raw = Ok (Py.upper raw) ->
                            k <> Py.upper raw).
  { intros raw Hv ->. apply Hodd. now apply validated_key. }
  destruct c as [now t d|i|i t d|i|i|i]; unfold exec; rewrite StepFacts.fst_fmap.
  - rewrite OutcomeFacts.add_eq.
    destruct (Validators.validate_title t); try reflexivity.
    destruct (Validators.validate_description d); try reflexivity.
    unfold added, saved. cbn [fst _tasks]. apply DictFacts.get_set_other.
    intros ->. apply Hodd. apply IdFacts.format_id_shape.
  - now rewrite StepFacts.get_state.
  - destruct (ServiceFacts.get_ref_cases i s)
      as [(t0 & Hv & Hg & Hr) | [(Hv & Hg & Hr) | (Hv & Hr)]].
    + rewrite (OutcomeFacts.update_eq _ _ _ _ _ _ Hv Hg).
      pose proof (Hne i Hv) as Hk.
      destruct t, d; try reflexivity;
        destruct (apply_title _ t0) as [t1| |]; try reflexivity;
        destruct (apply_description _ t1); unfold saved, with_task; cbn [fst _tasks];
        now apply DictFacts.get_set_other.
    + now rewrite (StepFacts.update_state_unfound _ _ _ _ _ Hr).
    + now rewrite (StepFacts.update_state_unfound _ _ _ _ _ Hr).
  - destruct (ValidatorFacts.validate_task_id_cases i) as [Hv | Hv].
    + destruct (Dict.get (Py.upper i) (_tasks s)) as [t|] eqn:Hg.
      * rewrite (OutcomeFacts.delete_eq _ _ _ _ Hv Hg).
        unfold removed, saved. cbn [fst _tasks].
        apply DictFacts.get_remove_other. now apply Hne.
      * now rewrite (OutcomeFacts.delete_missing _ _ _ Hv Hg).
    + now rewrite (OutcomeFacts.delete_invalid _ _ Hv).
  - destruct (ServiceFacts.get_ref_cases i s)
      as [(t0 & Hv & Hg & Hr) | [(Hv & Hg & Hr) | (Hv & Hr)]].
    + rewrite (ServiceFacts.mark_complete_eq _ _ _ _ Hv Hg).
      destruct (completed t0); try reflexivity.
      unfold marked, saved, with_task. cbn [fst _tasks].
      apply DictFacts.get_set_other. now apply Hne.
    + unfold mark_complete, bind. now rewrite Hr.
    + unfold mark_complete, bind. now rewrite Hr.
  - destruct (ServiceFacts.get_ref_cases i s)
      as [(t0 & Hv & Hg & Hr) | [(Hv & Hg & Hr) | (Hv & Hr)]].
    + rewrite (ServiceFacts.mark_incomplete_eq _ _ _ _ Hv Hg).
      destruct (completed t0); try reflexivity.
      unfold marked, saved, with_task. cbn [fst _tasks].
      apply DictFacts.get_set_other. now apply Hne.
    + unfold mark_incomplete, bind. now rewrite Hr.
    + unfold mark_incomplete, bind. now rewrite Hr.
Qed.

End FrameFacts.

(** X7: a key that is not itself a valid id (anything but T followed by
    digits, in upper case) is out of reach of every call: whatever sequence
    of add, get, update, delete and toggles is run, the entry under that key
    stays as it is, and no [get] returns from under it.  Such entries come
    from loading: [_load] stores a record under whatever id the file
    gives. *)
Theorem odd_key_is_frozen (s : TaskService) (k : string) (tr : list call)
  (Hodd : Validators.validate_task_id k <> Ok k) :
  Dict.get k (_tasks (run tr s)) = Dict.get k (_tasks s) /\
  (forall raw s' t, Service.get raw s = (s', Ok t) -> Py.upper raw <> k) /\
  (forall raw s' t, Service.delete raw s = (s', Ok t) -> Py.upper raw <> k).
Proof.
  split; [|split].
  - revert s. induction tr as [|c r IH]; intros s; simpl; [reflexivity|].
    rewrite IH. now apply FrameFacts.exec_frame.
  - intros raw s' t H Heq. apply CaseFacts.get_ok in H as (Hv & _ & _).
    apply Hodd. rewrite <- Heq. now apply FrameFacts.validated_key.
  - intros raw s' t H Heq. apply CallFacts.delete_ok in H as (Hv & _ & _).
    apply Hodd. rewrite <- Heq. now apply FrameFacts.validated_key.
Qed.

Lemma odd_key_is_frozen_witness :
  Validators.validate_task_id "NOTE-1" <> Ok "NOTE-1" /\
  (let s := fst (Service.init Samples.odd_id) in
   Dict.mem "NOTE-1" (_tasks s) = true /\
   Dict.get "NOTE-1" (_tasks (run [Delete "note-1"; Update "NOTE-1" (Some "b") None] s))
   = Dict.get "NOTE-1" (_tasks s)).
Proof.
  assert (H : Validators.validate_task_id "NOTE-1" <> Ok "NOTE-1") by discriminate.
  split; [exact H|]. split; [reflexivity|].
  exact (proj1 (odd_key_is_frozen (fst (Service.init Samples.odd_id)) "NOTE-1"
                  [Delete "note-1"; Update "NOTE-1" (Some "b") None] H)).
Defined.

(** ** How the calls compose *)

Module ComposeFacts.

Lemma set_completed_back t v : completed t = negb v ->
  set_completed (negb v) (set_completed v t) = t.
Proof. destruct t; simpl. now intros ->. Qed.

Lemma marked_tasks k t v s :
  _tasks (marked k t v s) = Dict.set k (set_completed v t) (_tasks s).
Proof. reflexivity. Qed.

Lemma marked_get k t v s :
  Dict.get k (_tasks (marked k t v s)) = Some (set_completed v t).
Proof. rewrite marked_tasks. apply DictFacts.get_set_same. Qed.

Lemma marked_back k t v s :
  Dict.get k (_tasks s) = Some t -> completed t = negb v ->
  _tasks (marked k (set_completed v t) (negb v) (marked k t v s)) = _tasks s.
Proof.
  intros Hg Hc. rewrite !marked_tasks, OutcomeFacts.set_set.
  rewrite (set_completed_back t v Hc). now apply OutcomeFacts.set_same.
Qed.

End ComposeFacts.

(** X8: toggling a task and toggling it back restores the task collection
    and leaves the counter alone; the two calls write twice and the file ends
    up holding the snapshot of the original collection.  Repeating the first
    toggle instead changes nothing and reports changed = false. *)
Theorem toggle_and_back (s : TaskService) (raw k : string) (t : Task)
  (Hid : Validators.validate_task_id raw = Ok k)
  (Hget : Dict.get k (_tasks s) = Some t)
  (Hpending : completed t = false) :
  let s1 := fst (Service.mark_complete raw s) in
  let s2 := fst (Service.mark_incomplete raw s1) in
  snd (Service.mark_complete raw s) = Ok (set_completed true t, true) /\
  snd (Service.mark_incomplete raw s1) = Ok (t, true) /\
  _tasks s2 = _tasks s /\ _counter s2 = _counter s /\
  writes s2 = 2 + writes s /\
  disk s2 = Json (Service.snapshot s) /\
  Service.mark_complete raw s1 = (s1, Ok (set_completed true t, false)).
Proof.
  intros s1 s2.
  assert (E1 : Service.mark_complete raw s = (marked k t true s, Ok (set_completed true t, true))).
  { rewrite (ServiceFacts.mark_complete_eq _ _ _ _ Hid Hget). now rewrite Hpending. }
  assert (Eb : set_completed false (set_completed true t) = t)
    by apply (ComposeFacts.set_completed_back t true Hpending).
  assert (Hs1 : s1 = marked k t true s) by (unfold s1; now rewrite E1).
  assert (Hg1 : Dict.get k (_tasks s1) = Some (set_completed true t))
    by (rewrite Hs1; apply ComposeFacts.marked_get).
  assert (E2 : Service.mark_incomplete raw s1
               = (marked k (set_completed true t) false s1, Ok (t, true))).
  { rewrite (ServiceFacts.mark_incomplete_eq _ _ _ _ Hid Hg1).
    change (completed (set_completed true t)) with true. cbv iota.
    now rewrite Eb. }
  assert (Hs2 : s2 = marked k (set_completed true t) false s1) by (unfold s2; now rewrite E2).
  assert (Ht : _tasks s2 = _tasks s).
  { rewrite Hs2, Hs1. now apply (ComposeFacts.marked_back k t true s Hget). }
  split; [now rewrite E1|]. split; [now rewrite E2|].
  split; [exact Ht|].
  split; [now rewrite Hs2, Hs1|]. split; [now rewrite Hs2, Hs1|].
  split.
  - rewrite Hs2. unfold marked at 1. unfold saved. cbn [disk].
    unfold Service.snapshot, Service.id_current. cbn [_tasks _counter with_task].
    change (Dict.set k (set_completed false (set_completed true t)) (_tasks s1))
      with (_tasks (marked k (set_completed true t) false s1)).
    rewrite <- Hs2, Ht. now rewrite Hs1.
  - rewrite (ServiceFacts.mark_complete_eq _ _ _ _ Hid Hg1). reflexivity.
Qed.

Lemma toggle_and_back_witness :
  Validators.validate_task_id "t001" = Ok "T001" /\
  _tasks (fst (Service.mark_incomplete "t001"
                 (fst (Service.mark_complete "t001" Scenario.three_tasks))))
  = _tasks Scenario.three_tasks.
Proof.
  split; [reflexivity|].
  refine (proj1 (proj2 (proj2 (toggle_and_back Scenario.three_tasks "t001" "T001" _
                                 eq_refl _ _)))).
  - vm_compute. reflexivity.
  - reflexivity.
Defined.

(** X9: deleting the task that [add] just returned, when its id was free
    before the add, restores the task collection exactly, but not the
    counter: it stays one ahead, so the id is spent. *)
Theorem add_then_delete (now : datetime) (raw_title raw_description : string)
  (s s1 : TaskService) (task : Task)
  (Hadd : Service.add now raw_title raw_description s = (s1, Ok task))
  (Hfree : Dict.get (id task) (_tasks s) = None) :
  exists s2,
    Service.delete (id task) s1 = (s2, Ok task) /\
    _tasks s2 = _tasks s /\
    _counter s2 = N.succ (_counter s) /\
    writes s2 = 2 + writes s /\
    snd (Service.get (id task) s2) = Raise (TaskNotFoundError (id task)).
Proof.
  destruct (AddFacts.add_facts _ _ _ _ _ _ Hadd)
    as (Etask & _ & _ & Hg & _ & _ & Hc & _ & Hw & Hfresh & _).
  assert (Eid : id task = IDGenerator.format_id (N.succ (_counter s)))
    by (rewrite Etask; reflexivity).
  rewrite Eid in *.
  destruct (Hfresh Hfree) as [Ht _].
  pose proof (IdFacts.format_id_shape (N.succ (_counter s))) as Hv.
  exists (removed (IDGenerator.format_id (N.succ (_counter s))) s1).
  split; [now apply OutcomeFacts.delete_eq|].
  assert (Htasks : _tasks (removed (IDGenerator.format_id (N.succ (_counter s))) s1) = _tasks s).
  { unfold removed, saved. cbn [_tasks]. rewrite Ht.
    now apply MoreDictFacts.remove_fresh_last. }
  split; [exact Htasks|].
  split; [exact Hc|]. split; [unfold removed, saved; cbn [writes]; now rewrite Hw|].
  rewrite DeleteFacts.get_result, Hv, Htasks. now rewrite Hfree.
Qed.

Lemma add_then_delete_witness :
  exists s1 task,
    Service.add Scenario.clock "Water plants" "" Scenario.three_tasks = (s1, Ok task) /\
    Dict.get (id task) (_tasks Scenario.three_tasks) = None /\
    _tasks (fst (Service.delete (id task) s1)) = _tasks Scenario.three_tasks.
Proof.
  eexists. eexists. split; [vm_compute; reflexivity|]. split; [reflexivity|].
  destruct (add_then_delete Scenario.clock "Water plants" "" Scenario.three_tasks _ _
              eq_refl eq_refl) as (s2 & Hd & Ht & _).
  etransitivity; [|exact Ht]. apply (f_equal _tasks). exact (f_equal fst Hd).
Defined.

(** X10: within the life of one service object the counter never goes down
    and two adds that both succeed never return the same id, whatever the
    counter was at the start and whatever is called in between. *)
Theorem add_ids_never_repeat (s s1 s2 : TaskService) (tr : list call)
  (now1 now2 : datetime) (t1 d1 t2 d2 : string) (task1 task2 : Task)
  (Hadd1 : Service.add now1 t1 d1 s = (s1, Ok task1))
  (Hadd2 : Service.add now2 t2 d2 (run tr s1) = (s2, Ok task2)) :
  id task1 <> id task2 /\
  (_counter s < _counter s1)%N /\
  (_counter s1 <= _counter (run tr s1))%N /\
  (_counter (run tr s1) < _counter s2)%N.
Proof.
  apply CounterFacts.add_ok_id in Hadd1 as (Hid1 & _ & Hc1).
  apply CounterFacts.add_ok_id in Hadd2 as (Hid2 & _ & Hc2).
  pose proof (InvFacts.counter_steps _ _ _ (StepFacts.run_steps_any tr s1)) as Hmono.
  split; [|lia].
  rewrite Hid1, Hid2. intros H. apply IdFacts.format_id_inj in H. lia.
Qed.

Lemma add_ids_never_repeat_witness :
  exists s1 task1 s2 task2,
    Service.add Scenario.clock "a" "" Scenario.three_tasks = (s1, Ok task1) /\
    Service.add Scenario.clock "b" "" (run [Delete "T004"] s1) = (s2, Ok task2) /\
    id task1 <> id task2.
Proof.
  eexists. eexists. eexists. eexists.
  split; [vm_compute; reflexivity|]. split; [vm_compute; reflexivity|].
  exact (proj1 (add_ids_never_repeat Scenario.three_tasks _ _ [Delete "T004"]
                  Scenario.clock Scenario.clock "a" "" "b" "" _ _ eq_refl eq_refl)).
Defined.

(** ** Listings do not depend on the order of insertion *)

Module SortFacts.

Lemma sorted_head_le a l x :
  StronglySorted lex_le (a :: l) -> In x l -> lex_le a x.
Proof.
  intros H Hin. inversion H as [|? ? _ Hall]; subst.
  rewrite Forall_forall in Hall. auto.
Qed.

(** Two ascending lists with the same tasks, no id twice, are the same list. *)
Lemma sorted_unique l1 : forall l2,
  StronglySorted lex_le l1 -> StronglySorted lex_le l2 ->
  Permutation l1 l2 -> NoDup (map id l1) -> l1 = l2.
Proof.
  induction l1 as [|a r1 IH]; intros l2 H1 H2 Hp Hnd.
  - now apply Permutation_nil in Hp.
  - destruct l2 as [|b r2].
    + apply Permutation_sym, Permutation_nil in Hp. discriminate.
    + assert (Eab : a = b).
      { assert (Ha : In a (b :: r2)) by (eapply Permutation_in; [exact Hp | now left]).
        assert (Hb : In b (a :: r1))
          by (eapply Permutation_in; [apply Permutation_sym; exact Hp | now left]).
        destruct Ha as [Ha | Ha]; [now symmetry|].
        destruct Hb as [Hb | Hb]; [exact Hb|].
        pose proof (sorted_head_le _ _ _ H2 Ha) as Hba.
        pose proof (sorted_head_le _ _ _ H1 Hb) as Hab.
        pose proof (String.leb_antisym _ _ Hab Hba) as Eid.
        inversion Hnd as [|? ? Hnotin _]; subst. exfalso. apply Hnotin.
        rewrite Eid. now apply in_map. }
      subst b. f_equal.
      inversion H1; inversion H2; inversion Hnd; subst.
      apply IH; auto. eapply Permutation_cons_inv; eauto.
Qed.

Lemma ids_of_values s : keyed s -> map id (Dict.values (_tasks s)) = Dict.keys (_tasks s).
Proof.
  intros [_ Hk]. unfold Dict.values, Dict.keys. rewrite map_map.
  induction Hk as [|[k t] r Hx Hr IH]; simpl; [reflexivity|].
  simpl in Hx. now rewrite Hx, IH.
Qed.

Lemma list_all_nodup s : keyed s -> NoDup (map id (Service.list_all s)).
Proof.
  intros Hk.
  eapply Permutation_NoDup.
  - apply Permutation_map, Permutation_sym, OrderFacts.sorted_perm.
  - rewrite (ids_of_values s Hk). apply Hk.
Qed.

End SortFacts.

(** X11: the listing does not depend on the order in which tasks entered the
    dictionary: two stores holding the same entries, each task under its own
    id, give the same [list_all], [list_pending] and [list_completed], and no
    id occurs twice in them. *)
Theorem listing_ignores_insertion_order (s1 s2 : TaskService)
  (Hk : keyed s1) (Hperm : Permutation (_tasks s1) (_tasks s2)) :
  Service.list_all s1 = Service.list_all s2 /\
  Service.list_pending s1 = Service.list_pending s2 /\
  Service.list_completed s1 = Service.list_completed s2 /\
  NoDup (map id (Service.list_all s1)).
Proof.
  assert (E : Service.list_all s1 = Service.list_all s2).
  { apply SortFacts.sorted_unique.
    - apply OrderFacts.sorted_sorted.
    - apply OrderFacts.sorted_sorted.
    - unfold Service.list_all.
      rewrite (OrderFacts.sorted_perm (Dict.values (_tasks s1))).
      rewrite (OrderFacts.sorted_perm (Dict.values (_tasks s2))).
      now apply Permutation_map.
    - now apply SortFacts.list_all_nodup. }
  split; [exact E|].
  unfold Service.list_pending, Service.list_completed. rewrite E.
  repeat split. rewrite <- E. now apply SortFacts.list_all_nodup.
Qed.

Lemma listing_ignores_insertion_order_witness :
  let b := mk_TaskService (List.rev (_tasks Scenario.three_tasks)) 0 NoFile 0 in
  keyed Scenario.three_tasks /\
  Permutation (_tasks Scenario.three_tasks) (_tasks b) /\
  Dict.keys (_tasks b) = ["T003"; "T002"; "T001"] /\
  map id (Service.list_all b) = ["T001"; "T002"; "T003"].
Proof.
  intros b.
  assert (Hk : keyed Scenario.three_tasks).
  { split; vm_compute.
    - repeat constructor; simpl; intuition discriminate.
    - repeat constructor. }
  assert (Hp : Permutation (_tasks Scenario.three_tasks) (_tasks b))
    by apply Permutation_rev.
  split; [exact Hk|]. split; [exact Hp|]. split; [reflexivity|].
  rewrite <- (proj1 (listing_ignores_insertion_order Scenario.three_tasks b Hk Hp)).
  reflexivity.
Defined.

(** ** The persisted timestamp text *)

Module StampFacts.
Import Datetime.

Lemma strftime_truncate d : strftime (truncate d) = strftime d.
Proof. reflexivity. Qed.

Lemma length_strftime d :
  valid d = true -> (1000 <= year d)%N -> String.length (strftime d) = 19.
Proof.
  intros Hv Hy.
  destruct (DatetimeFacts.strftime_chars d Hv Hy)
    as (y1 & y2 & y3 & y4 & m1 & m2 & d1 & d2 & h1 & h2 & i1 & i2 & s1 & s2 & E & _).
  now rewrite E.
Qed.

End StampFacts.

(** X12: for a task whose timestamp is a proper datetime with a year of
    four digits, [format_created_at] gives 19 characters that
    [datetime.fromisoformat] reads back as the timestamp cut to the whole
    second and without its offset; two such tasks get the same text exactly
    when their timestamps agree to the second. *)
Theorem format_created_at_to_the_second (a b : Task)
  (Ha : Datetime.valid (created_at a) = true)
  (Hb : Datetime.valid (created_at b) = true)
  (Ya : (1000 <= year (created_at a))%N)
  (Yb : (1000 <= year (created_at b))%N) :
  String.length (format_created_at a) = 19 /\
  Datetime.fromisoformat (format_created_at a) = Ok (Datetime.truncate (created_at a)) /\
  (format_created_at a = format_created_at b <->
   Datetime.truncate (created_at a) = Datetime.truncate (created_at b)).
Proof.
  unfold format_created_at.
  split; [now apply StampFacts.length_strftime|].
  split; [now apply DatetimeFacts.fromisoformat_strftime|].
  split.
  - intros E. apply (f_equal Datetime.fromisoformat) in E.
    rewrite !DatetimeFacts.fromisoformat_strftime in E by assumption.
    congruence.
  - intros E. rewrite <- (StampFacts.strftime_truncate (created_at a)), E.
    apply StampFacts.strftime_truncate.
Qed.

Lemma format_created_at_to_the_second_witness :
  Datetime.valid Scenario.clock = true /\
  format_created_at (mk_Task "T001" "a" "" false Scenario.clock) = "2025-12-29T10:30:00" /\
  String.length (format_created_at (mk_Task "T001" "a" "" false Scenario.clock)) = 19.
Proof.
  split; [reflexivity|]. split; [reflexivity|].
  refine (proj1 (format_created_at_to_the_second
                   (mk_Task "T001" "a" "" false Scenario.clock)
                   (mk_Task "T001" "a" "" false Scenario.clock) eq_refl eq_refl _ _));
    vm_compute; discriminate.
Defined.

(** * The command line *)

Module EndFacts.
Import Service.









End EndFacts.

Module CliFacts.




End CliFacts.



Module ListingFacts.








End ListingFacts.





(** X15: the complete command run twice on a pending task: the first run
    prints that the task was marked complete and writes the file once, the
    second prints that it is already complete and leaves the object, the file
    included, exactly as the first run left it. *)
Theorem complete_twice (not_found_text : string -> string)
  (s : TaskService) (raw k : string) (t : Task)
  (Hid : Validators.validate_task_id raw = Ok k)
  (Hget : Dict.get k (_tasks s) = Some t)
  (Hpending : completed t = false) :
  let r1 := Cli.complete not_found_text raw s in
  let r2 := Cli.complete not_found_text raw (fst r1) in
  snd r1 = Cli.said [Cli.marked_line "complete" (set_completed true t)] /\
  snd r2 = Cli.said [Cli.already_line "complete" (set_completed true t)] /\
  fst r1 = marked k t true s /\
  fst r2 = fst r1 /\
  writes (fst r2) = S (writes s) /\
  disk (fst r2) = Json (Service.snapshot (fst r2)).
Proof.
  assert (E1 : Cli.complete not_found_text raw s
               = (marked k t true s,
                  Cli.said [Cli.marked_line "complete" (set_completed true t)])).
  { unfold Cli.complete.
    rewrite (ServiceFacts.mark_complete_eq _ _ _ _ Hid Hget). now rewrite Hpending. }
  assert (E2 : Cli.complete not_found_text raw (marked k t true s)
               = (marked k t true s,
                  Cli.said [Cli.already_line "complete" (set_completed true t)])).
  { unfold Cli.complete.
    rewrite (ServiceFacts.mark_complete_eq _ _ _ _ Hid
               (ComposeFacts.marked_get k t true s)).
    reflexivity. }
  cbv zeta. rewrite E1. cbn [fst snd]. rewrite E2. cbn [fst snd].
  repeat split.
Qed.

Lemma complete_twice_witness :
  Validators.validate_task_id "t001" = Ok "T001" /\
  Cli.stdout (snd (Cli.complete Cli.tested_not_found_text "t001"
                     (fst (Cli.complete Cli.tested_not_found_text "t001"
                             Scenario.three_tasks))))
  = ["Task T001 is already complete"].
Proof.
  split; [reflexivity|].
  assert (H := proj1 (proj2 (complete_twice Cli.tested_not_found_text
                               Scenario.three_tasks "t001" "T001" _ eq_refl eq_refl eq_refl))).
  exact (f_equal Cli.stdout H).
Defined.

(** ** The contract tests of the command line, replayed on the model *)

Module ContractTests.

Example test_add_success_output_format :
  Cli.stdout (snd (cli (Cli.CmdAdd Scenario.clock "Buy groceries" "") (Cli.NotLoaded NoFile)))
  = [("Task T001 created: " ++ quote "Buy groceries")%string].
Proof. reflexivity. Qed.

Example test_add_empty_title_error :
  snd (cli (Cli.CmdAdd Scenario.clock "" "") (Cli.NotLoaded NoFile))
  = Cli.mk_outcome [] ["Error: Task title cannot be empty"] (Cli.Exited 1).
Proof. reflexivity. Qed.

Example test_list_empty_output :
  Cli.stdout (snd (cli (Cli.CmdList None false) (Cli.NotLoaded NoFile)))
  = ["No tasks found. Use 'todo add <title>' to create one."].
Proof. reflexivity. Qed.

Example test_list_filter_completed_output :
  Cli.stdout (snd (cli (Cli.CmdList (Some "completed") false) (Cli.Loaded Scenario.three_tasks)))
  = ["Tasks (1 completed):"; "[x] T002: Call mom"].
Proof. reflexivity. Qed.

Example test_view_task_output_format :
  Cli.stdout (snd (cli (Cli.CmdView "T002") (Cli.Loaded Scenario.three_tasks)))
  = ["Task T002"; "Title: Call mom"; "Description: -"; "Status: Complete";
     "Created: 2025-12-29T10:30:00"].
Proof. reflexivity. Qed.

Example test_view_invalid_id_error :
  snd (cli (Cli.CmdView "abc") (Cli.NotLoaded NoFile))
  = Cli.mk_outcome [] ["Error: Invalid task ID format. Expected format: T###"] (Cli.Exited 1).
Proof. reflexivity. Qed.

Example test_update_no_changes_error :
  snd (cli (Cli.CmdUpdate "T001" None None) (Cli.Loaded Scenario.three_tasks))
  = Cli.mk_outcome [] ["Error: No changes specified. Use --title or --description"]
                   (Cli.Exited 1).
Proof. reflexivity. Qed.

Example test_complete_already_complete_output :
  Cli.stdout (snd (cli (Cli.CmdComplete "T002") (Cli.Loaded Scenario.three_tasks)))
  = ["Task T002 is already complete"].
Proof. reflexivity. Qed.

Example test_incomplete_success_output :
  Cli.stdout (snd (cli (Cli.CmdIncomplete "T002") (Cli.Loaded Scenario.three_tasks)))
  = [("Task T002 marked incomplete: " ++ quote "Call mom")%string].
Proof. reflexivity. Qed.

(** A storage file whose top level is a list: [get_service] raises before
    the command has a [try] around it. *)
Example corrupted_file_escapes :
  cli (Cli.CmdList None false) (Cli.NotLoaded Samples.top_level_list)
  = (Cli.NotLoaded Samples.top_level_list, Cli.escaped AttributeError).
Proof. reflexivity. Qed.

(** A task stamped in the year 999 can be completed, and the file then
    written stops every later run of the program. *)
Example short_year_stops_later_runs :
  let first := cli (Cli.CmdComplete "T001") (Cli.NotLoaded Samples.old_year) in
  Cli.stdout (snd first) = [("Task T001 marked complete: " ++ quote "a")%string] /\
  (exists s, fst first = Cli.Loaded s /\
             snd (cli (Cli.CmdList None false) (Cli.NotLoaded (disk s)))
             = Cli.escaped ValueError).
Proof. split; [reflexivity|]. eexists. split; reflexivity. Qed.

(** The second command of a process runs on the object the first one left. *)
Example service_is_kept :
  Cli.stdout (snd (cli (Cli.CmdList None false)
                       (fst (cli (Cli.CmdAdd Scenario.clock "Buy groceries" "")
                                 (Cli.NotLoaded NoFile)))))
  = ["Tasks (1 total):"; "[ ] T001: Buy groceries"].
Proof. reflexivity. Qed.

End ContractTests.
